(** * Team-Management: the data-access and aggregation core

    A shallow embedding of the handlers of the React pages that talk to the
    remote store (Supabase): the Projects page ([createTask],
    [updateTaskStatus]), the Todo page ([updateTaskStatus]), the Friends page
    ([fetchFriends], [sendFriendRequest], [removeFriend]), the Chat page
    ([markMessagesAsRead], [sendMessage]), the Activity page ([isUpcoming],
    [isOverdue], [formatDate]) and the auth context ([createProfile],
    [fetchUserProfile]).  The later sections add the rest of these pages
    (requests and search of the Friends page, [fetchMessages], [deleteTask]
    and the columns of the Todo page, projects, team messages and fetches of
    the Projects page, the tabs of the Activity page), the Notifications
    page, the skills of the Profile page and the dates of the Calendar page.

    Conventions.
    - JavaScript numbers are IEEE 754 binary64 values; where the source does
      arithmetic that can round ([Math.round((c / t) * 100)]) the embedding
      uses Rocq's primitive floats, which are the same binary64 values.
    - Timestamps are the integer millisecond counts of [Date.getTime()].
    - The remote store is a record of tables.  How it answers each request
      (served, or refused with an error object) is scripted by a list of
      replies carried in the world, so that every failure the client can
      observe is covered.  Uniqueness and check constraints of the migration
      are enforced by the insert operations, and the foreign keys of
      [projects], [tasks], [messages] and [notifications] by [insert_ref].
    - The migration enables row-level security on every table.  A request
      that is served acts on the rows its filters select that the policy of
      the table admits for the signed-in user.  The policy is written out
      ([select_as], [update_as], [delete_as]) where it can pass over a row
      the filters select: the deletes on [friendships] and [notifications],
      which have no policy FOR DELETE, the update of a project, which is
      its creator's, and the fetches of the tasks and the messages of a
      project.
    - [String.prototype.trim] is a parameter of the handlers that call it:
      what is proved of them holds of the function of the runtime.
    - A handler closes over the component state of the render that created
      it; [setX] calls write the next state and never change what the running
      handler reads. *)

From Stdlib Require Import ZArith List String Ascii Bool Lia Sorted.
From Stdlib Require Import Uint63 Floats.PrimFloat Floats.FloatOps Floats.SpecFloat.
Import ListNotations.

Local Open Scope Z_scope.
Local Open Scope string_scope.

(** ** The JavaScript runtime pieces the handlers use *)

Module Js.

(** [array.length] as a Number.  Array lengths are below [2^32], far inside
    the range where the conversion is exact. *)
Definition Number_of_nat (n : nat) : float :=
  PrimFloat.of_uint63 (Uint63.of_Z (Z.of_nat n)).

(** [Math.round]: the integer nearest to [x], ties towards +infinity.  The
    value of a finite float is [m * 2^e]; the rounding is done on that
    exact value.  Zero, NaN and the infinities are mapped to [0]: the one
    call site guards the division by [totalTasks > 0], so only finite
    values between 0 and 100 reach it. *)
Definition Math_round (x : float) : Z :=
  match Prim2SF x with
  | S754_finite s m e =>
      let num := if s then Z.neg m else Z.pos m in
      match e with
      | Z0 => num
      | Zpos p => num * 2 ^ Zpos p
      | Zneg p => (2 * num + 2 ^ Zpos p) / 2 ^ (Zpos p + 1)
      end
  | _ => 0
  end.

(** Truthiness of a possibly missing string, as [a || b] tests it. *)
Definition truthy (s : option string) : bool :=
  match s with
  | Some (String _ _) => true
  | _ => false
  end.

(** [a || b] on strings. *)
Definition or_else (a : option string) (b : string) : string :=
  match a with
  | Some (String c s) => String c s
  | _ => b
  end.

(** [s.slice(0, n)]. *)
Definition slice0 (n : nat) (s : string) : string := substring 0 n s.

(** [!s]: the empty string is the only falsy string. *)
Definition falsy (s : string) : bool :=
  match s with EmptyString => true | _ => false end.

(** [String.prototype.trim] strips the white space and the line terminators
    of ECMAScript, a set of Unicode code points.  The handlers that call it
    take it as a parameter [trim], so that what is proved of them holds of
    the runtime's function whatever the encoding of a string.

    [ascii_trim] is that function on ASCII text: of the characters below
    128, the white space and line terminators are 9 to 13 and 32.  The
    examples, whose strings are ASCII, run the handlers with it. *)
Definition is_ascii_space (c : ascii) : bool :=
  let n := nat_of_ascii c in
  ((9 <=? n)%nat && (n <=? 13)%nat) || (n =? 32)%nat.

Fixpoint ascii_trimStart (s : string) : string :=
  match s with
  | String c s' => if is_ascii_space c then ascii_trimStart s' else s
  | EmptyString => EmptyString
  end.

(** Drops trailing white space: a character is kept when something that is
    not white space follows or it is not white space itself. *)
Fixpoint ascii_trimEnd (s : string) : string :=
  match s with
  | String c s' =>
      match ascii_trimEnd s' with
      | EmptyString => if is_ascii_space c then EmptyString else String c EmptyString
      | r => String c r
      end
  | EmptyString => EmptyString
  end.

Definition ascii_trim (s : string) : string := ascii_trimEnd (ascii_trimStart s).

End Js.

(** ** The rows of the remote store (the migration's tables) *)

Definition Id := string.

Inductive priority_level := high | moderate | low.
Inductive task_status := pending | in_progress | completed.
Inductive friendship_status := fpending | accepted | declined.
Inductive notification_type := friend_request | task_deadline | chat | project.

Definition task_status_eqb (a b : task_status) : bool :=
  match a, b with
  | pending, pending | in_progress, in_progress | completed, completed => true
  | _, _ => false
  end.

Definition friendship_status_eqb (a b : friendship_status) : bool :=
  match a, b with
  | fpending, fpending | accepted, accepted | declined, declined => true
  | _, _ => false
  end.

Module Profile.
Record t := mk {
  id : Id;
  username : string;
  email : string;
  bio : option string;
  avatar_url : option string
}.
End Profile.

Module Project.
Record t := mk {
  id : Id;
  name : string;
  description : string;
  priority : priority_level;
  deadline : Z;
  progress : Z;
  creator_id : Id;
  team_members : list Id;
  created_at : Z
}.

Definition with_progress (p : Z) (r : t) : t :=
  mk (id r) (name r) (description r) (priority r) (deadline r) p
     (creator_id r) (team_members r) (created_at r).
End Project.

Module Task.
Record t := mk {
  id : Id;
  title : string;
  description : string;
  priority : priority_level;
  status : task_status;
  deadline : Z;
  assigned_to : Id;
  project_id : option Id;
  user_id : Id;
  created_at : Z
}.

(** [{ ...task, status }] *)
Definition with_status (s : task_status) (r : t) : t :=
  mk (id r) (title r) (description r) (priority r) s (deadline r)
     (assigned_to r) (project_id r) (user_id r) (created_at r).
End Task.

Module Friendship.
Record t := mk {
  id : Id;
  requester_id : Id;
  addressee_id : Id;
  status : friendship_status;
  created_at : Z
}.
End Friendship.

Module Message.
Record t := mk {
  id : Id;
  sender_id : Id;
  receiver_id : Id;
  content : string;
  read : bool;
  created_at : Z
}.

Definition with_read (b : bool) (r : t) : t :=
  mk (id r) (sender_id r) (receiver_id r) (content r) b (created_at r).
End Message.

Module Notification.
Record t := mk {
  id : Id;
  user_id : Id;
  title : string;
  message : string;
  type : notification_type;
  read : bool;
  created_at : Z
}.
End Notification.

(** ** The store, the world and the handler monad *)

Record DB := mkDB {
  profiles : list Profile.t;
  projects : list Project.t;
  tasks : list Task.t;
  friendships : list Friendship.t;
  messages : list Message.t;
  notifications : list Notification.t
}.

(** A table of the store: how to read its rows and how to replace them. *)
Record Table (R : Type) := mkTable {
  rows : DB -> list R;
  with_rows : list R -> DB -> DB
}.
Arguments rows {R}.
Arguments with_rows {R}.

Definition profiles_table : Table Profile.t :=
  mkTable _ profiles
    (fun l d => mkDB l (projects d) (tasks d) (friendships d) (messages d) (notifications d)).
Definition projects_table : Table Project.t :=
  mkTable _ projects
    (fun l d => mkDB (profiles d) l (tasks d) (friendships d) (messages d) (notifications d)).
Definition tasks_table : Table Task.t :=
  mkTable _ tasks
    (fun l d => mkDB (profiles d) (projects d) l (friendships d) (messages d) (notifications d)).
Definition friendships_table : Table Friendship.t :=
  mkTable _ friendships
    (fun l d => mkDB (profiles d) (projects d) (tasks d) l (messages d) (notifications d)).
Definition messages_table : Table Message.t :=
  mkTable _ messages
    (fun l d => mkDB (profiles d) (projects d) (tasks d) (friendships d) l (notifications d)).
Definition notifications_table : Table Notification.t :=
  mkTable _ notifications
    (fun l d => mkDB (profiles d) (projects d) (tasks d) (friendships d) (messages d) l).

(** The error object of a refused request; only its [code] is inspected. *)
Record PgError := mkError { code : string }.

(** How the store answers one request: served (for an insert, with the id
    and the [created_at] it generates for the new row), or refused. *)
Inductive Reply :=
| Served (fresh : Id) (at_time : Z)
| Refused (e : PgError).

(** What reaches the toast and log sink. *)
Inductive Report :=
| toast_success (msg : string)
| toast_error (msg : string)
| console_error (msg : string)
| console_warn (msg : string).

Definition is_toast_error (r : Report) : bool :=
  match r with toast_error _ => true | _ => false end.

(** The world a handler of a component with state [S] runs in. *)
Record World (S : Type) := mkWorld {
  db : DB;
  replies : list Reply;
  sink : list Report;
  local : S
}.
Arguments mkWorld {S}.
Arguments db {S}.
Arguments replies {S}.
Arguments sink {S}.
Arguments local {S}.

(** The result of a computation: a value, or a thrown error.  Effects done
    before a [throw] stay done, as in JavaScript. *)
Inductive Outcome (A : Type) :=
| Ret (a : A)
| Throw (e : PgError).
Arguments Ret {A}.
Arguments Throw {A}.

Definition M (S A : Type) := World S -> Outcome A * World S.

Definition ret {S A} (a : A) : M S A := fun w => (Ret a, w).

Definition bind {S A B} (m : M S A) (k : A -> M S B) : M S B :=
  fun w => match m w with
           | (Ret a, w') => k a w'
           | (Throw e, w') => (Throw e, w')
           end.

Definition throw {S A} (e : PgError) : M S A := fun w => (Throw e, w).

(** [try { body } catch (error) { handler }] *)
Definition try_catch {S A} (body : M S A) (handler : PgError -> M S A) : M S A :=
  fun w => match body w with
           | (Ret a, w') => (Ret a, w')
           | (Throw e, w') => handler e w'
           end.

(** [try { body } finally { fin }] *)
Definition try_finally {S A} (body : M S A) (fin : M S unit) : M S A :=
  fun w => match body w with
           | (r, w') => match fin w' with
                        | (Ret _, w'') => (r, w'')
                        | (Throw e, w'') => (Throw e, w'')
                        end
           end.

Declare Scope handler_scope.
Delimit Scope handler_scope with handler.
Notation "x <- c1 ;; c2" := (bind c1 (fun x => c2))
  (at level 61, c1 at next level, right associativity) : handler_scope.
Notation "c1 ;; c2" := (bind c1 (fun _ => c2))
  (at level 61, right associativity) : handler_scope.
Local Open Scope handler_scope.

(** The state of the render the handler was created in. *)
Definition closure {S A} (body : S -> M S A) : M S A :=
  fun w => body (local w) w.

(** A [setX] call. *)
Definition set_local {S} (f : S -> S) : M S unit :=
  fun w => (Ret tt, mkWorld (db w) (replies w) (sink w) (f (local w))).

Definition report {S} (r : Report) : M S unit :=
  fun w => (Ret tt, mkWorld (db w) (replies w) (sink w ++ [r]) (local w)).

(** Final world of a handler; an uncaught error is dropped, as for a
    rejected promise nobody awaits. *)
Definition run {S A} (m : M S A) (w : World S) : World S := snd (m w).

(** *** Requests *)

(** The supabase [{ data, error }] result.  The client hands every
    failure back as the [error] of the result, failures of the transport
    included: awaiting a request does not throw. *)
Inductive Response (A : Type) :=
| Data (a : A)
| Error (e : PgError).
Arguments Data {A}.
Arguments Error {A}.

(** The store's next answer.  With the script exhausted the store cannot be
    reached. *)
Definition next_reply {S} : M S Reply :=
  fun w => match replies w with
           | r :: rest => (Ret r, mkWorld (db w) rest (sink w) (local w))
           | [] => (Ret (Refused (mkError "fetch failed")), w)
           end.

Definition write_db {S} (f : DB -> DB) : M S unit :=
  fun w => (Ret tt, mkWorld (f (db w)) (replies w) (sink w) (local w)).

Definition read_db {S} : M S DB := fun w => (Ret (db w), w).

(** [from(T).select(..)] with the conjunction of its filters. *)
Definition select {S R} (T : Table R) (filter : R -> bool) : M S (Response (list R)) :=
  r <- next_reply ;;
  match r with
  | Refused e => ret (Error e)
  | Served _ _ =>
      d <- read_db ;;
      ret (Data (List.filter filter (rows T d)))
  end.

(** [.single()]: exactly one row, or the error [PGRST116]. *)
Definition single {R} (r : Response (list R)) : Response R :=
  match r with
  | Error e => Error e
  | Data [x] => Data x
  | Data _ => Error (mkError "PGRST116")
  end.

(** [from(T).insert(row)]: the row is built from the generated id and
    timestamp; [admissible] is the table's constraints, a violation is
    refused with the code of the violated constraint. *)
Definition insert {S R} (T : Table R) (make : Id -> Z -> R)
    (admissible : list R -> R -> option PgError) : M S (Response R) :=
  r <- next_reply ;;
  match r with
  | Refused e => ret (Error e)
  | Served fresh now =>
      d <- read_db ;;
      let row := make fresh now in
      match admissible (rows T d) row with
      | Some e => ret (Error e)
      | None =>
          write_db (with_rows T (rows T d ++ [row])) ;;
          ret (Data row)
      end
  end.

(** [from(T).update(patch)] on the rows the filters select. *)
Definition update {S R} (T : Table R) (filter : R -> bool) (patch : R -> R)
  : M S (Response unit) :=
  r <- next_reply ;;
  match r with
  | Refused e => ret (Error e)
  | Served _ _ =>
      write_db (fun d =>
        with_rows T (map (fun x => if filter x then patch x else x) (rows T d)) d) ;;
      ret (Data tt)
  end.

(** [from(T).delete()] on the rows the filters select. *)
Definition delete {S R} (T : Table R) (filter : R -> bool) : M S (Response unit) :=
  r <- next_reply ;;
  match r with
  | Refused e => ret (Error e)
  | Served _ _ =>
      write_db (fun d =>
        with_rows T (List.filter (fun x => negb (filter x)) (rows T d)) d) ;;
      ret (Data tt)
  end.

(** [if (error) throw error] *)
Definition or_throw {S A} (r : Response A) : M S A :=
  match r with
  | Data a => ret a
  | Error e => throw e
  end.

(** *** Row-level security

    The migration enables row-level security on every table, and the client
    signs its requests with the session of the signed-in user.  A SELECT,
    UPDATE or DELETE then acts on the rows, among those its filters select,
    that a policy of the table for that command admits for [auth.uid()];
    the other rows are passed over without an error, and a command for which
    the table has no policy acts on no row.

    [select], [update] and [delete] above act on every row their filters
    select.  The handlers use them for the requests whose rows the policy
    admits for the signed-in user: the filter names the user in a column the
    policy tests ([fetchTasks], [fetchNotifications], [fetchFriends], the
    two request lists, [fetchMessages], [markMessagesAsRead],
    [markAllAsRead], [fetchProjects]), the policy admits every row ([profiles]
    FOR SELECT), or the page offers the request only for rows it has fetched
    for that user and which the policy of the command admits as well (the
    task updates and [deleteTask], [respondToFriendRequest], [markAsRead],
    and [deleteProject], whose button is shown to the creator only).  The
    requests for which that fails go through [select_as], [update_as] and
    [delete_as] with the policy of the migration. *)
Module Policy.

(** "Users can update own projects": [USING (creator_id = auth.uid())]. *)
Definition projects_update (uid : Id) (p : Project.t) : bool :=
  Project.creator_id p =? uid.

(** "Users can read own tasks":
    [USING (user_id = auth.uid() OR assigned_to = auth.uid())]. *)
Definition tasks_select (uid : Id) (t : Task.t) : bool :=
  (Task.user_id t =? uid) || (Task.assigned_to t =? uid).

(** "Users can read their messages":
    [USING (sender_id = auth.uid() OR receiver_id = auth.uid())]. *)
Definition messages_select (uid : Id) (m : Message.t) : bool :=
  (Message.sender_id m =? uid) || (Message.receiver_id m =? uid).

(** [friendships] and [notifications] have policies FOR SELECT, INSERT and
    UPDATE and none FOR DELETE. *)
Definition friendships_delete (f : Friendship.t) : bool := false.
Definition notifications_delete (n : Notification.t) : bool := false.

End Policy.

Definition select_as {S R} (policy : R -> bool) (T : Table R) (filter : R -> bool)
  : M S (Response (list R)) :=
  select T (fun x => policy x && filter x).

Definition update_as {S R} (policy : R -> bool) (T : Table R) (filter : R -> bool)
    (patch : R -> R) : M S (Response unit) :=
  update T (fun x => policy x && filter x) patch.

Definition delete_as {S R} (policy : R -> bool) (T : Table R) (filter : R -> bool)
  : M S (Response unit) :=
  delete T (fun x => policy x && filter x).

(** *** The constraints of the migration *)

Definition unconstrained {R} : list R -> R -> option PgError := fun _ _ => None.

Definition unique_violation := mkError "23505".
Definition check_violation := mkError "23514".

(** [profiles]: [id] is the primary key and [username] is UNIQUE. *)
Definition profile_admissible (l : list Profile.t) (p : Profile.t) : option PgError :=
  if existsb (fun q => (Profile.id q =? Profile.id p)
                       || (Profile.username q =? Profile.username p)) l
  then Some unique_violation else None.

(** [friendships]: UNIQUE(requester_id, addressee_id) and
    CHECK(requester_id != addressee_id). *)
Definition friendship_admissible (l : list Friendship.t) (f : Friendship.t)
  : option PgError :=
  if Friendship.requester_id f =? Friendship.addressee_id f then Some check_violation
  else if existsb (fun g => (Friendship.requester_id g =? Friendship.requester_id f)
                            && (Friendship.addressee_id g =? Friendship.addressee_id f)) l
  then Some unique_violation else None.

(** The references of [friendships] to [profiles] are not part of
    [friendship_admissible]: the page sends a request for a profile that a
    search has returned, in the name of a user whose profile exists since
    sign-in. *)

(** *** Tables with references

    [insert_ref] is [insert] for a table whose constraints read other
    tables: the foreign keys of the migration. *)
Definition insert_ref {S R} (T : Table R) (make : Id -> Z -> R)
    (admissible : DB -> R -> option PgError) : M S (Response R) :=
  r <- next_reply ;;
  match r with
  | Refused e => ret (Error e)
  | Served fresh now =>
      d <- read_db ;;
      let row := make fresh now in
      match admissible d row with
      | Some e => ret (Error e)
      | None =>
          write_db (with_rows T (rows T d ++ [row])) ;;
          ret (Data row)
      end
  end.

Definition foreign_key_violation := mkError "23503".

Definition has_profile (d : DB) (i : Id) : bool :=
  existsb (fun p => Profile.id p =? i) (profiles d).

Definition has_project (d : DB) (i : Id) : bool :=
  existsb (fun p => Project.id p =? i) (projects d).

(** [projects]: [creator_id] REFERENCES [profiles(id)]. *)
Definition project_constraints (d : DB) (p : Project.t) : option PgError :=
  if has_profile d (Project.creator_id p) then None else Some foreign_key_violation.

(** [tasks]: [assigned_to] and [user_id] REFERENCE [profiles(id)], and
    [project_id], when it is not null, REFERENCES [projects(id)]. *)
Definition task_constraints (d : DB) (t : Task.t) : option PgError :=
  if has_profile d (Task.assigned_to t)
     && has_profile d (Task.user_id t)
     && match Task.project_id t with
        | Some p => has_project d p
        | None => true
        end
  then None else Some foreign_key_violation.

(** [messages]: CHECK(sender_id != receiver_id), and [sender_id] and
    [receiver_id] REFERENCE [profiles(id)]. *)
Definition message_constraints (d : DB) (m : Message.t) : option PgError :=
  if Message.sender_id m =? Message.receiver_id m then Some check_violation
  else if has_profile d (Message.sender_id m) && has_profile d (Message.receiver_id m)
  then None else Some foreign_key_violation.

(** [notifications]: [user_id] REFERENCES [profiles(id)]. *)
Definition notification_constraints (d : DB) (n : Notification.t) : option PgError :=
  if has_profile d (Notification.user_id n) then None else Some foreign_key_violation.

(** The authenticated identity of [useAuth()]; [user_metadata_username] is
    [user_metadata?.username]. *)
Module User.
Record t := mk {
  id : Id;
  email : option string;
  user_metadata_username : option string
}.
End User.

(** [.order(key, { ascending })]: a stable insertion sort on the key (rows
    with equal keys keep the order of the table). *)
Fixpoint insert_by {R} (key : R -> Z) (ascending : bool) (x : R) (l : list R) : list R :=
  match l with
  | [] => [x]
  | y :: l' =>
      if (if ascending then (key x <=? key y)%Z else (key y <=? key x)%Z)
      then x :: l
      else y :: insert_by key ascending x l'
  end.

Definition order {R} (key : R -> Z) (ascending : bool) (l : list R) : list R :=
  fold_right (insert_by key ascending) [] l.

Definition option_id_eqb (a : option Id) (b : Id) : bool :=
  match a with Some x => x =? b | None => false end.

(** ** The Projects page *)

Module Projects.

Record NewTask := mkNewTask {
  title : string;
  description : string;
  priority : priority_level;
  deadline : Z;
  assigned_to : Id
}.

Definition emptyTask : NewTask := mkNewTask "" "" moderate 0 "".

Record State := mkState {
  projectTasks : list Task.t;
  selectedProject : option Project.t;
  newTask : NewTask;
  showTaskForm : bool
}.

Definition setProjectTasks (v : list Task.t) : M State unit :=
  set_local (fun s => mkState v (selectedProject s) (newTask s) (showTaskForm s)).
Definition setSelectedProject (f : option Project.t -> option Project.t) : M State unit :=
  set_local (fun s => mkState (projectTasks s) (f (selectedProject s)) (newTask s) (showTaskForm s)).
Definition setNewTask (v : NewTask) : M State unit :=
  set_local (fun s => mkState (projectTasks s) (selectedProject s) v (showTaskForm s)).
Definition setShowTaskForm (v : bool) : M State unit :=
  set_local (fun s => mkState (projectTasks s) (selectedProject s) (newTask s) v).

(** The notification of a task assignment. *)
Definition assignment_notification (nt : NewTask) (fresh : Id) (now : Z) : Notification.t :=
  Notification.mk fresh (assigned_to nt) "New Task Assigned"
    ("You have been assigned a new task: " ++ title nt) project false now.

Section Runtime.

(** [String.prototype.trim]. *)
Variable trim : string -> string.

Definition createTask (user : User.t) : M State unit :=
  closure (fun s =>
    let nt := newTask s in
    if Js.falsy (trim (title nt)) then ret tt else
    match selectedProject s with
    | None => ret tt
    | Some selected =>
      try_catch
        (r <- insert_ref tasks_table
                (fun fresh now =>
                   Task.mk fresh (title nt) (description nt) (priority nt) pending
                     (deadline nt) (assigned_to nt) (Some (Project.id selected))
                     (User.id user) now)
                task_constraints ;;
         data <- or_throw r ;;
         setProjectTasks (data :: projectTasks s) ;;
         setNewTask emptyTask ;;
         setShowTaskForm false ;;
         report (toast_success "Task created successfully!") ;;
         if negb (assigned_to nt =? User.id user)
         then (_ <- insert_ref notifications_table (assignment_notification nt)
                      notification_constraints ;;
               ret tt)
         else ret tt)
        (fun _ =>
           report (console_error "Error creating task:") ;;
           report (toast_error "Failed to create task"))
    end).

End Runtime.

(** The three [const]s of [updateTaskStatus] under "Update project
    progress", over the task list of the closure. *)
Definition completedTasks (projectTasks : list Task.t) (taskId : Id) (status : task_status)
  : nat :=
  List.length (List.filter
            (fun t => task_status_eqb (Task.status t) completed
                      || ((Task.id t =? taskId) && task_status_eqb status completed))
            projectTasks).

Definition totalTasks (projectTasks : list Task.t) : nat := List.length projectTasks.

(** [totalTasks > 0 ? Math.round((completedTasks / totalTasks) * 100) : 0] *)
Definition progress_of_counts (completedTasks totalTasks : nat) : Z :=
  if (0 <? totalTasks)%nat
  then Js.Math_round
         (PrimFloat.mul
            (PrimFloat.div (Js.Number_of_nat completedTasks) (Js.Number_of_nat totalTasks))
            100%float)
  else 0.

Definition newProgress (projectTasks : list Task.t) (taskId : Id) (status : task_status) : Z :=
  progress_of_counts (completedTasks projectTasks taskId status) (totalTasks projectTasks).

Definition type_error := mkError "TypeError".

(** [user] is the signed-in user of [useAuth()], in whose name the
    requests are made: the update of the project is subject to the policy of
    [projects] FOR UPDATE. *)
Definition updateTaskStatus (user : User.t) (taskId : Id) (status : task_status)
  : M State unit :=
  closure (fun s =>
    try_catch
      (r <- update tasks_table (fun t => Task.id t =? taskId) (Task.with_status status) ;;
       _ <- or_throw r ;;
       setProjectTasks
         (map (fun task => if Task.id task =? taskId then Task.with_status status task else task)
              (projectTasks s)) ;;
       let progress := newProgress (projectTasks s) taskId status in
       match selectedProject s with
       | None => throw type_error
       | Some selected =>
           _ <- update_as (Policy.projects_update (User.id user)) projects_table
                  (fun p => Project.id p =? Project.id selected)
                  (Project.with_progress progress) ;;
           setSelectedProject (fun prev =>
             match prev with
             | Some p => Some (Project.with_progress progress p)
             | None => None
             end) ;;
           report (toast_success "Task updated!")
       end)
      (fun _ =>
         report (console_error "Error updating task:") ;;
         report (toast_error "Failed to update task"))).

End Projects.

(** ** The Todo page *)

Module Todo.

Record NewTask := mkNewTask {
  title : string;
  description : string;
  priority : priority_level;
  deadline : Z
}.

Definition emptyTask : NewTask := mkNewTask "" "" moderate 0.

Record State := mkState {
  tasks : list Task.t;
  loading : bool;
  showAddForm : bool;
  newTask : NewTask
}.

Definition setTasks (v : list Task.t) : M State unit :=
  set_local (fun s => mkState v (loading s) (showAddForm s) (newTask s)).
Definition setLoading (v : bool) : M State unit :=
  set_local (fun s => mkState (tasks s) v (showAddForm s) (newTask s)).
Definition setShowAddForm (v : bool) : M State unit :=
  set_local (fun s => mkState (tasks s) (loading s) v (newTask s)).
Definition setNewTask (v : NewTask) : M State unit :=
  set_local (fun s => mkState (tasks s) (loading s) (showAddForm s) v).

Definition fetchTasks (user : User.t) : M State unit :=
  try_finally
    (try_catch
       (r <- select tasks_table (fun t => Task.user_id t =? User.id user) ;;
        data <- or_throw r ;;
        setTasks (order Task.created_at false data))
       (fun _ =>
          report (console_error "Error fetching tasks:") ;;
          report (toast_error "Failed to fetch tasks")))
    (setLoading false).

Section Runtime.

(** [String.prototype.trim]. *)
Variable trim : string -> string.

(** Tasks added on this page belong to no project and are assigned to
    their creator. *)
Definition addTask (user : User.t) : M State unit :=
  closure (fun s =>
    let nt := newTask s in
    if Js.falsy (trim (title nt)) then ret tt else
    try_catch
      (r <- insert_ref tasks_table
              (fun fresh now =>
                 Task.mk fresh (title nt) (description nt) (priority nt)
                   pending (deadline nt) (User.id user) None (User.id user) now)
              task_constraints ;;
       data <- or_throw r ;;
       setTasks (data :: tasks s) ;;
       setNewTask emptyTask ;;
       setShowAddForm false ;;
       report (toast_success "Task added successfully!"))
      (fun _ =>
         report (console_error "Error adding task:") ;;
         report (toast_error "Failed to add task"))).

End Runtime.

Definition updateTaskStatus (taskId : Id) (status : task_status) : M State unit :=
  closure (fun s =>
    try_catch
      (r <- update tasks_table (fun t => Task.id t =? taskId) (Task.with_status status) ;;
       _ <- or_throw r ;;
       setTasks
         (map (fun task => if Task.id task =? taskId then Task.with_status status task else task)
              (tasks s)) ;;
       report (toast_success "Task updated!"))
      (fun _ =>
         report (console_error "Error updating task:") ;;
         report (toast_error "Failed to update task"))).

End Todo.


(** ** The Friends page *)

(** The profile a foreign key column joins to ([profiles!..._fkey(...)]);
    [None] is the [null] of a join that finds no row. *)
Definition lookup_profile (d : DB) (i : Id) : option Profile.t :=
  find (fun p => Profile.id p =? i) (profiles d).

Module Friends.

(** A friendship row with the profiles its select joins in. *)
Record FriendRequest := mkRequest {
  row : Friendship.t;
  requester : option Profile.t;
  addressee : option Profile.t
}.

Definition requester_id (f : FriendRequest) : Id := Friendship.requester_id (row f).
Definition addressee_id (f : FriendRequest) : Id := Friendship.addressee_id (row f).

Definition join (with_requester with_addressee : bool) (d : DB) (f : Friendship.t)
  : FriendRequest :=
  mkRequest f
    (if with_requester then lookup_profile d (Friendship.requester_id f) else None)
    (if with_addressee then lookup_profile d (Friendship.addressee_id f) else None).

Definition select_friendships {S} (filter : Friendship.t -> bool)
    (with_requester with_addressee : bool) : M S (Response (list FriendRequest)) :=
  (r <- select friendships_table filter ;;
   match r with
   | Error e => ret (Error e)
   | Data l => d <- read_db ;; ret (Data (map (join with_requester with_addressee d) l))
   end)%handler.

Record State := mkState {
  searchResults : list Profile.t;
  friends : list (option Profile.t);
  friendRequests : list FriendRequest;
  sentRequests : list FriendRequest;
  loading : bool
}.

Definition setSearchResults (v : list Profile.t) : M State unit :=
  set_local (fun s => mkState v (friends s) (friendRequests s) (sentRequests s) (loading s)).
Definition setFriends (v : list (option Profile.t)) : M State unit :=
  set_local (fun s => mkState (searchResults s) v (friendRequests s) (sentRequests s) (loading s)).
Definition setSentRequests (v : list FriendRequest) : M State unit :=
  set_local (fun s => mkState (searchResults s) (friends s) (friendRequests s) v (loading s)).
Definition setLoading (v : bool) : M State unit :=
  set_local (fun s => mkState (searchResults s) (friends s) (friendRequests s) (sentRequests s) v).

(** The filter of [fetchFriends]:
    [.or(requester_id.eq.U, addressee_id.eq.U).eq('status', 'accepted')]. *)
Definition accepted_with (user : Id) (f : Friendship.t) : bool :=
  ((Friendship.requester_id f =? user) || (Friendship.addressee_id f =? user))
  && friendship_status_eqb (Friendship.status f) accepted.

(** The callback of [data.map] in [fetchFriends]. *)
Definition counterpart (user : Id) (friendship : FriendRequest) : option Profile.t :=
  if requester_id friendship =? user then addressee friendship else requester friendship.

(** What [fetchFriends] computes from the store when the query is served. *)
Definition friendsList (d : DB) (user : Id) : list (option Profile.t) :=
  map (counterpart user) (map (join true true d) (List.filter (accepted_with user) (friendships d))).

Definition fetchFriends (user : User.t) : M State unit :=
  try_finally
    (try_catch
       (r <- select_friendships (accepted_with (User.id user)) true true ;;
        data <- or_throw r ;;
        setFriends (map (counterpart (User.id user)) data))
       (fun _ =>
          report (console_error "Error fetching friends:") ;;
          report (toast_error "Failed to fetch friends")))
    (setLoading false).

Definition fetchSentRequests (user : User.t) : M State unit :=
  try_catch
    (r <- select_friendships
            (fun f => (Friendship.requester_id f =? User.id user)
                      && friendship_status_eqb (Friendship.status f) fpending)
            false true ;;
     data <- or_throw r ;;
     setSentRequests data)
    (fun _ => report (console_error "Error fetching sent requests:")).

Definition request_notification (userId : Id) (fresh : Id) (now : Z) : Notification.t :=
  Notification.mk fresh userId "Friend Request" "You have received a new friend request"
    friend_request false now.

(** [fetchSentRequests()] is started without [await]: its request is the
    last one the handler issues and its continuation runs once the handler
    body is through, so it is sequenced after the body. *)
Definition sendFriendRequest (user : User.t) (userId : Id) : M State unit :=
  closure (fun s =>
    started <-
      try_catch
        (r <- insert friendships_table
                (fun fresh now => Friendship.mk fresh (User.id user) userId fpending now)
                friendship_admissible ;;
         _ <- or_throw r ;;
         _ <- insert notifications_table (request_notification userId) unconstrained ;;
         setSearchResults
           (List.filter (fun u => negb (Profile.id u =? userId)) (searchResults s)) ;;
         report (toast_success "Friend request sent!") ;;
         ret true)
        (fun _ =>
           report (console_error "Error sending friend request:") ;;
           report (toast_error "Failed to send friend request") ;;
           ret false) ;;
    if started then fetchSentRequests user else ret tt).

(** The filter of [removeFriend]:
    [.or(and(requester_id.eq.U, addressee_id.eq.F), and(requester_id.eq.F, addressee_id.eq.U))]. *)
Definition between (user friendId : Id) (f : Friendship.t) : bool :=
  ((Friendship.requester_id f =? user) && (Friendship.addressee_id f =? friendId))
  || ((Friendship.requester_id f =? friendId) && (Friendship.addressee_id f =? user)).

(** A [null] entry of [friends] makes [f.id] throw; the [catch] reports it. *)
Fixpoint friends_without (friendId : Id) (l : list (option Profile.t))
  : option (list (option Profile.t)) :=
  match l with
  | [] => Some []
  | None :: _ => None
  | Some p :: l' =>
      match friends_without friendId l' with
      | None => None
      | Some r => Some (if Profile.id p =? friendId then r else Some p :: r)
      end
  end.

(** The delete is subject to row-level security, and [friendships] has no
    policy FOR DELETE. *)
Definition removeFriend (user : User.t) (friendId : Id) : M State unit :=
  closure (fun s =>
    try_catch
      (r <- delete_as Policy.friendships_delete friendships_table
              (between (User.id user) friendId) ;;
       _ <- or_throw r ;;
       match friends_without friendId (friends s) with
       | None => throw (mkError "TypeError")
       | Some l =>
           setFriends l ;;
           report (toast_success "Friend removed")
       end)
      (fun _ =>
         report (console_error "Error removing friend:") ;;
         report (toast_error "Failed to remove friend"))).

End Friends.

(** ** The Chat page *)

Module Chat.

Record State := mkState {
  selectedFriend : option Profile.t;
  messages : list Message.t;
  newMessage : string;
  sending : bool
}.

Definition setMessages (v : list Message.t) : M State unit :=
  set_local (fun s => mkState (selectedFriend s) v (newMessage s) (sending s)).
Definition setNewMessage (v : string) : M State unit :=
  set_local (fun s => mkState (selectedFriend s) (messages s) v (sending s)).
Definition setSending (v : bool) : M State unit :=
  set_local (fun s => mkState (selectedFriend s) (messages s) (newMessage s) v).

(** The filters of [markMessagesAsRead]. *)
Definition unread_from (friendId user : Id) (m : Message.t) : bool :=
  (Message.sender_id m =? friendId) && (Message.receiver_id m =? user)
  && Bool.eqb (Message.read m) false.

Definition markMessagesAsRead (user : User.t) : M State unit :=
  closure (fun s =>
    match selectedFriend s with
    | None => ret tt
    | Some friend =>
        try_catch
          (_ <- update messages_table (unread_from (Profile.id friend) (User.id user))
                  (Message.with_read true) ;;
           ret tt)
          (fun _ => report (console_error "Error marking messages as read:"))
    end).

(** [`${user?.email}`] *)
Definition email_text (user : User.t) : string :=
  match User.email user with
  | Some e => e
  | None => "undefined"
  end.

Definition message_notification (user : User.t) (friendId : Id) (fresh : Id) (now : Z)
  : Notification.t :=
  Notification.mk fresh friendId "New Message"
    ("You have a new message from " ++ email_text user) chat false now.

Section Runtime.

(** [String.prototype.trim]. *)
Variable trim : string -> string.

(** The [sender] profile joined into the inserted row is display data and
    is left out of the [messages] state. *)
Definition sendMessage (user : User.t) : M State unit :=
  closure (fun s =>
    if Js.falsy (trim (newMessage s)) then ret tt else
    match selectedFriend s with
    | None => ret tt
    | Some friend =>
      if sending s then ret tt else
      setSending true ;;
      try_finally
        (try_catch
           (r <- insert_ref messages_table
                   (fun fresh now =>
                      Message.mk fresh (User.id user) (Profile.id friend)
                        (trim (newMessage s)) false now)
                   message_constraints ;;
            data <- or_throw r ;;
            setMessages (messages s ++ [data]) ;;
            setNewMessage "" ;;
            _ <- insert_ref notifications_table
                   (message_notification user (Profile.id friend))
                   notification_constraints ;;
            ret tt)
           (fun _ =>
              report (console_error "Error sending message:") ;;
              report (toast_error "Failed to send message")))
        (setSending false)
    end).

End Runtime.

End Chat.


(** ** The auth context *)

(** The provider that creates a missing profile from the client
    ([createProfile]). *)
Module AuthContext.

Record Session := mkSession { user_of : User.t }.

Inductive AuthChangeEvent :=
| INITIAL_SESSION | SIGNED_IN | SIGNED_OUT | TOKEN_REFRESHED | USER_UPDATED.

Record State := mkState {
  user : option User.t;
  session : option Session;
  loading : bool;
  userProfile : option Profile.t
}.

Definition setUser (v : option User.t) : M State unit :=
  set_local (fun s => mkState v (session s) (loading s) (userProfile s)).
Definition setSession (v : option Session) : M State unit :=
  set_local (fun s => mkState (user s) v (loading s) (userProfile s)).
Definition setLoading (v : bool) : M State unit :=
  set_local (fun s => mkState (user s) (session s) v (userProfile s)).
Definition setUserProfile (v : option Profile.t) : M State unit :=
  set_local (fun s => mkState (user s) (session s) (loading s) v).

(** [currentUser.user_metadata?.username || `user-${currentUser.id.slice(0, 8)}`] *)
Definition default_username (currentUser : User.t) : string :=
  "user-" ++ Js.slice0 8 (User.id currentUser).

Definition profile_username (currentUser : User.t) : string :=
  Js.or_else (User.user_metadata_username currentUser) (default_username currentUser).

Definition createProfile (currentUser : User.t) : M State unit :=
  try_catch
    (let username := profile_username currentUser in
     if Js.truthy (User.email currentUser) then
       (r <- insert profiles_table
               (fun _ _ =>
                  Profile.mk (User.id currentUser) username
                    (Js.or_else (User.email currentUser) "") None None)
               profile_admissible ;;
        match r with
        | Error _ =>
            report (toast_error "Could not initialize your profile.") ;;
            report (console_error "Error creating profile:") ;;
            setUserProfile None
        | Data newProfile =>
            setUserProfile (Some newProfile) ;;
            report (toast_success "Your profile has been set up!")
        end)
     else
       (report (toast_error "Could not initialize your profile: email is missing.") ;;
        report (console_error ("Error creating profile: email is null for user "
                               ++ User.id currentUser)) ;;
        setUserProfile None))
    (fun _ =>
       report (console_error "Create profile exception:") ;;
       setUserProfile None).

Definition fetchUserProfile (currentUser : User.t) : M State unit :=
  try_catch
    (r <- select profiles_table (fun p => Profile.id p =? User.id currentUser) ;;
     match single r with
     | Error e =>
         if code e =? "PGRST116" then
           (report (console_warn "Profile not found, creating one...") ;;
            createProfile currentUser)
         else
           (report (console_error "Error fetching profile:") ;;
            setUserProfile None)
     | Data data => setUserProfile (Some data)
     end)
    (fun _ =>
       report (console_error "Profile fetch error:") ;;
       setUserProfile None).

(** The callback registered with [supabase.auth.onAuthStateChange]. *)
Definition onAuthStateChange (event : AuthChangeEvent) (session : option Session)
  : M State unit :=
  setSession session ;;
  setUser (option_map user_of session) ;;
  match event, session with
  | SIGNED_IN, Some s => try_finally (fetchUserProfile (user_of s)) (setLoading false)
  | SIGNED_OUT, _ => setUserProfile None ;; setLoading false
  | INITIAL_SESSION, Some s => try_finally (fetchUserProfile (user_of s)) (setLoading false)
  | _, None => setLoading false
  | _, Some _ => ret tt
  end.

End AuthContext.

(** ** The Activity page *)

Module Activity.

Definition day_ms : Z := 1000 * 60 * 60 * 24.

(** An entry of the tab content: a task, or a calendar event after
    [{ ...event, status: 'pending', deadline: event.date }].  [deadline] is
    the millisecond count of [new Date(item.deadline)]. *)
Record Item := mkItem {
  status : task_status;
  deadline : Z
}.

(** [diffInDays > 0 && diffInDays <= 7] with
    [diffInDays = (taskDate.getTime() - now.getTime()) / (1000*60*60*24)].
    The difference of two timestamps is an integer that a Number holds
    exactly and the division is correctly rounded, so comparing the quotient
    with 0 and 7 is comparing the difference with 0 and 7 days. *)
Definition isUpcoming (date now : Z) : bool :=
  (0 <? date - now)%Z && (date - now <=? 7 * day_ms)%Z.

(** [taskDate < now] *)
Definition isOverdue (date now : Z) : bool := (date <? now)%Z.

(** The four classes the specification names. *)
Inductive Classification := Completed | Overdue | Upcoming | Normal.

(** What [formatDate] returns.  [Absolute] stands for the string of
    [date.toLocaleDateString('en-US', { month: 'short', day: 'numeric', year })],
    the year being shown when the flag is set. *)
Inductive DateLabel :=
| Today
| Tomorrow
| Yesterday
| InDays (n : Z)
| DaysAgo (n : Z)
| Absolute (date : Z) (with_year : bool).

Section FormatDate.

(** [Date.prototype.getFullYear], the local calendar of the runtime. *)
Variable getFullYear : Z -> Z.

(** [Math.floor((date.getTime() - now.getTime()) / (1000*60*60*24))]:
    the floor of the exact quotient, which is what the correctly rounded
    division followed by [Math.floor] gives for every difference whose
    quotient the branches below can tell apart. *)
Definition diffInDays (date now : Z) : Z := (date - now) / day_ms.

Definition formatDate (date now : Z) : DateLabel :=
  let d := diffInDays date now in
  if (d =? 0)%Z then Today
  else if (d =? 1)%Z then Tomorrow
  else if (d =? -1)%Z then Yesterday
  else if (1 <? d)%Z && (d <=? 7)%Z then InDays d
  else if (d <? -1)%Z && (-7 <=? d)%Z then DaysAgo (Z.abs d)
  else Absolute date (negb (getFullYear date =? getFullYear now)%Z).

End FormatDate.

(** The calendar day a timestamp falls on, for a time zone [offset]
    milliseconds ahead of UTC. *)
Definition calendarDay (offset t : Z) : Z := (t + offset) / day_ms.

End Activity.


(** ** The aggregation and the classification as the specification words them *)

(** [round(num / den)] for [den > 0]: the nearest integer, a tie going up as
    with [Math.round]. *)
Definition round_ratio (num den : Z) : Z := (2 * num + den) / (2 * den).

Definition count_completed (l : list Task.t) : nat :=
  List.length (List.filter (fun t => task_status_eqb (Task.status t) completed) l).

(** Follows the specification's words: [0] if empty; otherwise
    [round(100 * count(status=completed) / count( * ))]. *)
Definition computeProjectProgress (l : list Task.t) : Z :=
  match l with
  | [] => 0
  | _ => round_ratio (100 * Z.of_nat (count_completed l)) (Z.of_nat (List.length l))
  end.

(** The tasks of a project, and the progress its row stores. *)
Definition tasks_of_project (d : DB) (projectId : Id) : list Task.t :=
  List.filter (fun t => option_id_eqb (Task.project_id t) projectId) (tasks d).

Definition progress_of_project (d : DB) (projectId : Id) : option Z :=
  option_map Project.progress (find (fun p => Project.id p =? projectId) (projects d)).

(** The formula of the handler on counts, against the exact rounding. *)
Definition agrees (c t : nat) : bool :=
  (Projects.progress_of_counts c t
   =? (if (0 <? t)%nat then round_ratio (100 * Z.of_nat c) (Z.of_nat t) else 0))%Z.

(** Follows the specification's words: completed if status=completed;
    overdue if status is not completed and deadline < now; upcoming if
    [0 < (deadline - now) <= 7 days]; else normal. *)
Definition claimed_classification (item : Activity.Item) (now : Z) : Activity.Classification :=
  if task_status_eqb (Activity.status item) completed then Activity.Completed
  else if (Activity.deadline item <? now)%Z then Activity.Overdue
  else if (0 <? Activity.deadline item - now)%Z
          && (Activity.deadline item - now <=? 7 * Activity.day_ms)%Z
  then Activity.Upcoming
  else Activity.Normal.

(** No error toast was added between [w] and [w']. *)
Definition no_new_toast_error {S} (w w' : World S) : Prop :=
  List.filter is_toast_error (sink w') = List.filter is_toast_error (sink w).

(** The CHECK of [friendships] as a property of the table. *)
Definition no_self_pair (l : list Friendship.t) : Prop :=
  forall g, In g l -> Friendship.requester_id g <> Friendship.addressee_id g.

(** ** Sample data *)

Module Sample.

Definition alice : User.t := User.mk "a11ce000-0000" (Some "alice@example.org") None.
Definition bob : User.t := User.mk "b0b00000-0000" (Some "bob@example.org") (Some "bob").
(** An identity without a user name in its metadata. *)
Definition carol : User.t := User.mk "ca601000-0000" (Some "carol@example.org") None.
(** An identity without an email address (a phone sign-in, say). *)
Definition dave : User.t := User.mk "da7e0000-0000" None None.

Definition alice_profile : Profile.t :=
  Profile.mk "a11ce000-0000" "user-a11ce000" "alice@example.org" None None.
Definition bob_profile : Profile.t :=
  Profile.mk "b0b00000-0000" "bob" "bob@example.org" None None.

Definition launch : Project.t :=
  Project.mk "p1" "Launch" "" high 0 0 "a11ce000-0000" ["b0b00000-0000"] 0.

(** Two decimal digits, for the ids of the sample tasks. *)
Definition digits (n : nat) : string :=
  String (ascii_of_nat (48 + n / 10)) (String (ascii_of_nat (48 + n mod 10)) "").

Definition task (n : nat) (s : task_status) : Task.t :=
  Task.mk ("t" ++ digits n) "task" "" moderate s 0 "a11ce000-0000" (Some "p1")
    "a11ce000-0000" (Z.of_nat n).

(** Forty tasks of the project: 22 completed, one in progress, 17 pending. *)
Definition forty_tasks : list Task.t :=
  map (fun n => task n completed) (seq 1 22)
  ++ [task 23 in_progress]
  ++ map (fun n => task n pending) (seq 24 17).

Definition project_db (l : list Task.t) : DB :=
  mkDB [alice_profile; bob_profile] [launch] l [] [] [].

Definition served : Reply := Served "n1" 1000.
Definition refused : Reply := Refused (mkError "503").

(** The Projects page showing the project with its forty tasks. *)
Definition forty_tasks_page : World Projects.State :=
  mkWorld (project_db forty_tasks) [served; served] []
    (Projects.mkState forty_tasks (Some launch) Projects.emptyTask false).

(** The Todo page of the creator of the project, before its first fetch;
    the project has one task, in progress. *)
Definition todo_page : World Todo.State :=
  mkWorld (project_db [task 1 in_progress]) [served; served] []
    (Todo.mkState [] true false Todo.emptyTask).

(** The Projects page on the same store. *)
Definition one_task_page : World Projects.State :=
  mkWorld (project_db [task 1 in_progress]) [served; served] []
    (Projects.mkState [task 1 in_progress] (Some launch) Projects.emptyTask false).

(** Bob asked, Alice accepted. *)
Definition friends_db : DB :=
  mkDB [alice_profile; bob_profile] [] []
    [Friendship.mk "f1" "b0b00000-0000" "a11ce000-0000" accepted 0] [] [].

Definition friends_page (rs : list Reply) : World Friends.State :=
  mkWorld friends_db rs [] (Friends.mkState [] [] [] [] true).

(** Alice, on the Projects page, fills the task form for Bob. *)
Definition task_form : Projects.NewTask :=
  Projects.mkNewTask "Write the release notes" "" high 0 "b0b00000-0000".

Definition task_form_page (rs : list Reply) : World Projects.State :=
  mkWorld (project_db []) rs [] (Projects.mkState [] (Some launch) task_form true).

Definition signed_out : AuthContext.State := AuthContext.mkState None None true None.

(** The store knows Alice only; somebody else signs in for the first time. *)
Definition first_sign_in (rs : list Reply) : World AuthContext.State :=
  mkWorld (mkDB [alice_profile] [] [] [] [] []) rs [] signed_out.

(** Alice has Bob's conversation open and a message typed. *)
Definition draft_page (rs : list Reply) : World Chat.State :=
  mkWorld friends_db rs []
    (Chat.mkState (Some bob_profile) [] "  see you at nine " false).

(** Bob wrote twice to Alice (one message already read), Alice wrote once
    to Bob. *)
Definition inbox : list Message.t :=
  [Message.mk "m1" "b0b00000-0000" "a11ce000-0000" "hello" true 1;
   Message.mk "m2" "a11ce000-0000" "b0b00000-0000" "hi" false 2;
   Message.mk "m3" "b0b00000-0000" "a11ce000-0000" "lunch?" false 3].

Definition inbox_page (rs : list Reply) : World Chat.State :=
  mkWorld (mkDB [alice_profile; bob_profile] [] []
             [Friendship.mk "f1" "b0b00000-0000" "a11ce000-0000" accepted 0] inbox [])
    rs [] (Chat.mkState (Some bob_profile) [] "" false).

End Sample.

(** ** The rest of the Friends page *)

Definition friendship_with_status (s : friendship_status) (f : Friendship.t) : Friendship.t :=
  Friendship.mk (Friendship.id f) (Friendship.requester_id f) (Friendship.addressee_id f) s
    (Friendship.created_at f).

Module FriendsPage.

Definition setFriendRequests (v : list Friends.FriendRequest) : M Friends.State unit :=
  set_local (fun s => Friends.mkState (Friends.searchResults s) (Friends.friends s) v
                        (Friends.sentRequests s) (Friends.loading s)).

(** The filter of [fetchFriendRequests]. *)
Definition incoming (user : Id) (f : Friendship.t) : bool :=
  (Friendship.addressee_id f =? user)
  && friendship_status_eqb (Friendship.status f) fpending.

Definition fetchFriendRequests (user : User.t) : M Friends.State unit :=
  try_catch
    (r <- Friends.select_friendships (incoming (User.id user)) true false ;;
     data <- or_throw r ;;
     setFriendRequests data)
    (fun _ => report (console_error "Error fetching friend requests:")).

(** [fetchFriends()] and [fetchFriendRequests()] are started without
    [await], in this order; their requests are the last ones the handler
    issues and they are sequenced after the body. *)
Definition respondToFriendRequest (user : User.t) (requestId : Id)
    (status : friendship_status) : M Friends.State unit :=
  answered <-
    try_catch
      (r <- update friendships_table (fun f => Friendship.id f =? requestId)
              (friendship_with_status status) ;;
       _ <- or_throw r ;;
       (if friendship_status_eqb status accepted
        then report (toast_success "Friend request accepted!")
        else report (toast_success "Friend request declined")) ;;
       ret true)
      (fun _ =>
         report (console_error "Error responding to friend request:") ;;
         report (toast_error "Failed to respond to friend request") ;;
         ret false) ;;
  if answered then
    (if friendship_status_eqb status accepted then Friends.fetchFriends user else ret tt) ;;
    fetchFriendRequests user
  else ret tt.

(** The delete is subject to row-level security, and [friendships] has no
    policy FOR DELETE. *)
Definition cancelFriendRequest (user : User.t) (requestId : Id) : M Friends.State unit :=
  cancelled <-
    try_catch
      (r <- delete_as Policy.friendships_delete friendships_table
              (fun f => Friendship.id f =? requestId) ;;
       _ <- or_throw r ;;
       report (toast_success "Friend request cancelled") ;;
       ret true)
      (fun _ =>
         report (console_error "Error cancelling friend request:") ;;
         report (toast_error "Failed to cancel friend request") ;;
         ret false) ;;
  if cancelled then Friends.fetchSentRequests user else ret tt.

(** The page with its search box. *)
Record State := mkState {
  page : Friends.State;
  searchQuery : string;
  searching : bool
}.

Definition setSearchResults (v : list Profile.t) : M State unit :=
  set_local (fun s =>
    mkState (Friends.mkState v (Friends.friends (page s)) (Friends.friendRequests (page s))
               (Friends.sentRequests (page s)) (Friends.loading (page s)))
            (searchQuery s) (searching s)).
Definition setSearching (v : bool) : M State unit :=
  set_local (fun s => mkState (page s) (searchQuery s) v).

(** [friends.map(f => f.id)]; a [null] entry makes it throw. *)
Fixpoint friend_ids (l : list (option Profile.t)) : option (list Id) :=
  match l with
  | [] => Some []
  | None :: _ => None
  | Some p :: l' => option_map (cons (Profile.id p)) (friend_ids l')
  end.

(** [array.includes(id)] *)
Definition includes (l : list Id) (i : Id) : bool := existsb (fun j => j =? i) l.

Section Search.

(** [String.prototype.trim]. *)
Variable trim : string -> string.

(** [ilike]: the store's case-insensitive match of a column against a
    pattern. *)
Variable ilike : string -> string -> bool.

Definition searchUsers (user : User.t) : M State unit :=
  closure (fun s =>
    if Js.falsy (trim (searchQuery s)) then setSearchResults [] else
    setSearching true ;;
    try_finally
      (try_catch
         (r <- select profiles_table
                 (fun p => ilike ("%" ++ searchQuery s ++ "%") (Profile.username p)
                           && negb (Profile.id p =? User.id user)) ;;
          data <- or_throw (match r with
                            | Data l => Data (firstn 10 l)
                            | Error e => Error e
                            end) ;;
          match friend_ids (Friends.friends (page s)) with
          | None => throw (mkError "TypeError")
          | Some existingFriendIds =>
              let pendingRequestIds :=
                (map Friends.requester_id (Friends.friendRequests (page s))
                 ++ map Friends.addressee_id (Friends.sentRequests (page s)))%list in
              setSearchResults
                (List.filter (fun u => negb (includes existingFriendIds (Profile.id u))
                                       && negb (includes pendingRequestIds (Profile.id u)))
                   data)
          end)
         (fun _ =>
            report (console_error "Error searching users:") ;;
            report (toast_error "Failed to search users")))
      (setSearching false)).

End Search.

End FriendsPage.

Module Sample2.

(** Carol has her profile; Bob has asked Carol, who has not answered. *)
Definition carol_profile : Profile.t :=
  Profile.mk "ca601000-0000" "carol" "carol@example.org" None None.

Definition request : Friendship.t :=
  Friendship.mk "f2" "b0b00000-0000" "ca601000-0000" fpending 5.

Definition requests_db : DB :=
  mkDB [Sample.alice_profile; Sample.bob_profile; carol_profile] [] []
    [Friendship.mk "f1" "b0b00000-0000" "a11ce000-0000" accepted 0; request] [] [].

Definition friends_page (rs : list Reply) : World Friends.State :=
  mkWorld requests_db rs [] (Friends.mkState [] [] [] [] true).

End Sample2.

Module Sample3.

(** Alice's Friends page: Bob is her friend, Carol has asked her, she has
    asked nobody; she searches for "a". *)
Definition dan_profile : Profile.t :=
  Profile.mk "da200000-0000" "dan" "dan@example.org" None None.

Definition search_db : DB :=
  mkDB [Sample.alice_profile; Sample.bob_profile; Sample2.carol_profile; dan_profile] [] []
    [Friendship.mk "f1" "b0b00000-0000" "a11ce000-0000" accepted 0;
     Friendship.mk "f3" "ca601000-0000" "a11ce000-0000" fpending 7] [] [].

Definition search_page (rs : list Reply) : World FriendsPage.State :=
  mkWorld search_db rs []
    (FriendsPage.mkState
       (Friends.mkState [] [Some Sample.bob_profile]
          [Friends.mkRequest (Friendship.mk "f3" "ca601000-0000" "a11ce000-0000" fpending 7)
             (Some Sample2.carol_profile) None]
          [] false)
       "a" false).

(** A stand-in for the store's match: every username matches. *)
Definition any_match (pattern username : string) : bool := true.

End Sample3.

(** ** The rest of the Chat page *)

Module ChatPage.

(** The filter of [fetchMessages]:
    [.or(and(sender_id.eq.U, receiver_id.eq.F), and(sender_id.eq.F, receiver_id.eq.U))]. *)
Definition exchanged (user friendId : Id) (m : Message.t) : bool :=
  ((Message.sender_id m =? user) && (Message.receiver_id m =? friendId))
  || ((Message.sender_id m =? friendId) && (Message.receiver_id m =? user)).

Definition fetchMessages (user : User.t) : M Chat.State unit :=
  closure (fun s =>
    match Chat.selectedFriend s with
    | None => ret tt
    | Some friend =>
        try_catch
          (r <- select messages_table (exchanged (User.id user) (Profile.id friend)) ;;
           data <- or_throw r ;;
           Chat.setMessages (order Message.created_at true data))
          (fun _ =>
             report (console_error "Error fetching messages:") ;;
             report (toast_error "Failed to fetch messages"))
    end).

End ChatPage.

(** ** The rest of the Todo page *)

Module TodoPage.

Definition deleteTask (taskId : Id) : M Todo.State unit :=
  closure (fun s =>
    try_catch
      (r <- delete tasks_table (fun t => Task.id t =? taskId) ;;
       _ <- or_throw r ;;
       Todo.setTasks (List.filter (fun task => negb (Task.id task =? taskId)) (Todo.tasks s)) ;;
       report (toast_success "Task deleted!"))
      (fun _ =>
         report (console_error "Error deleting task:") ;;
         report (toast_error "Failed to delete task"))).

(** The three columns. *)
Definition pendingTasks (s : Todo.State) : list Task.t :=
  List.filter (fun task => task_status_eqb (Task.status task) pending) (Todo.tasks s).
Definition inProgressTasks (s : Todo.State) : list Task.t :=
  List.filter (fun task => task_status_eqb (Task.status task) in_progress) (Todo.tasks s).
Definition completedTasks (s : Todo.State) : list Task.t :=
  List.filter (fun task => task_status_eqb (Task.status task) completed) (Todo.tasks s).

(** What a served [fetchTasks] sets from a store. *)
Definition listed (d : DB) (user : Id) : list Task.t :=
  order Task.created_at false (List.filter (fun t => Task.user_id t =? user) (tasks d)).

End TodoPage.

(** ** The Notifications page *)

Definition notification_with_read (b : bool) (n : Notification.t) : Notification.t :=
  Notification.mk (Notification.id n) (Notification.user_id n) (Notification.title n)
    (Notification.message n) (Notification.type n) b (Notification.created_at n).

Module NotificationsPage.

Inductive Filter := all | unread.

Record State := mkState {
  notifications : list Notification.t;
  loading : bool;
  filter : Filter
}.

Definition setNotifications (v : list Notification.t) : M State unit :=
  set_local (fun s => mkState v (loading s) (filter s)).
Definition setLoading (v : bool) : M State unit :=
  set_local (fun s => mkState (notifications s) v (filter s)).

Definition fetchNotifications (user : User.t) : M State unit :=
  try_finally
    (try_catch
       (r <- select notifications_table (fun n => Notification.user_id n =? User.id user) ;;
        data <- or_throw r ;;
        setNotifications (order Notification.created_at false data))
       (fun _ =>
          report (console_error "Error fetching notifications:") ;;
          report (toast_error "Failed to fetch notifications")))
    (setLoading false).

Definition markAsRead (notificationId : Id) : M State unit :=
  closure (fun s =>
    try_catch
      (r <- update notifications_table (fun n => Notification.id n =? notificationId)
              (notification_with_read true) ;;
       _ <- or_throw r ;;
       setNotifications
         (map (fun notif => if Notification.id notif =? notificationId
                            then notification_with_read true notif else notif)
              (notifications s)))
      (fun _ =>
         report (console_error "Error marking notification as read:") ;;
         report (toast_error "Failed to mark as read"))).

Definition markAllAsRead (user : User.t) : M State unit :=
  closure (fun s =>
    try_catch
      (r <- update notifications_table
              (fun n => (Notification.user_id n =? User.id user)
                        && Bool.eqb (Notification.read n) false)
              (notification_with_read true) ;;
       _ <- or_throw r ;;
       setNotifications (map (notification_with_read true) (notifications s)) ;;
       report (toast_success "All notifications marked as read"))
      (fun _ =>
         report (console_error "Error marking all as read:") ;;
         report (toast_error "Failed to mark all as read"))).

(** The delete is subject to row-level security, and [notifications] has no
    policy FOR DELETE. *)
Definition deleteNotification (notificationId : Id) : M State unit :=
  closure (fun s =>
    try_catch
      (r <- delete_as Policy.notifications_delete notifications_table
              (fun n => Notification.id n =? notificationId) ;;
       _ <- or_throw r ;;
       setNotifications
         (List.filter (fun notif => negb (Notification.id notif =? notificationId))
            (notifications s)) ;;
       report (toast_success "Notification deleted"))
      (fun _ =>
         report (console_error "Error deleting notification:") ;;
         report (toast_error "Failed to delete notification"))).

Definition filteredNotifications (s : State) : list Notification.t :=
  match filter s with
  | unread => List.filter (fun notif => negb (Notification.read notif)) (notifications s)
  | all => notifications s
  end.

Definition unreadCount (s : State) : nat :=
  List.length (List.filter (fun notif => negb (Notification.read notif)) (notifications s)).

End NotificationsPage.

(** ** The skills of the Profile page *)

Module ProfilePage.

Record EditForm := mkForm {
  username : string;
  bio : string;
  experience : string;
  linkedin : string;
  github : string;
  skills : list string
}.

Record State := mkState {
  editForm : EditForm;
  newSkill : string
}.

Definition with_skills (l : list string) (f : EditForm) : EditForm :=
  mkForm (username f) (bio f) (experience f) (linkedin f) (github f) l.

Definition setEditForm (v : EditForm) : M State unit :=
  set_local (fun s => mkState v (newSkill s)).
Definition setNewSkill (v : string) : M State unit :=
  set_local (fun s => mkState (editForm s) v).

(** [skills.includes(x)] *)
Definition includes (l : list string) (x : string) : bool := existsb (fun y => y =? x) l.

Section Runtime.

(** [String.prototype.trim]. *)
Variable trim : string -> string.

Definition addSkill : M State unit :=
  closure (fun s =>
    if negb (Js.falsy (trim (newSkill s)))
       && negb (includes (skills (editForm s)) (trim (newSkill s)))
    then
      setEditForm (with_skills (skills (editForm s) ++ [trim (newSkill s)]) (editForm s)) ;;
      setNewSkill ""
    else ret tt).

End Runtime.

Definition removeSkill (skillToRemove : string) : M State unit :=
  closure (fun s =>
    setEditForm
      (with_skills (List.filter (fun skill => negb (skill =? skillToRemove))
                      (skills (editForm s)))
         (editForm s))).

End ProfilePage.

(** ** The rest of the Projects page *)

Definition task_without_project (t : Task.t) : Task.t :=
  Task.mk (Task.id t) (Task.title t) (Task.description t) (Task.priority t) (Task.status t)
    (Task.deadline t) (Task.assigned_to t) None (Task.user_id t) (Task.created_at t).

(** [from('projects').delete()] on the rows the filters select.  The
    migration declares [tasks.project_id ... REFERENCES projects(id) ON
    DELETE SET NULL]: the tasks of a deleted project lose their project. *)
Definition delete_projects {S} (filter : Project.t -> bool) : M S (Response unit) :=
  (r <- next_reply ;;
   match r with
   | Refused e => ret (Error e)
   | Served _ _ =>
       write_db (fun d =>
         let gone := map Project.id (List.filter filter (projects d)) in
         with_rows tasks_table
           (map (fun t => if existsb (option_id_eqb (Task.project_id t)) gone
                          then task_without_project t else t) (tasks d))
           (with_rows projects_table
              (List.filter (fun p => negb (filter p)) (projects d)) d)) ;;
       ret (Data tt)
   end)%handler.

Module ProjectsPage.

Record NewProject := mkNewProject {
  name : string;
  description : string;
  priority : priority_level;
  deadline : Z;
  selectedMembers : list Id
}.

Definition emptyProject : NewProject := mkNewProject "" "" moderate 0 [].

(** The page with its project list and its team chat; [detail] is the
    part of the state the task handlers use. *)
Record State := mkState {
  detail : Projects.State;
  projects : list Project.t;
  projectMessages : list Message.t;
  newMessage : string;
  newProject : NewProject;
  showAddForm : bool;
  showProjectDetail : bool
}.

Definition setProjects (v : list Project.t) : M State unit :=
  set_local (fun s => mkState (detail s) v (projectMessages s) (newMessage s)
                        (newProject s) (showAddForm s) (showProjectDetail s)).
Definition setProjectMessages (v : list Message.t) : M State unit :=
  set_local (fun s => mkState (detail s) (projects s) v (newMessage s)
                        (newProject s) (showAddForm s) (showProjectDetail s)).
Definition setNewMessage (v : string) : M State unit :=
  set_local (fun s => mkState (detail s) (projects s) (projectMessages s) v
                        (newProject s) (showAddForm s) (showProjectDetail s)).
Definition setNewProject (v : NewProject) : M State unit :=
  set_local (fun s => mkState (detail s) (projects s) (projectMessages s) (newMessage s)
                        v (showAddForm s) (showProjectDetail s)).
Definition setShowAddForm (v : bool) : M State unit :=
  set_local (fun s => mkState (detail s) (projects s) (projectMessages s) (newMessage s)
                        (newProject s) v (showProjectDetail s)).
Definition setShowProjectDetail (v : bool) : M State unit :=
  set_local (fun s => mkState (detail s) (projects s) (projectMessages s) (newMessage s)
                        (newProject s) (showAddForm s) v).
Definition setSelectedProject (v : option Project.t) : M State unit :=
  set_local (fun s =>
    mkState (Projects.mkState (Projects.projectTasks (detail s)) v
               (Projects.newTask (detail s)) (Projects.showTaskForm (detail s)))
            (projects s) (projectMessages s) (newMessage s)
            (newProject s) (showAddForm s) (showProjectDetail s)).

Section Runtime.

(** [String.prototype.trim]. *)
Variable trim : string -> string.

Definition createProject (user : User.t) : M State unit :=
  closure (fun s =>
    let np := newProject s in
    if Js.falsy (trim (name np)) then ret tt else
    try_catch
      (r <- insert_ref projects_table
              (fun fresh now =>
                 Project.mk fresh (name np) (description np) (priority np) (deadline np) 0
                   (User.id user) (selectedMembers np) now)
              project_constraints ;;
       data <- or_throw r ;;
       setProjects (data :: projects s) ;;
       setNewProject emptyProject ;;
       setShowAddForm false ;;
       report (toast_success "Project created successfully!"))
      (fun _ =>
         report (console_error "Error creating project:") ;;
         report (toast_error "Failed to create project"))).

Definition deleteProject (projectId : Id) : M State unit :=
  closure (fun s =>
    try_catch
      (r <- delete_projects (fun p => Project.id p =? projectId) ;;
       _ <- or_throw r ;;
       setProjects (List.filter (fun p => negb (Project.id p =? projectId)) (projects s)) ;;
       (match Projects.selectedProject (detail s) with
        | Some selected =>
            if Project.id selected =? projectId
            then setSelectedProject None ;; setShowProjectDetail false
            else ret tt
        | None => ret tt
        end) ;;
       report (toast_success "Project deleted successfully!"))
      (fun _ =>
         report (console_error "Error deleting project:") ;;
         report (toast_error "Failed to delete project"))).

(** [[selectedProject.creator_id, ...selectedProject.team_members]] *)
Definition allMembers (p : Project.t) : list Id :=
  Project.creator_id p :: Project.team_members p.

Definition is_member (p : Project.t) (i : Id) : bool :=
  existsb (fun j => j =? i) (allMembers p).

(** [user] is the signed-in user of [useAuth()], in whose name the request
    is made: it is subject to the policy of [messages] FOR SELECT. *)
Definition fetchProjectMessages (user : User.t) : M State unit :=
  closure (fun s =>
    match Projects.selectedProject (detail s) with
    | None => ret tt
    | Some selected =>
        try_catch
          (r <- select_as (Policy.messages_select (User.id user)) messages_table
                  (fun m => is_member selected (Message.sender_id m)
                            && is_member selected (Message.receiver_id m)) ;;
           data <- or_throw r ;;
           setProjectMessages (order Message.created_at true data))
          (fun _ => report (console_error "Error fetching project messages:"))
    end).

(** [`[Project: ${selectedProject.name}] ${newMessage.trim()}`] *)
Definition team_content (p : Project.t) (text : string) : string :=
  "[Project: " ++ Project.name p ++ "] " ++ trim text.

(** The [for ... of receivers] loop: one insert per receiver, left at the
    first error. *)
Fixpoint send_each {S} (sender : Id) (content : string) (receivers : list Id) : M S unit :=
  match receivers with
  | [] => ret tt
  | receiverId :: others =>
      r <- insert_ref messages_table
             (fun fresh now => Message.mk fresh sender receiverId content false now)
             message_constraints ;;
      _ <- or_throw r ;;
      send_each sender content others
  end.

(** [fetchProjectMessages()] is started without [await] as the last
    request of the handler and is sequenced after the body. *)
Definition sendProjectMessage (user : User.t) : M State unit :=
  closure (fun s =>
    if Js.falsy (trim (newMessage s)) then ret tt else
    match Projects.selectedProject (detail s) with
    | None => ret tt
    | Some selected =>
      sent <-
        try_catch
          (let receivers :=
             List.filter (fun id => negb (id =? User.id user)) (allMembers selected) in
           send_each (User.id user) (team_content selected (newMessage s)) receivers ;;
           setNewMessage "" ;;
           report (toast_success "Message sent to team!") ;;
           ret true)
          (fun _ =>
             report (console_error "Error sending message:") ;;
             report (toast_error "Failed to send message") ;;
             ret false) ;;
      if sent then fetchProjectMessages user else ret tt
    end).

End Runtime.

End ProjectsPage.

(** ** The tabs of the Activity page *)

Module ActivityPage.

Record CalendarEvent := mkEvent {
  id : Id;
  title : string;
  description : string;
  priority : priority_level;
  date : Z;
  deadline : Z;
  created_at : Z
}.

Inductive Tab := completed_tab | current_tab | upcoming_tab.

Record State := mkState {
  tasks : list Task.t;
  events : list CalendarEvent;
  activeTab : Tab
}.

(** An entry of the tab content: a task, or an event spread into
    [{ ...event, status: 'pending', deadline: event.date }]. *)
Inductive Entry :=
| of_task (task : Task.t)
| of_event (event : CalendarEvent).

Definition item (e : Entry) : Activity.Item :=
  match e with
  | of_task task => Activity.mkItem (Task.status task) (Task.deadline task)
  | of_event event => Activity.mkItem pending (date event)
  end.

Definition completedTasks (s : State) : list Task.t :=
  List.filter (fun task => task_status_eqb (Task.status task) completed) (tasks s).
Definition currentTasks (s : State) : list Task.t :=
  List.filter (fun task => task_status_eqb (Task.status task) in_progress) (tasks s).
Definition upcomingTasks (s : State) (now : Z) : list Task.t :=
  List.filter (fun task => task_status_eqb (Task.status task) pending
                           && Activity.isUpcoming (Task.deadline task) now) (tasks s).
Definition upcomingEvents (s : State) (now : Z) : list CalendarEvent :=
  List.filter (fun event => Activity.isUpcoming (date event) now) (events s).

Definition getTabContent (s : State) (now : Z) : list Entry :=
  match activeTab s with
  | completed_tab => map of_task (completedTasks s)
  | current_tab => map of_task (currentTasks s)
  | upcoming_tab => (map of_task (upcomingTasks s now) ++ map of_event (upcomingEvents s now))%list
  end.

(** The test of the red card:
    ['status' in item && isOverdue(item.deadline) && item.status !== 'completed']. *)
Definition drawn_overdue (e : Entry) (now : Z) : bool :=
  Activity.isOverdue (Activity.deadline (item e)) now
  && negb (task_status_eqb (Activity.status (item e)) completed).

End ActivityPage.

Module Sample4.

(** Bob's chat page with Alice's conversation open, on the store of
    [Sample.inbox]. *)
Definition bob_chat (rs : list Reply) : World Chat.State :=
  mkWorld (db (Sample.inbox_page [])) rs [] (Chat.mkState (Some Sample.alice_profile) [] "" false).

(** Alice's draft page when the store is down. *)
Definition alice_offline : World Chat.State := Sample.draft_page [Sample.refused].

End Sample4.

(** The order [insert_by] keeps: [x] may stand before [y]. *)
Definition before {R} (key : R -> Z) (ascending : bool) (x y : R) : Prop :=
  if ascending then key x <= key y else key y <= key x.

Module Sample5.

(** Alice's Todo page after its fetch, on a store with two of her tasks. *)
Definition two_tasks : list Task.t := [Sample.task 1 in_progress; Sample.task 2 pending].

Definition todo_page (rs : list Reply) : World Todo.State :=
  mkWorld (Sample.project_db two_tasks) rs []
    (Todo.mkState (TodoPage.listed (Sample.project_db two_tasks) "a11ce000-0000")
       false false Todo.emptyTask).

End Sample5.

(** What [send_each] writes for a receiver. *)
Definition team_message (sender : Id) (content : string) (m : Message.t) (receiverId : Id)
  : Prop :=
  Message.sender_id m = sender /\ Message.receiver_id m = receiverId
  /\ Message.content m = content /\ Message.read m = false.

Definition is_served (r : Reply) : bool :=
  match r with Served _ _ => true | Refused _ => false end.

Module Sample6.

(** Alice's Projects page with the project open (Bob is its other member)
    and a team message typed. *)
Definition team_page (rs : list Reply) : World ProjectsPage.State :=
  mkWorld (Sample.project_db [Sample.task 1 in_progress]) rs []
    (ProjectsPage.mkState
       (Projects.mkState [Sample.task 1 in_progress] (Some Sample.launch)
          Projects.emptyTask false)
       [Sample.launch] [] " standup at ten " ProjectsPage.emptyProject false true).

End Sample6.

Module Sample7.

(** The Activity page on its current tab: a task in progress and a pending
    task, both due at time 0. *)
Definition activity_page (tab : ActivityPage.Tab) : ActivityPage.State :=
  ActivityPage.mkState [Sample.task 1 in_progress; Sample.task 2 pending] [] tab.

End Sample7.

(** What a served [fetchNotifications] sets from a store. *)
Definition notifications_listed (d : DB) (user : Id) : list Notification.t :=
  order Notification.created_at false
    (List.filter (fun n => Notification.user_id n =? user) (notifications d)).

Module Sample8.

Definition deadline_note : Notification.t :=
  Notification.mk "n01" "b0b00000-0000" "Deadline" "Launch is due" task_deadline false 10.
Definition chat_note : Notification.t :=
  Notification.mk "n02" "b0b00000-0000" "New Message" "hello" chat true 20.
Definition alice_note : Notification.t :=
  Notification.mk "n03" "a11ce000-0000" "New Message" "hi" chat false 30.

Definition notes_db : DB :=
  mkDB [Sample.alice_profile; Sample.bob_profile] [] [] [] []
    [deadline_note; chat_note; alice_note].

(** Bob's Notifications page after its fetch. *)
Definition notes_page (rs : list Reply) : World NotificationsPage.State :=
  mkWorld notes_db rs []
    (NotificationsPage.mkState [chat_note; deadline_note] false NotificationsPage.all).

End Sample8.

Module Sample9.

(** Bob opens his Notifications page after Alice has assigned him a task. *)
Definition bob_page : World NotificationsPage.State :=
  mkWorld
    (db (run (Projects.createTask Js.ascii_trim Sample.alice)
             (Sample.task_form_page [Sample.served; Sample.served])))
    [Sample.served] [] (NotificationsPage.mkState [] true NotificationsPage.unread).

End Sample9.

Module Sample10.

(** The Profile page in edit mode, a skill typed into the input. *)
Definition skills_form : World ProfilePage.State :=
  mkWorld Sample.friends_db [] []
    (ProfilePage.mkState (ProfilePage.mkForm "alice" "" "" "" "" ["rust"]) " coq ").

End Sample10.

Module Sample11.

(** The Projects page with the project open, after Alice has written to
    Bob on the Chat page. *)
Definition team_chat : World ProjectsPage.State :=
  mkWorld
    (db (run (Chat.sendMessage Js.ascii_trim Sample.alice)
             (Sample.draft_page [Sample.served; Sample.served])))
    [Sample.served] [] (local (Sample6.team_page [])).

End Sample11.

(** The profile the auth context holds is nobody else's: it is a row of
    the store with the id of the identity [u], or there is none. *)
Definition own_profile (d : DB) (u : User.t) (cached : option Profile.t) : Prop :=
  match cached with
  | None => True
  | Some p => Profile.id p = User.id u /\ In p (profiles d)
  end.

(** [createProfile] and [fetchUserProfile] set [userProfile] and leave the
    rest of the context. *)
Definition same_session (s s' : AuthContext.State) : Prop :=
  AuthContext.user s' = AuthContext.user s
  /\ AuthContext.session s' = AuthContext.session s
  /\ AuthContext.loading s' = AuthContext.loading s.

Module Sample12.

(** Alice's Projects page with the form of a new project filled in. *)
Definition project_form (rs : list Reply) : World ProjectsPage.State :=
  mkWorld (Sample.project_db [Sample.task 1 in_progress]) rs []
    (ProjectsPage.mkState
       (Projects.mkState [] None Projects.emptyTask false)
       [Sample.launch] [] ""
       (ProjectsPage.mkNewProject "Docs" "" low 0 ["b0b00000-0000"]) true false).

End Sample12.

(** ** The fetches of the Projects page *)

(** The tasks of a project that the policy of [tasks] FOR SELECT shows to
    a user, and what a served [fetchProjectTasks] sets from a store. *)
Definition visible_tasks_of_project (d : DB) (uid projectId : Id) : list Task.t :=
  List.filter (fun t => Policy.tasks_select uid t
                        && option_id_eqb (Task.project_id t) projectId) (tasks d).

Definition project_tasks_listed (d : DB) (uid projectId : Id) : list Task.t :=
  order Task.created_at false (visible_tasks_of_project d uid projectId).

Module ProjectList.

(** The part of the page's state that [fetchProjects] uses. *)
Record State := mkState {
  projects : list Project.t;
  loading : bool
}.

Definition setProjects (v : list Project.t) : M State unit :=
  set_local (fun s => mkState v (loading s)).
Definition setLoading (v : bool) : M State unit :=
  set_local (fun s => mkState (projects s) v).

(** [.or(`creator_id.eq.${user!.id},team_members.cs.{${user!.id}}`)] *)
Definition concerns (userId : Id) (p : Project.t) : bool :=
  (Project.creator_id p =? userId) || existsb (fun m => m =? userId) (Project.team_members p).

Definition fetchProjects (user : User.t) : M State unit :=
  try_finally
    (try_catch
       (r <- select projects_table (concerns (User.id user)) ;;
        data <- or_throw r ;;
        setProjects (order Project.created_at false data))
       (fun _ =>
          report (console_error "Error fetching projects:") ;;
          report (toast_error "Failed to fetch projects")))
    (setLoading false).

(** [fetchProjectTasks], on the state of the task handlers.  [user] is the
    signed-in user of [useAuth()], in whose name the request is made: it is
    subject to the policy of [tasks] FOR SELECT. *)
Definition fetchProjectTasks (user : User.t) : M Projects.State unit :=
  closure (fun s =>
    match Projects.selectedProject s with
    | None => ret tt
    | Some selected =>
        try_catch
          (r <- select_as (Policy.tasks_select (User.id user)) tasks_table
                  (fun t => option_id_eqb (Task.project_id t) (Project.id selected)) ;;
           data <- or_throw r ;;
           Projects.setProjectTasks (order Task.created_at false data))
          (fun _ => report (console_error "Error fetching project tasks:"))
    end).

End ProjectList.

Module Sample13.

(** The project list of a viewer, before its fetch, on the store left by
    Alice's [createProject]. *)
Definition list_page : World ProjectList.State :=
  mkWorld
    (db (run (ProjectsPage.createProject Js.ascii_trim Sample.alice)
             (Sample12.project_form [Sample.served])))
    [Sample.served] [] (ProjectList.mkState [] true).

(** The Projects page with the project open, before the fetch of its
    tasks; the store has three tasks of the project. *)
Definition three_tasks : list Task.t :=
  [Sample.task 1 completed; Sample.task 2 in_progress; Sample.task 3 pending].

Definition detail_page (rs : list Reply) : World Projects.State :=
  mkWorld (Sample.project_db three_tasks) rs []
    (Projects.mkState [] (Some Sample.launch) Projects.emptyTask false).

End Sample13.

(** ** The dates of the Calendar page *)

Module CalendarPage.

(** A row of [calendar_events]; [date] is the DATE column as a number of
    days since 1970-01-01 (the string [yyyy-mm-dd] names the day). *)
Record Event := mkEvent {
  id : Id;
  title : string;
  date : Z
}.

Section Zone.

(** Local time is [offset] milliseconds ahead of UTC. *)
Variable offset : Z.

(** [new Date(year, month, day)], the [Date] of a cell of the grid: local
    midnight of the calendar day [day], as a time stamp. *)
Definition cell (day : Z) : Z := day * Activity.day_ms - offset.

(** [date.toISOString().split('T')[0]]: the calendar day of the instant in
    UTC. *)
Definition iso_day (t : Z) : Z := t / Activity.day_ms.

(** The [date] that [addEvent] inserts for the selected cell. *)
Definition stored_date (selectedDate : Z) : Z := iso_day selectedDate.

Definition getEventsForDate (events : list Event) (d : Z) : list Event :=
  List.filter (fun event => (date event =? iso_day d)%Z) events.

End Zone.

End CalendarPage.

Module Sample14.

(** Alice's Friends page after its fetch: Bob is listed. *)
Definition friends_listed : World Friends.State :=
  run (Friends.fetchFriends Sample.alice)
      (Sample.friends_page [Sample.served; Sample.served; Sample.served]).

End Sample14.

(** * Properties *)

(** ** Running handlers *)

Ltac step_handler :=
  cbv beta iota zeta
      delta [run bind ret throw try_catch try_finally closure set_local report
             next_reply write_db read_db select insert update delete or_throw single
             select_as update_as delete_as insert_ref
             db replies sink local snd fst].

(** ** Project progress *)

Lemma count_le_total (l : list Task.t) (taskId : Id) (st : task_status) :
  (Projects.completedTasks l taskId st <= Projects.totalTasks l)%nat.
Proof. apply filter_length_le. Qed.

Lemma agrees_below_40 :
  forallb (fun t => forallb (fun c => agrees c t) (seq 0 (S t))) (seq 0 40) = true.
Proof. vm_compute. reflexivity. Qed.

Lemma progress_of_counts_exact (c t : nat) :
  (c <= t)%nat -> (t < 40)%nat ->
  Projects.progress_of_counts c t
  = if (0 <? t)%nat then round_ratio (100 * Z.of_nat c) (Z.of_nat t) else 0.
Proof.
  intros Hc Ht.
  pose proof agrees_below_40 as H.
  rewrite forallb_forall in H.
  specialize (H t). rewrite in_seq in H.
  assert (Hin : (0 <= t < 0 + 40)%nat) by lia.
  specialize (H Hin). rewrite forallb_forall in H.
  specialize (H c). rewrite in_seq in H.
  assert (Hin' : (0 <= c < 0 + S t)%nat) by lia.
  specialize (H Hin'). unfold agrees in H.
  now apply Z.eqb_eq in H.
Qed.

(** The value the handler persists follows the exact formula
    [round(100 * completed / total)] on every list of fewer than forty
    tasks, the completed count being the one the handler takes. *)
Lemma newProgress_exact_below_40 (l : list Task.t) (taskId : Id) (st : task_status) :
  (List.length l < 40)%nat ->
  Projects.newProgress l taskId st
  = match l with
    | [] => 0
    | _ => round_ratio (100 * Z.of_nat (Projects.completedTasks l taskId st))
             (Z.of_nat (List.length l))
    end.
Proof.
  intros Hlen. unfold Projects.newProgress.
  rewrite progress_of_counts_exact.
  - unfold Projects.totalTasks. destruct l; reflexivity.
  - apply count_le_total.
  - exact Hlen.
Qed.

Lemma newProgress_exact_below_40_witness :
  (List.length [Sample.task 1 completed; Sample.task 2 completed; Sample.task 3 pending] < 40)%nat
  /\ Projects.newProgress
       [Sample.task 1 completed; Sample.task 2 completed; Sample.task 3 pending]
       "t03" pending = 67.
Proof.
  split; [simpl; lia |].
  rewrite newProgress_exact_below_40 by (simpl; lia). reflexivity.
Defined.

Lemma task_status_eqb_spec (a b : task_status) : reflect (a = b) (task_status_eqb a b).
Proof. destruct a, b; constructor; congruence. Qed.

Lemma filter_map_length {A B} (p : B -> bool) (f : A -> B) (l : list A) :
  List.length (List.filter p (map f l)) = List.length (List.filter (fun x => p (f x)) l).
Proof.
  induction l as [|x l IH]; [reflexivity|].
  cbn [map List.filter]. destruct (p (f x)); cbn [List.length]; now rewrite IH.
Qed.

(** The count the handler takes is the count of completed tasks of the
    updated list, whenever the new status is [completed] or the task was
    not completed before. *)
Lemma completedTasks_updated (l : list Task.t) (taskId : Id) (st : task_status) :
  st = completed
  \/ (forall t, In t l -> Task.id t = taskId -> Task.status t <> completed) ->
  Projects.completedTasks l taskId st
  = count_completed
      (map (fun task => if Task.id task =? taskId then Task.with_status st task else task) l).
Proof.
  intros H. unfold Projects.completedTasks, count_completed.
  rewrite filter_map_length. f_equal.
  apply filter_ext_in. intros t Hin.
  destruct (String.eqb_spec (Task.id t) taskId) as [E|E]; cbn.
  - destruct (task_status_eqb_spec st completed) as [->|Hst].
    + now rewrite orb_true_r.
    + rewrite orb_false_r. destruct H as [H|H]; [contradiction|].
      specialize (H t Hin E).
      destruct (task_status_eqb_spec (Task.status t) completed); [contradiction|reflexivity].
  - now rewrite orb_false_r.
Qed.

(** What the Projects page does to the store and to its own state when
    both requests of [updateTaskStatus] are served: the tasks with the id get
    the new status; the rows of the selected project that the signed-in user
    created get the computed progress, and the project rows of other
    creators stay as they are, so that for a member who is not the creator
    the store keeps the old progress; either way the page shows the
    computed progress on its selected project and the success toast. *)
Lemma Projects_updateTaskStatus_served (w : World Projects.State) (user : User.t)
    (taskId : Id) (st : task_status) (selected : Project.t) (rest : list Reply)
    (f1 f2 : Id) (t1 t2 : Z) :
  replies w = Served f1 t1 :: Served f2 t2 :: rest ->
  Projects.selectedProject (local w) = Some selected ->
  let p := Projects.newProgress (Projects.projectTasks (local w)) taskId st in
  let w' := run (Projects.updateTaskStatus user taskId st) w in
  tasks (db w')
  = map (fun x => if Task.id x =? taskId then Task.with_status st x else x) (tasks (db w))
  /\ projects (db w')
     = map (fun x => if (Project.creator_id x =? User.id user)
                        && (Project.id x =? Project.id selected)
                     then Project.with_progress p x else x) (projects (db w))
  /\ ((forall x, In x (projects (db w)) -> Project.id x = Project.id selected ->
                 Project.creator_id x <> User.id user) ->
      projects (db w') = projects (db w))
  /\ Projects.selectedProject (local w') = Some (Project.with_progress p selected)
  /\ sink w' = (sink w ++ [toast_success "Task updated!"])%list.
Proof.
  intros Hr Hs. destruct w as [d rs sk loc]. cbn in Hr, Hs. subst rs.
  unfold Projects.updateTaskStatus, Policy.projects_update. step_handler. cbn [local].
  rewrite Hs. step_handler. cbn. rewrite Hs.
  split; [reflexivity|]. split; [reflexivity|]. split; [|split; reflexivity].
  intros Hother. rewrite <- (map_id (projects d)) at 2. apply map_ext_in. intros x Hx.
  destruct (String.eqb_spec (Project.id x) (Project.id selected)) as [E|E];
    [|now rewrite andb_false_r].
  destruct (String.eqb_spec (Project.creator_id x) (User.id user)) as [C|C];
    [|reflexivity].
  exfalso. exact (Hother x Hx E C).
Qed.

(** C1 (evaluation at the failing input): the project has forty tasks, 22
    of them completed, and the task in progress is completed on the Projects
    page by the creator of the project.  Both requests are served; the store
    then holds 23 completed tasks of 40, the specification's formula gives
    [round(57.5) = 58], and the progress the handler persists is 57. *)
Theorem C1_persisted_progress_23_of_40 :
  let w' := run (Projects.updateTaskStatus Sample.alice "t23" completed)
                Sample.forty_tasks_page in
  count_completed (tasks (db w')) = 23%nat
  /\ List.length (tasks (db w')) = 40%nat
  /\ computeProjectProgress (tasks_of_project (db w') "p1") = 58
  /\ progress_of_project (db w') "p1" = Some 57
  /\ sink w' = [toast_success "Task updated!"].
Proof. vm_compute. repeat split; reflexivity. Qed.

(** ** Task status changes on the Todo page *)

(** No handler of the Todo page writes the [projects] table. *)
Lemma Todo_updateTaskStatus_keeps_projects (w : World Todo.State) (taskId : Id)
    (st : task_status) :
  projects (db (run (Todo.updateTaskStatus taskId st) w)) = projects (db w).
Proof.
  destruct w as [d rs sk loc]. unfold Todo.updateTaskStatus. step_handler.
  destruct rs as [|[f t|e] rest]; reflexivity.
Qed.

(** C2 (evaluation at the failing input): the creator of a project opens
    the Todo page, which lists the project's task, and completes it there.
    The task row becomes [completed], so the completion ratio of the project
    is 100, and the project row keeps its progress 0.  The same change made
    on the Projects page persists 100. *)
Theorem C2_todo_page_leaves_progress_stale :
  let listed := run (Todo.fetchTasks Sample.alice) Sample.todo_page in
  let w' := run (Todo.updateTaskStatus "t01" completed) listed in
  Todo.tasks (local listed) = [Sample.task 1 in_progress]
  /\ Task.project_id (Sample.task 1 in_progress) = Some "p1"
  /\ tasks (db w') = [Sample.task 1 completed]
  /\ sink w' = [toast_success "Task updated!"]
  /\ computeProjectProgress (tasks_of_project (db w') "p1") = 100
  /\ progress_of_project (db w') "p1" = Some 0
  /\ progress_of_project
       (db (run (Projects.updateTaskStatus Sample.alice "t01" completed)
                Sample.one_task_page)) "p1"
     = Some 100.
Proof. vm_compute. repeat split; reflexivity. Qed.

(** ** Activity classification *)

(** C3: the classification of the specification, set against the two
    predicates of the page.  An item is classified completed exactly when
    its status is completed; overdue exactly when its status is not
    completed and [isOverdue] holds of its deadline (the test of the red
    card); upcoming exactly when its status is not completed and
    [isUpcoming] holds of its deadline; normal exactly when its status is
    not completed and neither predicate holds.  For a pending task,
    [isOverdue] holds of a deadline one day before now, [isUpcoming] of a
    deadline three days after now, and neither of a deadline ten days after
    now. *)
Theorem C3_classifyActivity (item : Activity.Item) (now : Z) :
  (claimed_classification item now = Activity.Completed
     <-> Activity.status item = completed)
  /\ (claimed_classification item now = Activity.Overdue
     <-> Activity.status item <> completed
         /\ Activity.isOverdue (Activity.deadline item) now = true)
  /\ (claimed_classification item now = Activity.Upcoming
     <-> Activity.status item <> completed
         /\ Activity.isUpcoming (Activity.deadline item) now = true)
  /\ (claimed_classification item now = Activity.Normal
     <-> Activity.status item <> completed
         /\ Activity.isOverdue (Activity.deadline item) now = false
         /\ Activity.isUpcoming (Activity.deadline item) now = false)
  /\ (claimed_classification (Activity.mkItem pending (now - Activity.day_ms)) now
      = Activity.Overdue
      /\ Activity.isOverdue (now - Activity.day_ms) now = true)
  /\ (claimed_classification (Activity.mkItem pending (now + 3 * Activity.day_ms)) now
      = Activity.Upcoming
      /\ Activity.isUpcoming (now + 3 * Activity.day_ms) now = true)
  /\ (claimed_classification (Activity.mkItem pending (now + 10 * Activity.day_ms)) now
      = Activity.Normal
      /\ Activity.isOverdue (now + 10 * Activity.day_ms) now = false
      /\ Activity.isUpcoming (now + 10 * Activity.day_ms) now = false).
Proof.
  destruct item as [st d].
  unfold claimed_classification, Activity.isUpcoming, Activity.isOverdue, Activity.day_ms.
  cbn [Activity.status Activity.deadline].
  repeat match goal with |- _ /\ _ => split end.
  1-4: destruct st; cbn [task_status_eqb];
       destruct (Z.ltb_spec d now); destruct (Z.ltb_spec 0 (d - now));
       destruct (Z.leb_spec (d - now) (7 * (1000 * 60 * 60 * 24)));
       cbn [andb]; split; intros;
       repeat match goal with
              | H : _ /\ _ |- _ => destruct H
              | |- _ /\ _ => split
              end; try discriminate; try congruence; try lia; try reflexivity.
  all: cbn [task_status_eqb].
  - destruct (Z.ltb_spec (now - 1000 * 60 * 60 * 24) now); [reflexivity | lia].
  - apply Z.ltb_lt. lia.
  - destruct (Z.ltb_spec (now + 3 * (1000 * 60 * 60 * 24)) now); [lia |].
    destruct (Z.ltb_spec 0 (now + 3 * (1000 * 60 * 60 * 24) - now)); [| lia].
    destruct (Z.leb_spec (now + 3 * (1000 * 60 * 60 * 24) - now) (7 * (1000 * 60 * 60 * 24)));
      [reflexivity | lia].
  - apply andb_true_iff. split; [apply Z.ltb_lt | apply Z.leb_le]; lia.
  - destruct (Z.ltb_spec (now + 10 * (1000 * 60 * 60 * 24)) now); [lia |].
    destruct (Z.ltb_spec 0 (now + 10 * (1000 * 60 * 60 * 24) - now)); [| lia].
    destruct (Z.leb_spec (now + 10 * (1000 * 60 * 60 * 24) - now) (7 * (1000 * 60 * 60 * 24)));
      [lia | reflexivity].
  - apply Z.ltb_ge. lia.
  - apply andb_false_iff. right. apply Z.leb_gt. lia.
Qed.

(** ** The friend list *)

Lemma lookup_profile_id (d : DB) (i : Id) (p : Profile.t) :
  lookup_profile d i = Some p -> Profile.id p = i.
Proof.
  unfold lookup_profile. intros H. apply find_some in H.
  destruct H as [_ H]. now apply String.eqb_eq in H.
Qed.

(** A served [fetchFriends] sets the friend list computed from the store
    and writes nothing to it. *)
Lemma fetchFriends_served (w : World Friends.State) (user : User.t) (fresh : Id) (t : Z)
    (rest : list Reply) :
  replies w = Served fresh t :: rest ->
  Friends.friends (local (run (Friends.fetchFriends user) w))
  = Friends.friendsList (db w) (User.id user)
  /\ db (run (Friends.fetchFriends user) w) = db w.
Proof.
  intros Hr. destruct w as [d rs sk loc]. cbn in Hr. subst rs.
  split; reflexivity.
Qed.

Lemma friendsList_counterpart (d : DB) (u : Id) (e : option Profile.t) :
  In e (Friends.friendsList d u) <->
  exists f, In f (friendships d) /\ Friends.accepted_with u f = true
            /\ e = if Friendship.requester_id f =? u
                   then lookup_profile d (Friendship.addressee_id f)
                   else lookup_profile d (Friendship.requester_id f).
Proof.
  unfold Friends.friendsList. rewrite map_map, in_map_iff.
  split.
  - intros [f [He Hin]]. apply filter_In in Hin. destruct Hin as [Hin Hacc].
    exists f. repeat split; try assumption. rewrite <- He.
    unfold Friends.counterpart, Friends.join, Friends.requester_id. cbn.
    reflexivity.
  - intros [f [Hin [Hacc He]]]. exists f. split.
    + rewrite He. unfold Friends.counterpart, Friends.join, Friends.requester_id. cbn.
      reflexivity.
    + apply filter_In. now split.
Qed.

(** C4: for an accepted friendship row with endpoints a and b, the friend
    list [fetchFriends] sets for a contains b's profile and the one it sets
    for b contains a's profile; and, no row of the table being a self-pair
    (the table's CHECK), no viewer finds their own profile in their list. *)
Theorem C4_fetchFriends_both_directions (w : World Friends.State) (a b : User.t)
    (f : Friendship.t) (pa pb : Profile.t) (fresh : Id) (t : Z) (rest : list Reply) :
  replies w = Served fresh t :: rest ->
  In f (friendships (db w)) ->
  Friendship.status f = accepted ->
  Friendship.requester_id f = User.id a ->
  Friendship.addressee_id f = User.id b ->
  lookup_profile (db w) (User.id a) = Some pa ->
  lookup_profile (db w) (User.id b) = Some pb ->
  In (Some pb) (Friends.friends (local (run (Friends.fetchFriends a) w)))
  /\ In (Some pa) (Friends.friends (local (run (Friends.fetchFriends b) w)))
  /\ (no_self_pair (friendships (db w)) ->
      forall (viewer : User.t) (p : Profile.t),
        In (Some p) (Friends.friends (local (run (Friends.fetchFriends viewer) w))) ->
        Profile.id p <> User.id viewer).
Proof.
  intros Hr Hin Hst Hreq Hadd Hpa Hpb.
  assert (Hacc : forall u, u = User.id a \/ u = User.id b -> Friends.accepted_with u f = true).
  { intros u Hu. unfold Friends.accepted_with. rewrite Hst, Hreq, Hadd. cbn.
    rewrite andb_true_r. apply orb_true_iff.
    destruct Hu as [->| ->]; [left | right]; apply String.eqb_refl. }
  repeat split.
  - rewrite (proj1 (fetchFriends_served w a fresh t rest Hr)).
    apply friendsList_counterpart. exists f. repeat split; auto.
    rewrite Hreq, String.eqb_refl, Hadd. now rewrite Hpb.
  - rewrite (proj1 (fetchFriends_served w b fresh t rest Hr)).
    apply friendsList_counterpart. exists f. repeat split; auto.
    rewrite Hreq, Hadd.
    destruct (String.eqb_spec (User.id a) (User.id b)) as [E|E].
    + rewrite <- E. now rewrite Hpa.
    + now rewrite Hpa.
  - intros Hcheck viewer p Hp.
    rewrite (proj1 (fetchFriends_served w viewer fresh t rest Hr)) in Hp.
    apply friendsList_counterpart in Hp. destruct Hp as [g [Hg [_ He]]].
    specialize (Hcheck g Hg).
    destruct (String.eqb_spec (Friendship.requester_id g) (User.id viewer)) as [E|E];
      symmetry in He; apply lookup_profile_id in He; congruence.
Qed.

Lemma C4_fetchFriends_both_directions_witness :
  In (Some Sample.alice_profile)
     (Friends.friends (local (run (Friends.fetchFriends Sample.bob)
                                 (Sample.friends_page [Sample.served]))))
  /\ In (Some Sample.bob_profile)
       (Friends.friends (local (run (Friends.fetchFriends Sample.alice)
                                   (Sample.friends_page [Sample.served])))).
Proof.
  pose proof (C4_fetchFriends_both_directions
                (Sample.friends_page [Sample.served]) Sample.bob Sample.alice
                (Friendship.mk "f1" "b0b00000-0000" "a11ce000-0000" accepted 0)
                Sample.bob_profile Sample.alice_profile "n1" 1000 []
                eq_refl (or_introl eq_refl) eq_refl eq_refl eq_refl eq_refl eq_refl)
    as [H1 [H2 _]].
  split; assumption.
Defined.

(** ** Notifications of task assignments *)

Lemma Todo_addTask_keeps_notifications (trim : string -> string) (w : World Todo.State)
    (user : User.t) :
  notifications (db (run (Todo.addTask trim user) w)) = notifications (db w).
Proof.
  destruct w as [d rs sk loc]. unfold Todo.addTask. step_handler.
  destruct (Js.falsy (trim (Todo.title (Todo.newTask loc)))); [reflexivity|].
  destruct rs as [|[f t|e] rest]; try reflexivity.
  match goal with |- context [task_constraints ?d0 ?t0] =>
    destruct (task_constraints d0 t0) end; reflexivity.
Qed.

(** C5: when [createTask] creates a task (the title does not trim to the
    empty string, a project is selected, the store serves the insert, and
    the foreign keys of the task hold: the creator and the assignee have
    profiles and the project is in the store), the task row is added; if the
    assignee is the creator the [notifications] table is unchanged, and if
    the assignee is another user and the store serves the notification
    insert, exactly one row is added to it, addressed to the assignee and of
    type [project].  A task added on the Todo page is assigned to its
    creator and adds no notification. *)
Theorem C5_createTask_notifies_assignee (trim : string -> string)
    (w : World Projects.State) (user : User.t)
    (selected : Project.t) (f1 : Id) (t1 : Z) (rest : list Reply) :
  Projects.selectedProject (local w) = Some selected ->
  Js.falsy (trim (Projects.title (Projects.newTask (local w)))) = false ->
  replies w = Served f1 t1 :: rest ->
  has_profile (db w) (User.id user) = true ->
  has_profile (db w) (Projects.assigned_to (Projects.newTask (local w))) = true ->
  has_project (db w) (Project.id selected) = true ->
  let nt := Projects.newTask (local w) in
  let w' := run (Projects.createTask trim user) w in
  (exists created,
      tasks (db w') = (tasks (db w) ++ [created])%list
      /\ Task.assigned_to created = Projects.assigned_to nt
      /\ Task.user_id created = User.id user
      /\ Task.project_id created = Some (Project.id selected))
  /\ (Projects.assigned_to nt = User.id user ->
      notifications (db w') = notifications (db w))
  /\ (Projects.assigned_to nt <> User.id user ->
      forall f2 t2 rest', rest = Served f2 t2 :: rest' ->
      exists n,
        notifications (db w') = (notifications (db w) ++ [n])%list
        /\ Notification.user_id n = Projects.assigned_to nt
        /\ Notification.type n = project)
  /\ (forall (w0 : World Todo.State) (creator : User.t),
        notifications (db (run (Todo.addTask trim creator) w0)) = notifications (db w0)).
Proof.
  intros Hs Ht Hr Hu Ha Hp. destruct w as [d rs sk loc]. cbn in Hs, Ht, Hr, Hu, Ha, Hp.
  subst rs. cbn zeta. unfold Projects.createTask. step_handler. cbn [local].
  rewrite Ht, Hs. step_handler. cbn [rows with_rows tasks_table].
  unfold task_constraints, notification_constraints.
  cbn [Task.assigned_to Task.user_id Task.project_id]. rewrite Hu, Ha, Hp. cbn [andb].
  unfold has_profile in Ha.
  repeat match goal with |- _ /\ _ => split end.
  - destruct (negb (Projects.assigned_to (Projects.newTask loc) =? User.id user));
      [destruct rest as [|[f2 t2|e] rest']|]; cbn;
      rewrite ?Ha; eexists; repeat split; reflexivity.
  - intros E. rewrite E, String.eqb_refl. reflexivity.
  - intros E f2 t2 rest' ->.
    destruct (String.eqb_spec (Projects.assigned_to (Projects.newTask loc)) (User.id user));
      [contradiction|].
    cbn. rewrite Ha. eexists. repeat split; reflexivity.
  - intros w0 creator. apply Todo_addTask_keeps_notifications.
Qed.

Lemma C5_createTask_notifies_assignee_witness :
  exists n,
    notifications (db (run (Projects.createTask Js.ascii_trim Sample.alice)
                           (Sample.task_form_page [Sample.served; Sample.served])))
    = [n]
    /\ Notification.user_id n = "b0b00000-0000"
    /\ Notification.type n = project.
Proof.
  pose proof (C5_createTask_notifies_assignee Js.ascii_trim
                (Sample.task_form_page [Sample.served; Sample.served]) Sample.alice
                Sample.launch "n1" 1000 [Sample.served] eq_refl eq_refl eq_refl
                eq_refl eq_refl eq_refl)
    as [_ [_ [H _]]].
  refine (H _ "n1" 1000 [] eq_refl).
  cbn. discriminate.
Defined.

(** ** Profile creation on sign-in *)

Lemma filter_none {A} (p : A -> bool) (l : list A) :
  (forall x, In x l -> p x = false) -> List.filter p l = [].
Proof.
  induction l as [|x l IH]; intros H; [reflexivity|].
  cbn. rewrite (H x (or_introl eq_refl)). apply IH. intros y Hy. apply H. now right.
Qed.

Lemma existsb_none {A} (p : A -> bool) (l : list A) :
  (forall x, In x l -> p x = false) -> existsb p l = false.
Proof.
  induction l as [|x l IH]; intros H; [reflexivity|].
  cbn. rewrite (H x (or_introl eq_refl)). apply IH. intros y Hy. apply H. now right.
Qed.

(** The primary key of [profiles]: a row with the id of an existing row is
    refused. *)
Lemma profile_primary_key (l : list Profile.t) (p : Profile.t) :
  (exists q, In q l /\ Profile.id q = Profile.id p) ->
  profile_admissible l p = Some unique_violation.
Proof.
  intros [q [Hin E]]. unfold profile_admissible.
  replace (existsb _ l) with true; [reflexivity|].
  symmetry. apply existsb_exists. exists q. split; [assumption|].
  rewrite E, String.eqb_refl. reflexivity.
Qed.

Lemma createProfile_keeps_existing (w : World AuthContext.State) (u : User.t) :
  (exists q, In q (profiles (db w)) /\ Profile.id q = User.id u) ->
  profiles (db (run (AuthContext.createProfile u) w)) = profiles (db w).
Proof.
  intros Hq. destruct w as [d rs sk loc]. cbn [db] in Hq.
  unfold AuthContext.createProfile. step_handler.
  destruct (Js.truthy (User.email u)); [|reflexivity].
  destruct rs as [|[f t|e] rest]; try reflexivity.
  cbn [rows profiles_table]. rewrite profile_primary_key by exact Hq. reflexivity.
Qed.

(** An auth event for an identity that has its profile row leaves the
    [profiles] table as it is, whatever the store answers. *)
Lemma onAuthStateChange_keeps_existing (w : World AuthContext.State)
    (ev : AuthContext.AuthChangeEvent) (u : User.t) :
  (exists q, In q (profiles (db w)) /\ Profile.id q = User.id u) ->
  profiles (db (run (AuthContext.onAuthStateChange ev (Some (AuthContext.mkSession u))) w))
  = profiles (db w).
Proof.
  intros Hq. destruct w as [d rs sk loc]. cbn [db] in Hq.
  assert (Hfetch : forall w0 : World AuthContext.State, db w0 = d ->
            profiles (db (run (AuthContext.fetchUserProfile u) w0)) = profiles d).
  { intros [d0 rs0 sk0 loc0] E. cbn in E. subst d0.
    unfold AuthContext.fetchUserProfile. step_handler.
    assert (Hcreate : forall w1 : World AuthContext.State, db w1 = d ->
              profiles (db (snd (AuthContext.createProfile u w1))) = profiles d).
    { intros w1 E. rewrite <- E. apply (createProfile_keeps_existing w1 u).
      now rewrite E. }
    destruct rs0 as [|[f t|e] rest]; cbn [AuthContext.user_of].
    - destruct (code _ =? "PGRST116"); [|reflexivity].
      match goal with |- context [AuthContext.createProfile u ?w1] =>
        specialize (Hcreate w1 eq_refl); destruct (AuthContext.createProfile u w1) as [[?|?] ?]
      end; exact Hcreate.
    - cbn [rows profiles_table].
      destruct (List.filter _ (profiles d)) as [|x [|y l]]; cbn [single]; try reflexivity;
        cbn [code]; cbn [String.eqb Ascii.eqb Bool.eqb];
        match goal with |- context [AuthContext.createProfile u ?w1] =>
          specialize (Hcreate w1 eq_refl);
          destruct (AuthContext.createProfile u w1) as [[?|?] ?]
        end; exact Hcreate.
    - cbn [single]. destruct (code e =? "PGRST116"); [|reflexivity].
      match goal with |- context [AuthContext.createProfile u ?w1] =>
        specialize (Hcreate w1 eq_refl); destruct (AuthContext.createProfile u w1) as [[?|?] ?]
      end; exact Hcreate. }
  unfold AuthContext.onAuthStateChange, AuthContext.setSession, AuthContext.setUser,
    AuthContext.setLoading, AuthContext.setUserProfile.
  destruct ev; step_handler; cbn [AuthContext.user_of]; try reflexivity.
  all: match goal with |- context [AuthContext.fetchUserProfile ?u0 ?w1] =>
         specialize (Hfetch w1 eq_refl);
         unfold run in Hfetch;
         destruct (AuthContext.fetchUserProfile u0 w1) as [[?|?] ?]
       end; exact Hfetch.
Qed.

(** C6 (counterexample): Bob, whose identity carries the user name "bob"
    in its metadata (as every identity made by [signUp] does), signs in for
    the first time.  One profile row is created and its user name is "bob",
    not "user-" followed by the first eight characters of his id.  Dave,
    whose identity has no email address, signs in for the first time: no
    profile row is created. *)
Lemma C6_first_sign_in_counterexamples :
  (let w' := run (AuthContext.onAuthStateChange AuthContext.SIGNED_IN
                    (Some (AuthContext.mkSession Sample.bob)))
                 (Sample.first_sign_in [Sample.served; Sample.served]) in
   profiles (db w')
   = [Sample.alice_profile;
      Profile.mk "b0b00000-0000" "bob" "bob@example.org" None None]
   /\ AuthContext.default_username Sample.bob = "user-b0b00000"
   /\ "bob" <> AuthContext.default_username Sample.bob)
  /\ (let w' := run (AuthContext.onAuthStateChange AuthContext.SIGNED_IN
                       (Some (AuthContext.mkSession Sample.dave)))
                    (Sample.first_sign_in [Sample.served; Sample.served]) in
      profiles (db w') = [Sample.alice_profile]
      /\ AuthContext.userProfile (local w') = None
      /\ In (toast_error "Could not initialize your profile: email is missing.")
            (sink w')).
Proof.
  repeat split; try reflexivity.
  - cbn. discriminate.
  - cbn. right. now left.
Qed.

(** C6 (amended): for a sign-in event (SIGNED_IN or INITIAL_SESSION) of an
    identity with an email address and no profile row, the user name not
    being taken and the store serving the lookup and the insert, exactly one
    profile row is created; its user name is the user name of the identity's
    metadata when there is a non-empty one, and otherwise "user-" followed by
    the first eight characters of the id.  Any later auth event for the
    identity leaves the table unchanged. *)
Theorem C6_sign_in_creates_one_profile (w : World AuthContext.State) (u : User.t)
    (ev : AuthContext.AuthChangeEvent) (c : ascii) (e : string)
    (f1 f2 : Id) (t1 t2 : Z) (rest : list Reply) :
  ev = AuthContext.SIGNED_IN \/ ev = AuthContext.INITIAL_SESSION ->
  (forall q, In q (profiles (db w)) -> Profile.id q <> User.id u) ->
  (forall q, In q (profiles (db w)) ->
             Profile.username q <> AuthContext.profile_username u) ->
  User.email u = Some (String c e) ->
  replies w = Served f1 t1 :: Served f2 t2 :: rest ->
  let created :=
    Profile.mk (User.id u) (AuthContext.profile_username u) (String c e) None None in
  let w' := run (AuthContext.onAuthStateChange ev (Some (AuthContext.mkSession u))) w in
  profiles (db w') = (profiles (db w) ++ [created])%list
  /\ AuthContext.userProfile (local w') = Some created
  /\ AuthContext.profile_username u
     = match User.user_metadata_username u with
       | Some (String a s) => String a s
       | _ => "user-" ++ substring 0 8 (User.id u)
       end
  /\ (forall (later : World AuthContext.State) (ev' : AuthContext.AuthChangeEvent),
        profiles (db later) = profiles (db w') ->
        profiles (db (run (AuthContext.onAuthStateChange ev'
                             (Some (AuthContext.mkSession u))) later))
        = profiles (db later)).
Proof.
  intros Hev Hid Hname Hmail Hr. destruct w as [d rs sk loc].
  cbn [db replies] in *. subst rs. cbn zeta.
  assert (Hrun : run (AuthContext.onAuthStateChange ev (Some (AuthContext.mkSession u)))
                   (mkWorld d (Served f1 t1 :: Served f2 t2 :: rest) sk loc)
                 = mkWorld
                     (with_rows profiles_table
                        (profiles d ++ [Profile.mk (User.id u) (AuthContext.profile_username u)
                                          (String c e) None None]) d)
                     rest
                     (sk ++ [console_warn "Profile not found, creating one...";
                             toast_success "Your profile has been set up!"])
                     (AuthContext.mkState (Some u) (Some (AuthContext.mkSession u)) false
                        (Some (Profile.mk (User.id u) (AuthContext.profile_username u)
                                 (String c e) None None)))).
  { unfold AuthContext.onAuthStateChange, AuthContext.fetchUserProfile,
      AuthContext.createProfile, AuthContext.setSession, AuthContext.setUser,
      AuthContext.setLoading, AuthContext.setUserProfile.
    destruct Hev as [-> | ->]; step_handler;
      cbn [rows with_rows profiles_table AuthContext.user_of option_map];
      (rewrite filter_none
         by (intros q Hq; apply String.eqb_neq; apply Hid; exact Hq));
      cbn [single code String.eqb Ascii.eqb Bool.eqb];
      rewrite Hmail; cbn [Js.truthy Js.or_else];
      unfold profile_admissible;
      (rewrite existsb_none
         by (intros q Hq; cbn [Profile.id Profile.username]; apply orb_false_iff;
             split; apply String.eqb_neq; [apply Hid | apply Hname]; exact Hq));
      cbn; rewrite <- app_assoc; reflexivity. }
  rewrite Hrun. cbn [db local with_rows profiles_table profiles AuthContext.userProfile].
  repeat split.
  intros later ev' Hlater. apply onAuthStateChange_keeps_existing.
  exists (Profile.mk (User.id u) (AuthContext.profile_username u) (String c e) None None).
  split; [|reflexivity]. rewrite Hlater. apply in_or_app. right. now left.
Qed.

Lemma C6_sign_in_creates_one_profile_witness :
  let w' := run (AuthContext.onAuthStateChange AuthContext.SIGNED_IN
                   (Some (AuthContext.mkSession Sample.carol)))
                (Sample.first_sign_in [Sample.served; Sample.served]) in
  profiles (db w')
  = [Sample.alice_profile;
     Profile.mk "ca601000-0000" "user-ca601000" "carol@example.org" None None].
Proof.
  refine (proj1 (C6_sign_in_creates_one_profile
                   (Sample.first_sign_in [Sample.served; Sample.served]) Sample.carol
                   AuthContext.SIGNED_IN "c"%char "arol@example.org" "n1" "n1" 1000 1000 []
                   (or_introl eq_refl) _ _ eq_refl eq_refl)).
  - intros q [<-|[]]. cbn. discriminate.
  - intros q [<-|[]]. cbn. discriminate.
Defined.

(** ** Best-effort notifications *)

(** A message is sent and the notification insert is refused: the message
    row stays, it is appended to the conversation, the input is cleared and
    nothing is reported as failed. *)
Lemma sendMessage_survives_notification_failure (trim : string -> string)
    (w : World Chat.State) (user : User.t)
    (friend : Profile.t) (f1 : Id) (t1 : Z) (e : PgError) (rest : list Reply) :
  Chat.selectedFriend (local w) = Some friend ->
  Js.falsy (trim (Chat.newMessage (local w))) = false ->
  Chat.sending (local w) = false ->
  User.id user <> Profile.id friend ->
  has_profile (db w) (User.id user) = true ->
  has_profile (db w) (Profile.id friend) = true ->
  replies w = Served f1 t1 :: Refused e :: rest ->
  let sent := Message.mk f1 (User.id user) (Profile.id friend)
                (trim (Chat.newMessage (local w))) false t1 in
  let w' := run (Chat.sendMessage trim user) w in
  messages (db w') = (messages (db w) ++ [sent])%list
  /\ notifications (db w') = notifications (db w)
  /\ Chat.messages (local w') = (Chat.messages (local w) ++ [sent])%list
  /\ Chat.newMessage (local w') = ""
  /\ Chat.sending (local w') = false
  /\ sink w' = sink w.
Proof.
  intros Hf Hm Hs Hne Hu Hp Hr. destruct w as [d rs sk loc].
  cbn [local replies db sink] in *.
  subst rs. cbn zeta. unfold Chat.sendMessage, Chat.setSending, Chat.setMessages,
    Chat.setNewMessage. step_handler. cbn [local]. rewrite Hm, Hf, Hs. step_handler.
  cbn [rows with_rows messages_table]. unfold message_constraints.
  cbn [Message.sender_id Message.receiver_id]. rewrite Hu, Hp.
  destruct (String.eqb_spec (User.id user) (Profile.id friend)); [contradiction|].
  cbn. repeat split; reflexivity.
Qed.

(** A friend request is sent and the notification insert is refused: the
    friendship row stays and the success toast is shown. *)
Lemma sendFriendRequest_survives_notification_failure (w : World Friends.State)
    (user : User.t) (userId : Id) (f1 : Id) (t1 : Z) (e : PgError) (rest : list Reply) :
  User.id user <> userId ->
  (forall g, In g (friendships (db w)) ->
             ~ (Friendship.requester_id g = User.id user
                /\ Friendship.addressee_id g = userId)) ->
  replies w = Served f1 t1 :: Refused e :: rest ->
  let w' := run (Friends.sendFriendRequest user userId) w in
  friendships (db w')
  = (friendships (db w) ++ [Friendship.mk f1 (User.id user) userId fpending t1])%list
  /\ notifications (db w') = notifications (db w)
  /\ In (toast_success "Friend request sent!") (sink w')
  /\ no_new_toast_error w w'.
Proof.
  intros Hne Hfree Hr. destruct w as [d rs sk loc]. cbn [local replies db sink] in *.
  subst rs. cbn zeta. unfold no_new_toast_error.
  unfold Friends.sendFriendRequest, Friends.fetchSentRequests, Friends.select_friendships,
    Friends.setSearchResults, Friends.setSentRequests.
  step_handler. cbn [rows with_rows friendships_table]. unfold friendship_admissible.
  cbn [Friendship.requester_id Friendship.addressee_id].
  destruct (String.eqb_spec (User.id user) userId); [contradiction|].
  rewrite existsb_none.
  2:{ intros g Hg. apply andb_false_iff.
      destruct (String.eqb_spec (Friendship.requester_id g) (User.id user)) as [E1|E1];
        [|now left].
      destruct (String.eqb_spec (Friendship.addressee_id g) userId) as [E2|E2];
        [|now right].
      exfalso. apply (Hfree g Hg). now split. }
  destruct rest as [|[f2 t2|e2] rest']; cbn; rewrite ?filter_app; cbn;
    rewrite ?app_nil_r; repeat split; try reflexivity;
    apply in_or_app; first [ right; now left | left; apply in_or_app; right; now left ].
Qed.

(** A task is created for another user and the notification insert is
    refused: the task row stays and the success toast is shown. *)
Lemma createTask_survives_notification_failure (trim : string -> string)
    (w : World Projects.State) (user : User.t)
    (selected : Project.t) (f1 : Id) (t1 : Z) (e : PgError) (rest : list Reply) :
  Projects.selectedProject (local w) = Some selected ->
  Js.falsy (trim (Projects.title (Projects.newTask (local w)))) = false ->
  Projects.assigned_to (Projects.newTask (local w)) <> User.id user ->
  has_profile (db w) (User.id user) = true ->
  has_profile (db w) (Projects.assigned_to (Projects.newTask (local w))) = true ->
  has_project (db w) (Project.id selected) = true ->
  replies w = Served f1 t1 :: Refused e :: rest ->
  let nt := Projects.newTask (local w) in
  let created :=
    Task.mk f1 (Projects.title nt) (Projects.description nt) (Projects.priority nt) pending
      (Projects.deadline nt) (Projects.assigned_to nt) (Some (Project.id selected))
      (User.id user) t1 in
  let w' := run (Projects.createTask trim user) w in
  tasks (db w') = (tasks (db w) ++ [created])%list
  /\ notifications (db w') = notifications (db w)
  /\ Projects.projectTasks (local w') = created :: Projects.projectTasks (local w)
  /\ sink w' = (sink w ++ [toast_success "Task created successfully!"])%list.
Proof.
  intros Hs Ht Hne Hu Ha Hp Hr. destruct w as [d rs sk loc].
  cbn [local replies db sink] in *.
  subst rs. cbn zeta. unfold Projects.createTask, Projects.setProjectTasks,
    Projects.setNewTask, Projects.setShowTaskForm. step_handler. cbn [local].
  rewrite Ht, Hs. step_handler. cbn [rows with_rows tasks_table].
  unfold task_constraints. cbn [Task.assigned_to Task.user_id Task.project_id].
  rewrite Hu, Ha, Hp. cbn [andb].
  destruct (String.eqb_spec (Projects.assigned_to (Projects.newTask loc)) (User.id user));
    [contradiction|].
  cbn. repeat split; reflexivity.
Qed.

(** C7: when the store refuses the notification insert that follows a
    sent message, a sent friend request or a task assignment, the row the
    operation inserted remains in its table, the [notifications] table is
    unchanged, no failure is reported to the user and the operation ends as
    a success (the message joins the conversation and the input is cleared;
    the success toast of the friend request or of the task creation is
    shown).  The triggering insert is one the store takes: the text does not
    trim to the empty string, the users concerned have profiles and, for a
    task, the project is in the store. *)
Theorem C7_notification_failure_is_not_fatal (trim : string -> string) (e : PgError)
    (f1 : Id) (t1 : Z) (rest : list Reply) :
  (forall (w : World Chat.State) (user : User.t) (friend : Profile.t),
      Chat.selectedFriend (local w) = Some friend ->
      Js.falsy (trim (Chat.newMessage (local w))) = false ->
      Chat.sending (local w) = false ->
      User.id user <> Profile.id friend ->
      has_profile (db w) (User.id user) = true ->
      has_profile (db w) (Profile.id friend) = true ->
      replies w = Served f1 t1 :: Refused e :: rest ->
      let sent := Message.mk f1 (User.id user) (Profile.id friend)
                    (trim (Chat.newMessage (local w))) false t1 in
      let w' := run (Chat.sendMessage trim user) w in
      In sent (messages (db w'))
      /\ In sent (Chat.messages (local w'))
      /\ Chat.newMessage (local w') = ""
      /\ no_new_toast_error w w')
  /\ (forall (w : World Friends.State) (user : User.t) (userId : Id),
      User.id user <> userId ->
      (forall g, In g (friendships (db w)) ->
                 ~ (Friendship.requester_id g = User.id user
                    /\ Friendship.addressee_id g = userId)) ->
      has_profile (db w) (User.id user) = true ->
      has_profile (db w) userId = true ->
      replies w = Served f1 t1 :: Refused e :: rest ->
      let w' := run (Friends.sendFriendRequest user userId) w in
      In (Friendship.mk f1 (User.id user) userId fpending t1) (friendships (db w'))
      /\ In (toast_success "Friend request sent!") (sink w')
      /\ no_new_toast_error w w')
  /\ (forall (w : World Projects.State) (user : User.t) (selected : Project.t),
      Projects.selectedProject (local w) = Some selected ->
      Js.falsy (trim (Projects.title (Projects.newTask (local w)))) = false ->
      Projects.assigned_to (Projects.newTask (local w)) <> User.id user ->
      has_profile (db w) (User.id user) = true ->
      has_profile (db w) (Projects.assigned_to (Projects.newTask (local w))) = true ->
      has_project (db w) (Project.id selected) = true ->
      replies w = Served f1 t1 :: Refused e :: rest ->
      let w' := run (Projects.createTask trim user) w in
      (exists created, In created (tasks (db w')) /\ Task.id created = f1
                       /\ Task.assigned_to created
                          = Projects.assigned_to (Projects.newTask (local w)))
      /\ In (toast_success "Task created successfully!") (sink w')
      /\ no_new_toast_error w w').
Proof.
  repeat match goal with |- _ /\ _ => split end.
  - intros w user friend Hf Hm Hs Hne Hu Hp Hr.
    destruct (sendMessage_survives_notification_failure trim w user friend f1 t1 e rest
                Hf Hm Hs Hne Hu Hp Hr) as [H1 [_ [H3 [H4 [_ H6]]]]].
    cbn zeta. unfold no_new_toast_error. rewrite H1, H3, H4, H6.
    repeat split; try reflexivity; apply in_or_app; right; now left.
  - intros w user userId Hne Hfree _ _ Hr.
    destruct (sendFriendRequest_survives_notification_failure w user userId f1 t1 e rest
                Hne Hfree Hr) as [H1 [_ [H3 H4]]].
    cbn zeta. rewrite H1. repeat split; try assumption.
    apply in_or_app; right; now left.
  - intros w user selected Hs Ht Hne Hu Ha Hp Hr.
    destruct (createTask_survives_notification_failure trim w user selected f1 t1 e rest
                Hs Ht Hne Hu Ha Hp Hr) as [H1 [_ [_ H4]]].
    cbn zeta. unfold no_new_toast_error. rewrite H1, H4. repeat split.
    + eexists. split; [apply in_or_app; right; now left|]. split; reflexivity.
    + apply in_or_app; right; now left.
    + rewrite filter_app. cbn. now rewrite app_nil_r.
Qed.

Lemma C7_notification_failure_is_not_fatal_witness :
  In (Message.mk "n1" "a11ce000-0000" "b0b00000-0000" "see you at nine" false 1000)
     (messages (db (run (Chat.sendMessage Js.ascii_trim Sample.alice)
                        (Sample.draft_page [Sample.served; Sample.refused])))).
Proof.
  refine (proj1 (proj1 (C7_notification_failure_is_not_fatal Js.ascii_trim (mkError "503")
                          "n1" 1000 [])
                   (Sample.draft_page [Sample.served; Sample.refused]) Sample.alice
                   Sample.bob_profile eq_refl eq_refl eq_refl _ eq_refl eq_refl eq_refl)).
  cbn. discriminate.
Defined.

(** ** Relative dates *)

Lemma diffInDays_bounds (date now q : Z) :
  Activity.diffInDays date now = q
  <-> q * Activity.day_ms <= date - now < (q + 1) * Activity.day_ms.
Proof.
  unfold Activity.diffInDays, Activity.day_ms.
  split; intros H; [subst q|]; Z.to_euclidean_division_equations; lia.
Qed.

(** C8 (counterexample): the date is midnight of day 20000 and the two
    current times lie on that same calendar day, one at midnight and one a
    millisecond later; the calendar-day difference is 0 for both, and the
    label is Today for the first and Yesterday for the second. *)
Lemma C8_label_changes_within_a_day :
  let date := 20000 * Activity.day_ms in
  let midnight := 20000 * Activity.day_ms in
  let later := 20000 * Activity.day_ms + 1 in
  Activity.calendarDay 0 midnight = Activity.calendarDay 0 later
  /\ Activity.calendarDay 0 date - Activity.calendarDay 0 later = 0
  /\ Activity.formatDate (fun _ => 2024) date midnight = Activity.Today
  /\ Activity.formatDate (fun _ => 2024) date later = Activity.Yesterday.
Proof. repeat split; reflexivity. Qed.

(** C8 (amended): [formatDate] buckets by the number of whole 24-hour
    periods from the current instant to the date, [floor((date - now) / 24h)]:
    Today when it is 0, Tomorrow when 1, Yesterday when -1, "In N days" for
    N from 2 to 7, "N days ago" for N from 2 to 7, and the absolute date
    otherwise, with the year when the two years differ. *)
Theorem C8_formatDate_buckets (getFullYear : Z -> Z) (date now : Z) :
  let label := Activity.formatDate getFullYear date now in
  let day := Activity.day_ms in
  (label = Activity.Today <-> 0 <= date - now < day)
  /\ (label = Activity.Tomorrow <-> day <= date - now < 2 * day)
  /\ (label = Activity.Yesterday <-> - day <= date - now < 0)
  /\ (forall n, label = Activity.InDays n
                <-> 2 <= n <= 7 /\ n * day <= date - now < (n + 1) * day)
  /\ (forall n, label = Activity.DaysAgo n
                <-> 2 <= n <= 7 /\ - n * day <= date - now < (1 - n) * day)
  /\ (forall d y, label = Activity.Absolute d y
                  <-> d = date /\ y = negb (getFullYear date =? getFullYear now)%Z
                      /\ (date - now < -7 * day \/ 8 * day <= date - now)).
Proof.
  cbn zeta. unfold Activity.formatDate.
  pose proof (diffInDays_bounds date now (Activity.diffInDays date now)) as Hb.
  destruct Hb as [Hb _]. specialize (Hb eq_refl).
  set (q := Activity.diffInDays date now) in *. clearbody q.
  unfold Activity.day_ms in *.
  destruct (Z.eqb_spec q 0); [|destruct (Z.eqb_spec q 1); [|destruct (Z.eqb_spec q (-1));
    [|destruct (Z.ltb_spec 1 q); destruct (Z.leb_spec q 7);
      destruct (Z.ltb_spec q (-1)); destruct (Z.leb_spec (-7) q); cbn [andb]]]].
  all: try (exfalso; lia).
  all: repeat match goal with |- _ /\ _ => split end; intros; split; intros H';
       try discriminate; try lia;
       try (injection H' as H'; subst);
       repeat match goal with H : _ /\ _ |- _ => destruct H end;
       try lia; try (f_equal; lia);
       try (repeat split; try reflexivity; lia);
       try (subst; reflexivity).
Qed.

(** ** Marking a conversation as read *)

Lemma unread_from_spec (friendId user : Id) (m : Message.t) :
  Chat.unread_from friendId user m = true
  <-> Message.sender_id m = friendId /\ Message.receiver_id m = user
      /\ Message.read m = false.
Proof.
  unfold Chat.unread_from. rewrite !andb_true_iff, !String.eqb_eq.
  destruct (Message.read m); cbn; intuition congruence.
Qed.

(** C9: opening the conversation with the selected friend, the update
    being served, turns [read] to [true] on exactly the unread messages the
    friend sent to the viewer.  Row by row: the table keeps its length and
    order; a row keeps its id, sender, receiver, content and timestamp; a row
    that is not an unread message from the friend to the viewer is unchanged;
    and the other tables are unchanged. *)
Theorem C9_markMessagesAsRead_frame (w : World Chat.State) (user : User.t)
    (friend : Profile.t) (fresh : Id) (t : Z) (rest : list Reply) :
  Chat.selectedFriend (local w) = Some friend ->
  replies w = Served fresh t :: rest ->
  let w' := run (Chat.markMessagesAsRead user) w in
  List.length (messages (db w')) = List.length (messages (db w))
  /\ (forall i m, nth_error (messages (db w)) i = Some m ->
        exists m',
          nth_error (messages (db w')) i = Some m'
          /\ Message.id m' = Message.id m
          /\ Message.sender_id m' = Message.sender_id m
          /\ Message.receiver_id m' = Message.receiver_id m
          /\ Message.content m' = Message.content m
          /\ Message.created_at m' = Message.created_at m
          /\ (Message.sender_id m = Profile.id friend
              /\ Message.receiver_id m = User.id user
              /\ Message.read m = false -> Message.read m' = true)
          /\ (~ (Message.sender_id m = Profile.id friend
                 /\ Message.receiver_id m = User.id user
                 /\ Message.read m = false) -> m' = m))
  /\ profiles (db w') = profiles (db w)
  /\ projects (db w') = projects (db w)
  /\ tasks (db w') = tasks (db w)
  /\ friendships (db w') = friendships (db w)
  /\ notifications (db w') = notifications (db w)
  /\ sink w' = sink w.
Proof.
  intros Hf Hr. destruct w as [d rs sk loc]. cbn [local replies db sink] in *. subst rs.
  cbn zeta. unfold Chat.markMessagesAsRead. step_handler. cbn [local]. rewrite Hf.
  step_handler. cbn [rows with_rows messages_table messages profiles projects tasks
                     friendships notifications].
  split; [apply length_map|]. split; [|repeat split; reflexivity].
  intros i m Hi.
  rewrite nth_error_map, Hi. cbn [option_map].
  eexists. split; [reflexivity|].
  destruct (Chat.unread_from (Profile.id friend) (User.id user) m) eqn:E.
  - apply unread_from_spec in E. repeat split; try reflexivity. intros H. contradiction.
  - repeat split; try reflexivity. intros H.
    apply unread_from_spec in H. congruence.
Qed.

Lemma C9_markMessagesAsRead_frame_witness :
  messages (db (run (Chat.markMessagesAsRead Sample.alice)
                    (Sample.inbox_page [Sample.served])))
  = [Message.mk "m1" "b0b00000-0000" "a11ce000-0000" "hello" true 1;
     Message.mk "m2" "a11ce000-0000" "b0b00000-0000" "hi" false 2;
     Message.mk "m3" "b0b00000-0000" "a11ce000-0000" "lunch?" true 3]
  /\ List.length (messages (db (run (Chat.markMessagesAsRead Sample.alice)
                                    (Sample.inbox_page [Sample.served]))))
     = List.length Sample.inbox.
Proof.
  split; [reflexivity|].
  exact (proj1 (C9_markMessagesAsRead_frame (Sample.inbox_page [Sample.served])
                  Sample.alice Sample.bob_profile "n1" 1000 [] eq_refl eq_refl)).
Defined.

(** ** Removing a friend *)

Lemma between_spec (user friendId : Id) (g : Friendship.t) :
  Friends.between user friendId g = true
  <-> (Friendship.requester_id g = user /\ Friendship.addressee_id g = friendId)
      \/ (Friendship.requester_id g = friendId /\ Friendship.addressee_id g = user).
Proof.
  unfold Friends.between. rewrite orb_true_iff, !andb_true_iff, !String.eqb_eq.
  reflexivity.
Qed.

Lemma filter_all {A} (p : A -> bool) (l : list A) :
  (forall x, In x l -> p x = true) -> List.filter p l = l.
Proof.
  induction l as [|x l IH]; intros H; [reflexivity|].
  cbn. rewrite (H x (or_introl eq_refl)). f_equal. apply IH. intros y Hy. apply H. now right.
Qed.

(** Row-level security with no policy FOR DELETE: a served delete leaves
    the table as it is. *)
Lemma friendships_delete_nothing (filter : Friendship.t -> bool) (d : DB) :
  with_rows friendships_table
    (List.filter (fun x => negb (Policy.friendships_delete x && filter x))
       (rows friendships_table d)) d
  = d.
Proof.
  rewrite filter_all by reflexivity. now destruct d.
Qed.

Lemma friends_without_some (friendId : Id) (l : list (option Profile.t)) :
  (forall e, In e l -> e <> None) ->
  exists r, Friends.friends_without friendId l = Some r
            /\ forall p, In (Some p) r -> Profile.id p <> friendId.
Proof.
  induction l as [|[p|] l IH]; intros H.
  - exists []. split; [reflexivity | intros p []].
  - destruct IH as [r [E Hr]]; [intros e He; apply H; now right|].
    cbn [Friends.friends_without]. rewrite E.
    destruct (String.eqb_spec (Profile.id p) friendId) as [Eq|Ne].
    + exists r. split; [reflexivity | exact Hr].
    + exists (Some p :: r). split; [reflexivity|].
      intros q [Hq|Hq]; [inversion Hq; now subst | now apply Hr].
  - exfalso. exact (H None (or_introl eq_refl) eq_refl).
Qed.

(** C10 (the failing runs): [removeFriend] asks the store to
    delete the rows of the pair in both orientations, and [friendships] has
    row-level security without a policy FOR DELETE, so the store serves the
    request and deletes no row.  For an accepted row between the viewer and
    the friend the handler then ends as a success: the store is as it was,
    the row is in the table, each of the two is in the friend list computed
    from the store for the other, the page has dropped the friend from its
    list and shows the toast "Friend removed"; the next served
    [fetchFriends] lists the friend again. *)
Theorem C10_removeFriend_leaves_the_pair_friends (w : World Friends.State) (user : User.t)
    (friendId : Id) (f : Friendship.t) (fresh f2 : Id) (t t2 : Z) (rest : list Reply) :
  replies w = Served fresh t :: Served f2 t2 :: rest ->
  In f (friendships (db w)) ->
  Friendship.status f = accepted ->
  Friends.between (User.id user) friendId f = true ->
  (forall e, In e (Friends.friends (local w)) -> e <> None) ->
  let w' := run (Friends.removeFriend user friendId) w in
  db w' = db w
  /\ In f (friendships (db w'))
  /\ In (lookup_profile (db w') friendId) (Friends.friendsList (db w') (User.id user))
  /\ In (lookup_profile (db w') (User.id user)) (Friends.friendsList (db w') friendId)
  /\ (forall p, In (Some p) (Friends.friends (local w')) -> Profile.id p <> friendId)
  /\ sink w' = (sink w ++ [toast_success "Friend removed"])%list
  /\ In (lookup_profile (db w') friendId)
        (Friends.friends (local (run (Friends.fetchFriends user) w'))).
Proof.
  intros Hr Hin Hacc Hb Hsome. destruct w as [d rs sk loc].
  cbn [local replies db sink] in *. subst rs. cbn zeta.
  destruct (friends_without_some friendId (Friends.friends loc) Hsome) as [r [Er Hrem]].
  assert (Hlist : forall u other, Friends.between u other f = true ->
            In (lookup_profile d other) (Friends.friendsList d u)).
  { intros u other Hbt. apply friendsList_counterpart. exists f.
    apply between_spec in Hbt. split; [assumption|]. split.
    - unfold Friends.accepted_with. rewrite Hacc.
      destruct Hbt as [[E1 E2]|[E1 E2]]; rewrite ?E1, ?E2, String.eqb_refl;
        cbn; now rewrite ?orb_true_r.
    - destruct Hbt as [[E1 E2]|[E1 E2]].
      + now rewrite E1, String.eqb_refl, E2.
      + rewrite E1. destruct (String.eqb_spec other u) as [->|_]; [now rewrite E2|reflexivity]. }
  assert (Hb' : Friends.between friendId (User.id user) f = true).
  { apply between_spec. apply between_spec in Hb. tauto. }
  unfold Friends.removeFriend, Friends.fetchFriends, Friends.select_friendships,
    Friends.setFriends, Friends.setLoading. step_handler.
  cbn [local]. rewrite friendships_delete_nothing, Er. step_handler.
  cbn [db sink local Friends.friends rows friendships_table].
  split; [reflexivity|]. split; [assumption|]. split; [now apply Hlist|].
  split; [now apply Hlist|]. split; [exact Hrem|]. split; [reflexivity|].
  fold (Friends.friendsList d (User.id user)). now apply Hlist.
Qed.

Lemma C10_removeFriend_leaves_the_pair_friends_witness :
  Friends.friends (local Sample14.friends_listed) = [Some Sample.bob_profile]
  /\ db (run (Friends.removeFriend Sample.alice "b0b00000-0000") Sample14.friends_listed)
     = Sample.friends_db
  /\ Friends.friends
       (local (run (Friends.removeFriend Sample.alice "b0b00000-0000")
                   Sample14.friends_listed)) = []
  /\ Friends.friends
       (local (run (Friends.fetchFriends Sample.alice)
                   (run (Friends.removeFriend Sample.alice "b0b00000-0000")
                        Sample14.friends_listed)))
     = [Some Sample.bob_profile].
Proof.
  split; [reflexivity|]. split; [|split; reflexivity].
  refine (proj1 (C10_removeFriend_leaves_the_pair_friends Sample14.friends_listed
                   Sample.alice "b0b00000-0000"
                   (Friendship.mk "f1" "b0b00000-0000" "a11ce000-0000" accepted 0)
                   "n1" "n1" 1000 1000 [] eq_refl (or_introl eq_refl) eq_refl eq_refl _)).
  intros e [<-|[]]. discriminate.
Defined.

(** ** A completed task set back *)

(** The count of [updateTaskStatus] is taken over the task list of the
    closure: a completed task that is set back to pending is still counted.
    The buttons of the page offer only pending -> in progress -> completed. *)
Lemma stale_count_when_uncompleted :
  let before := [Sample.task 1 completed] in
  let after := map (fun task => if Task.id task =? "t01"
                                then Task.with_status pending task else task) before in
  Projects.newProgress before "t01" pending = 100
  /\ computeProjectProgress after = 0.
Proof. vm_compute. split; reflexivity. Qed.

(** The two values the specification lists. *)
Lemma newProgress_examples :
  Projects.newProgress [] "t01" completed = 0
  /\ Projects.newProgress
       [Sample.task 1 completed; Sample.task 2 completed; Sample.task 3 pending]
       "t02" completed = 67
  /\ Projects.newProgress
       [Sample.task 1 completed; Sample.task 2 in_progress; Sample.task 3 pending]
       "t02" completed = 67.
Proof. vm_compute. repeat split; reflexivity. Qed.

(** ** Constraints the handlers keep *)

(** What [sendFriendRequest] can do to the [friendships] table: nothing,
    or add one row that passes the table's constraints. *)
Lemma sendFriendRequest_friendships (w : World Friends.State) (user : User.t) (userId : Id) :
  let w' := run (Friends.sendFriendRequest user userId) w in
  friendships (db w') = friendships (db w)
  \/ exists fresh t,
       friendships (db w')
       = (friendships (db w) ++ [Friendship.mk fresh (User.id user) userId fpending t])%list
       /\ friendship_admissible (friendships (db w))
            (Friendship.mk fresh (User.id user) userId fpending t) = None.
Proof.
  destruct w as [d rs sk loc]. cbn zeta.
  unfold Friends.sendFriendRequest, Friends.fetchSentRequests, Friends.select_friendships,
    Friends.setSearchResults, Friends.setSentRequests.
  step_handler.
  destruct rs as [|[f1 t1|e1] rest]; try (left; reflexivity).
  cbn [rows with_rows friendships_table].
  destruct (friendship_admissible (friendships d)
              (Friendship.mk f1 (User.id user) userId fpending t1)) eqn:Hadm;
    [left; reflexivity|].
  right. exists f1, t1. split; [|exact Hadm].
  destruct rest as [|[f2 t2|e2] rest]; cbn;
    try (destruct rest as [|[f3 t3|e3] rest]); reflexivity.
Qed.

(** The friendship handlers keep the table free of self-pairs. *)
Lemma friends_page_keeps_check (w : World Friends.State) (user : User.t) (other : Id) :
  no_self_pair (friendships (db w)) ->
  no_self_pair (friendships (db (run (Friends.sendFriendRequest user other) w)))
  /\ no_self_pair (friendships (db (run (Friends.removeFriend user other) w))).
Proof.
  intros Hc. split.
  - destruct (sendFriendRequest_friendships w user other) as [E | [fresh [t [E Hadm]]]];
      cbn zeta in E; rewrite E; [exact Hc|].
    intros g Hg. apply in_app_or in Hg. destruct Hg as [Hg | [<- | []]]; [now apply Hc|].
    unfold friendship_admissible in Hadm. cbn in *.
    destruct (String.eqb_spec (User.id user) other); [discriminate | assumption].
  - destruct w as [d rs sk loc]. unfold Friends.removeFriend, Friends.setFriends.
    step_handler. cbn [local].
    destruct rs as [|[f t|e] rest]; cbn; try exact Hc.
    destruct (Friends.friends_without other (Friends.friends loc)); cbn;
      intros g Hg; apply filter_In in Hg; now apply Hc.
Qed.

Lemma friends_page_keeps_check_witness :
  no_self_pair (friendships (db (run (Friends.sendFriendRequest Sample.alice "ca601000-0000")
                                     (Sample.friends_page [Sample.served; Sample.served])))).
Proof.
  refine (proj1 (friends_page_keeps_check
                   (Sample.friends_page [Sample.served; Sample.served])
                   Sample.alice "ca601000-0000" _)).
  intros g [<- | []]. cbn. discriminate.
Defined.

Lemma existsb_false_in {A} (p : A -> bool) (l : list A) (x : A) :
  existsb p l = false -> In x l -> p x = false.
Proof.
  intros H Hin. destruct (p x) eqn:E; [|reflexivity].
  rewrite <- H. symmetry. apply existsb_exists. now exists x.
Qed.

(** What [createProfile] can do to the [profiles] table: nothing, or add
    one row whose id no row had. *)
Lemma createProfile_profiles (w : World AuthContext.State) (u : User.t) :
  let w' := run (AuthContext.createProfile u) w in
  profiles (db w') = profiles (db w)
  \/ exists p, profiles (db w') = (profiles (db w) ++ [p])%list
               /\ Profile.id p = User.id u
               /\ forall q, In q (profiles (db w)) -> Profile.id q <> Profile.id p.
Proof.
  destruct w as [d rs sk loc]. cbn zeta. unfold AuthContext.createProfile. step_handler.
  destruct (Js.truthy (User.email u)); [|left; reflexivity].
  destruct rs as [|[f t|e] rest]; try (left; reflexivity).
  cbn [rows with_rows profiles_table].
  match goal with |- context [profile_admissible ?l ?p] =>
    destruct (profile_admissible l p) eqn:Hadm; [left; reflexivity|];
    right; exists p
  end.
  split; [reflexivity|]. split; [reflexivity|].
  intros q Hq E. unfold profile_admissible in Hadm.
  match type of Hadm with (if ?b then _ else _) = _ => destruct b eqn:Hex end;
    [discriminate|].
  assert (Hall := existsb_false_in _ _ q Hex Hq). cbn in Hall.
  apply orb_false_iff in Hall. destruct Hall as [Hall _].
  apply String.eqb_neq in Hall. apply Hall. exact E.
Qed.

Lemma fetchUserProfile_profiles (w : World AuthContext.State) (u : User.t) :
  let w' := run (AuthContext.fetchUserProfile u) w in
  profiles (db w') = profiles (db w)
  \/ exists p, profiles (db w') = (profiles (db w) ++ [p])%list
               /\ Profile.id p = User.id u
               /\ forall q, In q (profiles (db w)) -> Profile.id q <> Profile.id p.
Proof.
  destruct w as [d rs sk loc]. cbn zeta.
  assert (Hcreate : forall w1 : World AuthContext.State, db w1 = d ->
            profiles (db (snd (AuthContext.createProfile u w1))) = profiles d
            \/ exists p, profiles (db (snd (AuthContext.createProfile u w1)))
                         = (profiles d ++ [p])%list
                         /\ Profile.id p = User.id u
                         /\ forall q, In q (profiles d) -> Profile.id q <> Profile.id p).
  { intros w1 E. rewrite <- E. apply (createProfile_profiles w1 u). }
  unfold AuthContext.fetchUserProfile. step_handler.
  destruct rs as [|[f t|e] rest].
  - destruct (code _ =? "PGRST116"); [|left; reflexivity].
    match goal with |- context [AuthContext.createProfile ?u0 ?w1] =>
      specialize (Hcreate w1 eq_refl); destruct (AuthContext.createProfile u0 w1) as [[?|?] ?]
    end; exact Hcreate.
  - cbn [rows profiles_table].
    destruct (List.filter _ (profiles d)) as [|x [|y l]]; cbn [single];
      try (left; reflexivity);
      cbn [code]; cbn [String.eqb Ascii.eqb Bool.eqb];
      match goal with |- context [AuthContext.createProfile ?u0 ?w1] =>
        specialize (Hcreate w1 eq_refl);
        destruct (AuthContext.createProfile u0 w1) as [[?|?] ?]
      end; exact Hcreate.
  - cbn [single]. destruct (code e =? "PGRST116"); [|left; reflexivity].
    match goal with |- context [AuthContext.createProfile ?u0 ?w1] =>
      specialize (Hcreate w1 eq_refl); destruct (AuthContext.createProfile u0 w1) as [[?|?] ?]
    end; exact Hcreate.
Qed.

(** Whatever the event, the session and the answers of the store, an auth
    event never makes two profile rows share an id. *)
Lemma onAuthStateChange_keeps_primary_key (w : World AuthContext.State)
    (ev : AuthContext.AuthChangeEvent) (session : option AuthContext.Session) :
  NoDup (map Profile.id (profiles (db w))) ->
  NoDup (map Profile.id (profiles (db (run (AuthContext.onAuthStateChange ev session) w)))).
Proof.
  intros Hnd. destruct w as [d rs sk loc]. cbn [db] in Hnd.
  assert (Hfetch : forall (u : User.t) (w1 : World AuthContext.State), db w1 = d ->
            NoDup (map Profile.id (profiles (db (snd (AuthContext.fetchUserProfile u w1)))))).
  { intros u w1 E.
    destruct (fetchUserProfile_profiles w1 u) as [H | [p [H [_ Hfresh]]]];
      cbn zeta in H; unfold run in H; rewrite H, E; [exact Hnd|].
    rewrite map_app. cbn [map]. apply NoDup_app; [exact Hnd | repeat constructor; auto |].
    intros i Hi [<- | []]. apply in_map_iff in Hi. destruct Hi as [q [Eq Hq]].
    rewrite E in Hfresh. exact (Hfresh q Hq Eq). }
  unfold AuthContext.onAuthStateChange, AuthContext.setSession, AuthContext.setUser,
    AuthContext.setLoading, AuthContext.setUserProfile.
  destruct ev, session as [s|]; step_handler; try exact Hnd.
  all: match goal with |- context [AuthContext.fetchUserProfile ?u0 ?w1] =>
         specialize (Hfetch u0 w1 eq_refl);
         destruct (AuthContext.fetchUserProfile u0 w1) as [[?|?] ?]
       end; exact Hfetch.
Qed.

Lemma onAuthStateChange_keeps_primary_key_witness :
  NoDup (map Profile.id
           (profiles (db (run (AuthContext.onAuthStateChange AuthContext.SIGNED_IN
                                 (Some (AuthContext.mkSession Sample.bob)))
                              (Sample.first_sign_in [Sample.served; Sample.served]))))).
Proof.
  apply onAuthStateChange_keeps_primary_key.
  cbn. repeat constructor. intros [].
Defined.

(** ** Relative dates in any time zone *)

(** Whatever the offset of the local time zone, two instants of one local
    calendar day get different labels for one date. *)
Lemma formatDate_depends_on_time_of_day (getFullYear : Z -> Z) (offset : Z) :
  exists date now later,
    Activity.calendarDay offset now = Activity.calendarDay offset later
    /\ Activity.formatDate getFullYear date now = Activity.Today
    /\ Activity.formatDate getFullYear date later = Activity.Yesterday.
Proof.
  exists (- offset), (- offset), (- offset + 1).
  unfold Activity.calendarDay, Activity.formatDate, Activity.diffInDays.
  replace (- offset + offset) with 0 by lia.
  replace (- offset + 1 + offset) with 1 by lia.
  replace (- offset - - offset) with 0 by lia.
  replace (- offset - (- offset + 1)) with (-1) by lia.
  repeat split; reflexivity.
Qed.

(** ** Sample runs *)

Lemma completedTasks_updated_witness :
  Projects.completedTasks
    [Sample.task 1 completed; Sample.task 2 in_progress; Sample.task 3 pending]
    "t02" completed
  = 2%nat.
Proof.
  rewrite completedTasks_updated by (left; reflexivity). reflexivity.
Defined.

Lemma Projects_updateTaskStatus_served_witness :
  progress_of_project
    (db (run (Projects.updateTaskStatus Sample.alice "t01" completed)
             Sample.one_task_page)) "p1"
  = Some 100.
Proof.
  pose proof (Projects_updateTaskStatus_served Sample.one_task_page Sample.alice
                "t01" completed
                Sample.launch [] "n1" "n1" 1000 1000 eq_refl eq_refl) as H.
  cbn zeta in H. destruct H as [_ [H _]].
  unfold progress_of_project. rewrite H. reflexivity.
Defined.

(** * The rest of the pages *)

(** ** Friend requests *)

(** Accepting a pending request: the request row becomes [accepted] and
    no other row changes; the friend list the page then sets for the one who
    answers holds the requester's profile, the friend list computed for the
    requester holds the profile of the one who answered, and the request is
    gone from the incoming requests of the page. *)
Lemma respondToFriendRequest_accept (w : World Friends.State) (b : User.t) (a : Id)
    (f : Friendship.t) (pa pb : Profile.t) (f1 f2 f3 : Id) (t1 t2 t3 : Z)
    (rest : list Reply) :
  In f (friendships (db w)) ->
  (forall g, In g (friendships (db w)) ->
             Friendship.id g = Friendship.id f -> g = f) ->
  Friendship.status f = fpending ->
  Friendship.requester_id f = a ->
  Friendship.addressee_id f = User.id b ->
  lookup_profile (db w) a = Some pa ->
  lookup_profile (db w) (User.id b) = Some pb ->
  replies w = Served f1 t1 :: Served f2 t2 :: Served f3 t3 :: rest ->
  let w' := run (FriendsPage.respondToFriendRequest b (Friendship.id f) accepted) w in
  friendships (db w')
  = map (fun g => if Friendship.id g =? Friendship.id f
                  then friendship_with_status accepted g else g) (friendships (db w))
  /\ (forall g, In g (friendships (db w)) -> g <> f -> In g (friendships (db w')))
  /\ In (Some pa) (Friends.friends (local w'))
  /\ In (Some pb) (Friends.friendsList (db w') a)
  /\ (forall r, In r (Friends.friendRequests (local w')) ->
                Friendship.id (Friends.row r) <> Friendship.id f)
  /\ In (toast_success "Friend request accepted!") (sink w').
Proof.
  intros Hin Hpk Hst Hreq Hadd Hpa Hpb Hr. destruct w as [d rs sk loc].
  cbn [db replies local sink] in *. subst rs. cbn zeta.
  set (upd := fun g : Friendship.t =>
                if Friendship.id g =? Friendship.id f
                then friendship_with_status accepted g else g).
  assert (Hrun : run (FriendsPage.respondToFriendRequest b (Friendship.id f) accepted)
                   (mkWorld d (Served f1 t1 :: Served f2 t2 :: Served f3 t3 :: rest) sk loc)
                 = mkWorld (with_rows friendships_table (map upd (friendships d)) d) rest
                     (sk ++ [toast_success "Friend request accepted!"])
                     (Friends.mkState (Friends.searchResults loc)
                        (Friends.friendsList
                           (with_rows friendships_table (map upd (friendships d)) d)
                           (User.id b))
                        (map (Friends.join true false
                                (with_rows friendships_table (map upd (friendships d)) d))
                           (List.filter (FriendsPage.incoming (User.id b))
                              (map upd (friendships d))))
                        (Friends.sentRequests loc) false)).
  { reflexivity. }
  rewrite Hrun. cbn [db local sink].
  assert (Hupd : upd f = friendship_with_status accepted f).
  { unfold upd. now rewrite String.eqb_refl. }
  assert (Hinf : In (friendship_with_status accepted f) (map upd (friendships d))).
  { rewrite <- Hupd. now apply in_map. }
  split; [reflexivity|]. split; [|split; [|split; [|split]]].
  - intros g Hg Hne. cbn. apply in_map_iff. exists g. split; [|assumption].
    unfold upd. destruct (String.eqb_spec (Friendship.id g) (Friendship.id f)) as [E|E];
      [|reflexivity].
    exfalso. apply Hne. now apply Hpk.
  - apply friendsList_counterpart. exists (friendship_with_status accepted f).
    split; [exact Hinf|]. split.
    + unfold Friends.accepted_with. cbn. rewrite Hadd, String.eqb_refl, orb_true_r.
      reflexivity.
    + cbn. rewrite Hreq, Hadd.
      destruct (String.eqb_spec a (User.id b)) as [E|E].
      * unfold lookup_profile in *. cbn. now rewrite Hpb, <- Hpa, E.
      * unfold lookup_profile in *. cbn. now rewrite Hpa.
  - apply friendsList_counterpart. exists (friendship_with_status accepted f).
    split; [exact Hinf|]. split.
    + unfold Friends.accepted_with. cbn. rewrite Hreq, String.eqb_refl. reflexivity.
    + cbn. rewrite Hreq, Hadd, String.eqb_refl.
      unfold lookup_profile in *. cbn. now rewrite Hpb.
  - intros r Hrin E. apply in_map_iff in Hrin. destruct Hrin as [g [<- Hg]].
    apply filter_In in Hg. destruct Hg as [Hg Hinc]. cbn in E.
    apply in_map_iff in Hg. destruct Hg as [g0 [<- Hg0]].
    unfold upd in E, Hinc.
    destruct (String.eqb_spec (Friendship.id g0) (Friendship.id f)) as [E0|E0].
    + unfold FriendsPage.incoming in Hinc. cbn in Hinc.
      now rewrite andb_false_r in Hinc.
    + contradiction.
  - apply in_or_app. right. now left.
Qed.

Lemma respondToFriendRequest_accept_witness :
  In (Some Sample.bob_profile)
     (Friends.friends
        (local (run (FriendsPage.respondToFriendRequest Sample.carol "f2" accepted)
                    (Sample2.friends_page [Sample.served; Sample.served; Sample.served]))))
  /\ In (Some Sample2.carol_profile)
       (Friends.friendsList
          (db (run (FriendsPage.respondToFriendRequest Sample.carol "f2" accepted)
                   (Sample2.friends_page [Sample.served; Sample.served; Sample.served])))
          "b0b00000-0000").
Proof.
  assert (Hpk : forall g, In g (friendships Sample2.requests_db) ->
                  Friendship.id g = Friendship.id Sample2.request -> g = Sample2.request).
  { intros g [<- | [<- | []]]; [discriminate | reflexivity]. }
  pose proof (respondToFriendRequest_accept
                (Sample2.friends_page [Sample.served; Sample.served; Sample.served])
                Sample.carol "b0b00000-0000" Sample2.request Sample.bob_profile
                Sample2.carol_profile "n1" "n1" "n1" 1000 1000 1000 []
                (or_intror (or_introl eq_refl)) Hpk eq_refl eq_refl eq_refl eq_refl eq_refl
                eq_refl) as H.
  cbn zeta in H. destruct H as [_ [_ [H1 [H2 _]]]]. split; assumption.
Defined.

(** A request towards somebody for whom a row in the same direction
    exists (pending, accepted or declined) inserts nothing, whatever the
    store answers: the store is left as it was and the failure toast is
    shown. *)
Lemma sendFriendRequest_same_direction (w : World Friends.State) (user : User.t)
    (userId : Id) (g : Friendship.t) :
  In g (friendships (db w)) ->
  Friendship.requester_id g = User.id user ->
  Friendship.addressee_id g = userId ->
  let w' := run (Friends.sendFriendRequest user userId) w in
  db w' = db w
  /\ In (toast_error "Failed to send friend request") (sink w').
Proof.
  intros Hin Hreq Hadd. destruct w as [d rs sk loc]. cbn [db replies sink] in *. cbn zeta.
  assert (Hadm : forall f t,
            friendship_admissible (friendships d)
              (Friendship.mk f (User.id user) userId fpending t) <> None).
  { intros f t. unfold friendship_admissible. cbn.
    destruct (User.id user =? userId); [discriminate|].
    replace (existsb _ (friendships d)) with true; [discriminate|].
    symmetry. apply existsb_exists. exists g. split; [assumption|].
    now rewrite Hreq, Hadd, !String.eqb_refl. }
  unfold Friends.sendFriendRequest, Friends.fetchSentRequests, Friends.select_friendships,
    Friends.setSearchResults, Friends.setSentRequests.
  step_handler.
  destruct rs as [|[f t|e] rest]; cbn [rows with_rows friendships_table].
  - split; [reflexivity|]. cbn. apply in_or_app. right. now left.
  - specialize (Hadm f t).
    destruct (friendship_admissible (friendships d)
                (Friendship.mk f (User.id user) userId fpending t)); [|contradiction].
    split; [reflexivity|]. cbn. apply in_or_app. right. now left.
  - split; [reflexivity|]. cbn. apply in_or_app. right. now left.
Qed.

Lemma sendFriendRequest_same_direction_witness :
  db (run (Friends.sendFriendRequest Sample.bob "a11ce000-0000")
          (Sample.friends_page [Sample.served; Sample.served]))
  = Sample.friends_db.
Proof.
  exact (proj1 (sendFriendRequest_same_direction
                  (Sample.friends_page [Sample.served; Sample.served]) Sample.bob
                  "a11ce000-0000"
                  (Friendship.mk "f1" "b0b00000-0000" "a11ce000-0000" accepted 0)
                  (or_introl eq_refl) eq_refl eq_refl)).
Defined.

Lemma accepted_rows_after_decline (l : list Friendship.t) (f : Friendship.t) (u : Id) :
  (forall g, In g l -> Friendship.id g = Friendship.id f -> g = f) ->
  Friendship.status f = fpending ->
  List.filter (Friends.accepted_with u)
    (map (fun g => if Friendship.id g =? Friendship.id f
                   then friendship_with_status declined g else g) l)
  = List.filter (Friends.accepted_with u) l.
Proof.
  intros Hpk Hst. induction l as [|g l IH]; [reflexivity|].
  cbn [map List.filter]. rewrite IH by (intros g0 Hg0; apply Hpk; now right).
  destruct (String.eqb_spec (Friendship.id g) (Friendship.id f)) as [E|E]; [|reflexivity].
  rewrite (Hpk g (or_introl eq_refl) E).
  unfold Friends.accepted_with. cbn. rewrite Hst. cbn. now rewrite !andb_false_r.
Qed.

(** Declining a pending request: the row stays in the table with status
    [declined], nobody's friend list changes, and the request is gone from
    the incoming requests of the page. *)
Lemma respondToFriendRequest_decline (w : World Friends.State) (b : User.t)
    (f : Friendship.t) (f1 f2 : Id) (t1 t2 : Z) (rest : list Reply) :
  In f (friendships (db w)) ->
  (forall g, In g (friendships (db w)) ->
             Friendship.id g = Friendship.id f -> g = f) ->
  Friendship.status f = fpending ->
  replies w = Served f1 t1 :: Served f2 t2 :: rest ->
  let w' := run (FriendsPage.respondToFriendRequest b (Friendship.id f) declined) w in
  In (friendship_with_status declined f) (friendships (db w'))
  /\ (forall u, Friends.friendsList (db w') u = Friends.friendsList (db w) u)
  /\ Friends.friends (local w') = Friends.friends (local w)
  /\ (forall r, In r (Friends.friendRequests (local w')) ->
                Friendship.id (Friends.row r) <> Friendship.id f)
  /\ sink w' = (sink w ++ [toast_success "Friend request declined"])%list.
Proof.
  intros Hin Hpk Hst Hr. destruct w as [d rs sk loc].
  cbn [db replies local sink] in *. subst rs. cbn zeta.
  set (upd := fun g : Friendship.t =>
                if Friendship.id g =? Friendship.id f
                then friendship_with_status declined g else g).
  assert (Hrun : run (FriendsPage.respondToFriendRequest b (Friendship.id f) declined)
                   (mkWorld d (Served f1 t1 :: Served f2 t2 :: rest) sk loc)
                 = mkWorld (with_rows friendships_table (map upd (friendships d)) d) rest
                     (sk ++ [toast_success "Friend request declined"])
                     (Friends.mkState (Friends.searchResults loc) (Friends.friends loc)
                        (map (Friends.join true false
                                (with_rows friendships_table (map upd (friendships d)) d))
                           (List.filter (FriendsPage.incoming (User.id b))
                              (map upd (friendships d))))
                        (Friends.sentRequests loc) (Friends.loading loc))).
  { reflexivity. }
  rewrite Hrun. cbn [db local sink Friends.friends Friends.friendRequests].
  split; [|split; [|split; [reflexivity|split; [|reflexivity]]]].
  - cbn. apply in_map_iff. exists f. split; [|assumption].
    unfold upd. now rewrite String.eqb_refl.
  - intros u. unfold Friends.friendsList. cbn [friendships with_rows friendships_table].
    unfold upd. rewrite accepted_rows_after_decline by assumption. reflexivity.
  - intros r Hrin E. apply in_map_iff in Hrin. destruct Hrin as [g [<- Hg]].
    apply filter_In in Hg. destruct Hg as [Hg Hinc]. cbn in E.
    apply in_map_iff in Hg. destruct Hg as [g0 [<- Hg0]].
    unfold upd in E, Hinc.
    destruct (String.eqb_spec (Friendship.id g0) (Friendship.id f)) as [E0|E0].
    + unfold FriendsPage.incoming in Hinc. cbn in Hinc.
      now rewrite andb_false_r in Hinc.
    + contradiction.
Qed.

Lemma respondToFriendRequest_decline_witness :
  In (Friendship.mk "f2" "b0b00000-0000" "ca601000-0000" declined 5)
     (friendships
        (db (run (FriendsPage.respondToFriendRequest Sample.carol "f2" declined)
                 (Sample2.friends_page [Sample.served; Sample.served])))).
Proof.
  assert (Hpk : forall g, In g (friendships Sample2.requests_db) ->
                  Friendship.id g = Friendship.id Sample2.request -> g = Sample2.request).
  { intros g [<- | [<- | []]]; [discriminate | reflexivity]. }
  exact (proj1 (respondToFriendRequest_decline
                  (Sample2.friends_page [Sample.served; Sample.served]) Sample.carol
                  Sample2.request "n1" "n1" 1000 1000 []
                  (or_intror (or_introl eq_refl)) Hpk eq_refl eq_refl)).
Defined.

(** The table's uniqueness is per direction: with a row from a to b in
    the table, a request from b to a is inserted all the same when no row
    from b to a exists, and the table then holds the pair in both
    orientations. *)
Lemma sendFriendRequest_opposite_direction (w : World Friends.State) (b : User.t)
    (a : Id) (g : Friendship.t) (f1 : Id) (t1 : Z) (rest : list Reply) :
  In g (friendships (db w)) ->
  Friendship.requester_id g = a ->
  Friendship.addressee_id g = User.id b ->
  User.id b <> a ->
  (forall h, In h (friendships (db w)) ->
             ~ (Friendship.requester_id h = User.id b /\ Friendship.addressee_id h = a)) ->
  replies w = Served f1 t1 :: rest ->
  let w' := run (Friends.sendFriendRequest b a) w in
  In g (friendships (db w'))
  /\ In (Friendship.mk f1 (User.id b) a fpending t1) (friendships (db w'))
  /\ In (toast_success "Friend request sent!") (sink w').
Proof.
  intros Hin Hreq Hadd Hne Hfree Hr. destruct w as [d rs sk loc].
  cbn [db replies local sink] in *. subst rs. cbn zeta.
  unfold Friends.sendFriendRequest, Friends.fetchSentRequests, Friends.select_friendships,
    Friends.setSearchResults, Friends.setSentRequests.
  step_handler. cbn [rows with_rows friendships_table]. unfold friendship_admissible.
  cbn [Friendship.requester_id Friendship.addressee_id].
  destruct (String.eqb_spec (User.id b) a); [contradiction|].
  rewrite existsb_none.
  2:{ intros h Hh. apply andb_false_iff.
      destruct (String.eqb_spec (Friendship.requester_id h) (User.id b)) as [E1|E1];
        [|now left].
      destruct (String.eqb_spec (Friendship.addressee_id h) a) as [E2|E2];
        [|now right].
      exfalso. apply (Hfree h Hh). now split. }
  destruct rest as [|[f2 t2|e2] rest']; cbn;
    try (destruct rest' as [|[f3 t3|e3] rest'']; cbn); repeat split;
    try (apply in_or_app; left; exact Hin);
    try (apply in_or_app; right; now left);
    try (apply in_or_app; left; apply in_or_app; right; now left).
Qed.

Lemma sendFriendRequest_opposite_direction_witness :
  In (Friendship.mk "n1" "a11ce000-0000" "b0b00000-0000" fpending 1000)
     (friendships (db (run (Friends.sendFriendRequest Sample.alice "b0b00000-0000")
                           (Sample.friends_page [Sample.served])))).
Proof.
  refine (proj1 (proj2 (sendFriendRequest_opposite_direction
                          (Sample.friends_page [Sample.served]) Sample.alice
                          "b0b00000-0000"
                          (Friendship.mk "f1" "b0b00000-0000" "a11ce000-0000" accepted 0)
                          "n1" 1000 [] (or_introl eq_refl) eq_refl eq_refl _ _ eq_refl))).
  - cbn. discriminate.
  - intros h [<- | []] [H _]. cbn in H. discriminate.
Defined.

(** Cancelling a request that was sent: [cancelFriendRequest] asks the
    store to delete the row, and [friendships] has row-level security without
    a policy FOR DELETE, so the store serves the request and deletes no row.
    The request stays in the table, the page shows "Friend request
    cancelled", and the sent requests it fetches next hold the request. *)
Lemma sendFriendRequest_then_cancel (w : World Friends.State) (user : User.t)
    (userId : Id) (f1 f2 f3 f4 f5 : Id) (t1 t2 t3 t4 t5 : Z) (rest : list Reply) :
  User.id user <> userId ->
  (forall g, In g (friendships (db w)) ->
             ~ (Friendship.requester_id g = User.id user
                /\ Friendship.addressee_id g = userId)) ->
  has_profile (db w) (User.id user) = true ->
  has_profile (db w) userId = true ->
  replies w = Served f1 t1 :: Served f2 t2 :: Served f3 t3 :: Served f4 t4
              :: Served f5 t5 :: rest ->
  let sent := run (Friends.sendFriendRequest user userId) w in
  let w' := run (FriendsPage.cancelFriendRequest user f1) sent in
  let request := Friendship.mk f1 (User.id user) userId fpending t1 in
  friendships (db sent) = (friendships (db w) ++ [request])%list
  /\ db w' = db sent
  /\ In request (map Friends.row (Friends.sentRequests (local w')))
  /\ sink w' = (sink w ++ [toast_success "Friend request sent!";
                           toast_success "Friend request cancelled"])%list.
Proof.
  intros Hne Hfree _ _ Hr. destruct w as [d rs sk loc].
  cbn [db replies local sink] in *. subst rs. cbn zeta.
  unfold FriendsPage.cancelFriendRequest, Friends.sendFriendRequest,
    Friends.fetchSentRequests, Friends.select_friendships,
    Friends.setSearchResults, Friends.setSentRequests.
  step_handler. rewrite ?friendships_delete_nothing.
  cbn [rows with_rows friendships_table notifications_table unconstrained].
  unfold friendship_admissible.
  cbn [Friendship.requester_id Friendship.addressee_id].
  destruct (String.eqb_spec (User.id user) userId); [contradiction|].
  rewrite existsb_none.
  2:{ intros g Hg. apply andb_false_iff.
      destruct (String.eqb_spec (Friendship.requester_id g) (User.id user)) as [E1|E1];
        [|now left].
      destruct (String.eqb_spec (Friendship.addressee_id g) userId) as [E2|E2];
        [|now right].
      exfalso. apply (Hfree g Hg). now split. }
  cbn. rewrite !(filter_all (fun _ : Friendship.t => true)) by reflexivity.
  split; [reflexivity|]. split; [reflexivity|]. split; [|now rewrite <- app_assoc].
  rewrite map_map. apply in_map_iff.
  exists (Friendship.mk f1 (User.id user) userId fpending t1). split; [reflexivity|].
  apply filter_In. split; [apply in_or_app; right; now left|].
  cbn. now rewrite String.eqb_refl.
Qed.

Lemma sendFriendRequest_then_cancel_witness :
  friendships
    (db (run (FriendsPage.cancelFriendRequest Sample.alice "r1")
             (run (Friends.sendFriendRequest Sample.alice "ca601000-0000")
                  (Sample2.friends_page
                     [Served "r1" 10; Sample.served; Sample.served; Sample.served;
                      Sample.served]))))
  = (friendships Sample2.requests_db
     ++ [Friendship.mk "r1" "a11ce000-0000" "ca601000-0000" fpending 10])%list
  /\ db (run (FriendsPage.cancelFriendRequest Sample.alice "r1")
             (run (Friends.sendFriendRequest Sample.alice "ca601000-0000")
                  (Sample2.friends_page
                     [Served "r1" 10; Sample.served; Sample.served; Sample.served;
                      Sample.served])))
     = db (run (Friends.sendFriendRequest Sample.alice "ca601000-0000")
               (Sample2.friends_page
                  [Served "r1" 10; Sample.served; Sample.served; Sample.served;
                   Sample.served])).
Proof.
  split; [reflexivity|].
  refine (proj1 (proj2 (sendFriendRequest_then_cancel
                          (Sample2.friends_page
                             [Served "r1" 10; Sample.served; Sample.served; Sample.served;
                              Sample.served])
                          Sample.alice "ca601000-0000" "r1" "n1" "n1" "n1" "n1"
                          10 1000 1000 1000 1000 [] _ _ eq_refl eq_refl eq_refl))).
  - cbn. discriminate.
  - intros g [<- | [<- | []]] [H _]; cbn in H; discriminate.
Defined.

(** ** Searching for users *)

Lemma friend_ids_spec (l : list (option Profile.t)) (ids : list Id) :
  FriendsPage.friend_ids l = Some ids ->
  forall p, In (Some p) l -> In (Profile.id p) ids.
Proof.
  revert ids. induction l as [|[q|] l IH]; intros ids H p Hp.
  - destruct Hp.
  - cbn in H. destruct (FriendsPage.friend_ids l) as [r|]; [|discriminate].
    injection H as <-. destruct Hp as [E|Hp].
    + injection E as ->. now left.
    + right. now apply (IH r).
  - discriminate.
Qed.

Lemma includes_spec (l : list Id) (i : Id) :
  FriendsPage.includes l i = true <-> In i l.
Proof.
  unfold FriendsPage.includes. rewrite existsb_exists. split.
  - intros [j [Hj E]]. apply String.eqb_eq in E. now subst.
  - intros H. exists i. split; [assumption | apply String.eqb_refl].
Qed.

Lemma firstn_In {A} (n : nat) (l : list A) (x : A) : In x (firstn n l) -> In x l.
Proof.
  revert l. induction n as [|n IH]; intros [|y l] H; cbn in H; try contradiction.
  destruct H as [<-|H]; [now left | right; now apply IH].
Qed.

(** A served search, for a query that does not trim to the empty string:
    every result is a profile of the store other than the searcher's,
    matches the pattern built from the query, is not a friend held by the
    page and is neither the requester of an incoming request nor the
    addressee of a sent request held by the page; there are at most ten
    results.  A query that trims to the empty string empties the results
    without asking the store. *)
Lemma searchUsers_results (trim : string -> string) (ilike : string -> string -> bool)
    (w : World FriendsPage.State) (user : User.t) :
  (Js.falsy (trim (FriendsPage.searchQuery (local w))) = true ->
   let w' := run (FriendsPage.searchUsers trim ilike user) w in
   Friends.searchResults (FriendsPage.page (local w')) = []
   /\ replies w' = replies w /\ db w' = db w /\ sink w' = sink w)
  /\ (Js.falsy (trim (FriendsPage.searchQuery (local w))) = false ->
      (exists f t rest, replies w = Served f t :: rest) ->
      (forall e, In e (Friends.friends (FriendsPage.page (local w))) -> e <> None) ->
      let s := FriendsPage.page (local w) in
      let w' := run (FriendsPage.searchUsers trim ilike user) w in
      (forall u, In u (Friends.searchResults (FriendsPage.page (local w'))) ->
         In u (profiles (db w))
         /\ Profile.id u <> User.id user
         /\ ilike ("%" ++ FriendsPage.searchQuery (local w) ++ "%") (Profile.username u) = true
         /\ (forall p, In (Some p) (Friends.friends s) -> Profile.id p <> Profile.id u)
         /\ (forall r, In r (Friends.friendRequests s) ->
                       Friends.requester_id r <> Profile.id u)
         /\ (forall r, In r (Friends.sentRequests s) ->
                       Friends.addressee_id r <> Profile.id u))
      /\ (List.length (Friends.searchResults (FriendsPage.page (local w'))) <= 10)%nat
      /\ FriendsPage.searching (local w') = false
      /\ db w' = db w).
Proof.
  destruct w as [d rs sk loc]. cbn [local replies db sink]. split.
  - intros Hb. cbn zeta. unfold FriendsPage.searchUsers, FriendsPage.setSearchResults.
    step_handler. cbn [local]. rewrite Hb. repeat split; reflexivity.
  - intros Hb [f [t [rest ->]]] Hnn. cbn zeta.
    unfold FriendsPage.searchUsers, FriendsPage.setSearchResults, FriendsPage.setSearching.
    step_handler. cbn [local]. rewrite Hb. step_handler.
    cbn [rows profiles_table].
    destruct (FriendsPage.friend_ids (Friends.friends (FriendsPage.page loc))) as [ids|] eqn:Hids.
    2:{ exfalso. clear - Hids Hnn.
        induction (Friends.friends (FriendsPage.page loc)) as [|[q|] l IH].
        - discriminate.
        - cbn in Hids. destruct (FriendsPage.friend_ids l); [discriminate|].
          exact (IH (fun e He => Hnn e (or_intror He)) eq_refl).
        - exact (Hnn None (or_introl eq_refl) eq_refl). }
    cbn -[firstn String.append]. split; [|split; [|split; reflexivity]].
    + intros u Hu. apply filter_In in Hu. destruct Hu as [Hu Hex].
      apply firstn_In in Hu. apply filter_In in Hu. destruct Hu as [Hu Hm].
      apply andb_true_iff in Hm. destruct Hm as [Hm Hself].
      apply andb_true_iff in Hex. destruct Hex as [Hfr Hpend].
      apply negb_true_iff in Hself, Hfr, Hpend. apply String.eqb_neq in Hself.
      repeat split; try assumption.
      * intros p Hp E. apply (friend_ids_spec _ _ Hids) in Hp. rewrite E in Hp.
        apply includes_spec in Hp. congruence.
      * intros r Hr0 E.
        assert (Hin : In (Profile.id u)
                        (map Friends.requester_id (Friends.friendRequests (FriendsPage.page loc))
                         ++ map Friends.addressee_id (Friends.sentRequests (FriendsPage.page loc)))).
        { apply in_or_app. left. rewrite <- E. now apply in_map. }
        apply includes_spec in Hin. congruence.
      * intros r Hr0 E.
        assert (Hin : In (Profile.id u)
                        (map Friends.requester_id (Friends.friendRequests (FriendsPage.page loc))
                         ++ map Friends.addressee_id (Friends.sentRequests (FriendsPage.page loc)))).
        { apply in_or_app. right. rewrite <- E. now apply in_map. }
        apply includes_spec in Hin. congruence.
    + etransitivity; [apply filter_length_le|]. apply firstn_le_length.
Qed.

Lemma searchUsers_results_witness :
  Friends.searchResults
    (FriendsPage.page
       (local (run (FriendsPage.searchUsers Js.ascii_trim Sample3.any_match Sample.alice)
                   (Sample3.search_page [Sample.served]))))
  = [Sample3.dan_profile]
  /\ (List.length
        (Friends.searchResults
           (FriendsPage.page
              (local (run (FriendsPage.searchUsers Js.ascii_trim Sample3.any_match Sample.alice)
                          (Sample3.search_page [Sample.served]))))) <= 10)%nat.
Proof.
  split; [reflexivity|].
  refine (proj1 (proj2 (proj2 (searchUsers_results Js.ascii_trim Sample3.any_match
                                 (Sample3.search_page [Sample.served]) Sample.alice)
                          eq_refl _ _))).
  - now exists "n1", 1000, [].
  - intros e [<- | []]. discriminate.
Defined.

(** ** Conversations *)

Lemma insert_by_In {R} (key : R -> Z) (asc : bool) (x y : R) (l : list R) :
  In x (insert_by key asc y l) <-> x = y \/ In x l.
Proof.
  induction l as [|z l IH]; cbn.
  - intuition.
  - destruct (if asc then (key y <=? key z)%Z else (key z <=? key y)%Z); cbn.
    + intuition.
    + rewrite IH. intuition.
Qed.

Lemma order_In {R} (key : R -> Z) (asc : bool) (x : R) (l : list R) :
  In x (order key asc l) <-> In x l.
Proof.
  unfold order. induction l as [|z l IH]; cbn; [reflexivity|].
  rewrite insert_by_In, IH. intuition.
Qed.

Lemma exchanged_sym (a b : Id) (m : Message.t) :
  ChatPage.exchanged a b m = ChatPage.exchanged b a m.
Proof. unfold ChatPage.exchanged. apply orb_comm. Qed.

(** Both sides of a conversation see the same messages: what a served
    [fetchMessages] lists for a viewer with a friend selected is what it
    lists for the friend with the viewer selected, namely the messages of the
    store that one of the two sent to the other. *)
Lemma fetchMessages_same_conversation (d : DB) (a b : User.t) (pa pb : Profile.t)
    (wa wb : World Chat.State) (fa fb : Id) (ta tb : Z) (ra rb : list Reply) :
  Profile.id pa = User.id a ->
  Profile.id pb = User.id b ->
  db wa = d -> db wb = d ->
  Chat.selectedFriend (local wa) = Some pb ->
  Chat.selectedFriend (local wb) = Some pa ->
  replies wa = Served fa ta :: ra ->
  replies wb = Served fb tb :: rb ->
  Chat.messages (local (run (ChatPage.fetchMessages a) wa))
  = Chat.messages (local (run (ChatPage.fetchMessages b) wb))
  /\ (forall m, In m (Chat.messages (local (run (ChatPage.fetchMessages a) wa)))
                <-> In m (messages d)
                    /\ ((Message.sender_id m = User.id a /\ Message.receiver_id m = User.id b)
                        \/ (Message.sender_id m = User.id b
                            /\ Message.receiver_id m = User.id a))).
Proof.
  intros Ha Hb Hda Hdb Hsa Hsb Hra Hrb.
  destruct wa as [da rsa ska la], wb as [db0 rsb skb lb].
  cbn [db replies local] in *. subst da db0 rsa rsb.
  assert (Ea : Chat.messages
                 (local (run (ChatPage.fetchMessages a)
                           (mkWorld d (Served fa ta :: ra) ska la)))
               = order Message.created_at true
                   (List.filter (ChatPage.exchanged (User.id a) (User.id b)) (messages d))).
  { unfold ChatPage.fetchMessages, Chat.setMessages. step_handler. cbn [local].
    rewrite Hsa. step_handler. cbn. now rewrite Hb. }
  assert (Eb : Chat.messages
                 (local (run (ChatPage.fetchMessages b)
                           (mkWorld d (Served fb tb :: rb) skb lb)))
               = order Message.created_at true
                   (List.filter (ChatPage.exchanged (User.id b) (User.id a)) (messages d))).
  { unfold ChatPage.fetchMessages, Chat.setMessages. step_handler. cbn [local].
    rewrite Hsb. step_handler. cbn. now rewrite Ha. }
  rewrite Ea, Eb. split.
  - f_equal. apply filter_ext. intros m. apply exchanged_sym.
  - intros m. rewrite order_In, filter_In. unfold ChatPage.exchanged.
    rewrite orb_true_iff, !andb_true_iff, !String.eqb_eq. reflexivity.
Qed.

Lemma fetchMessages_same_conversation_witness :
  Chat.messages (local (run (ChatPage.fetchMessages Sample.alice)
                            (Sample.inbox_page [Sample.served])))
  = Chat.messages (local (run (ChatPage.fetchMessages Sample.bob)
                              (Sample4.bob_chat [Sample.served]))).
Proof.
  exact (proj1 (fetchMessages_same_conversation
                  (db (Sample.inbox_page [])) Sample.alice Sample.bob
                  Sample.alice_profile Sample.bob_profile
                  (Sample.inbox_page [Sample.served]) (Sample4.bob_chat [Sample.served])
                  "n1" "n1" 1000 1000 [] []
                  eq_refl eq_refl eq_refl eq_refl eq_refl eq_refl eq_refl eq_refl)).
Defined.

(** Marking a conversation as read leaves no unread message from the
    friend to the viewer, and doing it again changes nothing. *)
Lemma markMessagesAsRead_idempotent (w : World Chat.State) (user : User.t)
    (friend : Profile.t) (f1 f2 : Id) (t1 t2 : Z) (rest : list Reply) :
  Chat.selectedFriend (local w) = Some friend ->
  replies w = Served f1 t1 :: Served f2 t2 :: rest ->
  let once := run (Chat.markMessagesAsRead user) w in
  let twice := run (Chat.markMessagesAsRead user) once in
  (forall m, In m (messages (db once)) ->
             Message.sender_id m = Profile.id friend ->
             Message.receiver_id m = User.id user ->
             Message.read m = true)
  /\ db twice = db once.
Proof.
  intros Hf Hr. destruct w as [d rs sk loc]. cbn [db replies local] in *. subst rs.
  cbn zeta. unfold Chat.markMessagesAsRead. step_handler. cbn [local]. rewrite Hf.
  step_handler. cbn [local]. rewrite Hf. step_handler.
  cbn [rows with_rows messages_table messages].
  split.
  - intros m Hm Hs Hrc. apply in_map_iff in Hm. destruct Hm as [m0 [<- Hm0]].
    destruct (Chat.unread_from (Profile.id friend) (User.id user) m0) eqn:E; [reflexivity|].
    destruct (Message.read m0) eqn:Hread; [reflexivity|].
    exfalso. assert (Chat.unread_from (Profile.id friend) (User.id user) m0 = true);
      [|congruence].
    apply unread_from_spec. repeat split; assumption.
  - f_equal. rewrite map_map. apply map_ext. intros m0.
    destruct (Chat.unread_from (Profile.id friend) (User.id user) m0) eqn:E; [|now rewrite E].
    unfold Chat.unread_from. cbn. now rewrite !andb_false_r.
Qed.

Lemma markMessagesAsRead_idempotent_witness :
  db (run (Chat.markMessagesAsRead Sample.alice)
          (run (Chat.markMessagesAsRead Sample.alice)
               (Sample.inbox_page [Sample.served; Sample.served])))
  = db (run (Chat.markMessagesAsRead Sample.alice)
            (Sample.inbox_page [Sample.served; Sample.served])).
Proof.
  exact (proj2 (markMessagesAsRead_idempotent
                  (Sample.inbox_page [Sample.served; Sample.served]) Sample.alice
                  Sample.bob_profile "n1" "n1" 1000 1000 [] eq_refl eq_refl)).
Defined.

(** A message that the store does not take (the request is refused, the
    store is out of reach, the receiver is the sender, which the table's
    CHECK refuses, or one of the two has no profile, which the foreign keys
    refuse) leaves the store as it was; the draft stays in the input, the
    failure toast is shown and the page is ready to send again. *)
Lemma sendMessage_not_taken (trim : string -> string) (w : World Chat.State)
    (user : User.t) (friend : Profile.t) :
  Chat.selectedFriend (local w) = Some friend ->
  Js.falsy (trim (Chat.newMessage (local w))) = false ->
  Chat.sending (local w) = false ->
  (replies w = []
   \/ (exists e rest, replies w = Refused e :: rest)
   \/ User.id user = Profile.id friend
   \/ has_profile (db w) (User.id user) = false
   \/ has_profile (db w) (Profile.id friend) = false) ->
  let w' := run (Chat.sendMessage trim user) w in
  db w' = db w
  /\ Chat.newMessage (local w') = Chat.newMessage (local w)
  /\ Chat.messages (local w') = Chat.messages (local w)
  /\ Chat.sending (local w') = false
  /\ In (toast_error "Failed to send message") (sink w').
Proof.
  intros Hf Hm Hs Hcase. destruct w as [d rs sk loc]. cbn [db replies local sink] in *.
  cbn zeta. unfold Chat.sendMessage, Chat.setSending, Chat.setMessages, Chat.setNewMessage.
  step_handler. cbn [local]. rewrite Hm, Hf, Hs. step_handler.
  assert (Hsink : forall l : list Report,
            In (toast_error "Failed to send message")
               ((l ++ [console_error "Error sending message:"])
                ++ [toast_error "Failed to send message"])).
  { intros l. apply in_or_app. right. now left. }
  destruct rs as [|[f t|e] rest].
  - cbn. repeat split; auto.
  - cbn [rows with_rows messages_table]. unfold message_constraints.
    cbn [Message.sender_id Message.receiver_id].
    destruct Hcase as [H | [[e [rest' H]] | [H | [H | H]]]]; try discriminate.
    + rewrite H, String.eqb_refl. cbn. repeat split; auto.
    + rewrite H. destruct (User.id user =? Profile.id friend); cbn; repeat split; auto.
    + rewrite H, andb_false_r.
      destruct (User.id user =? Profile.id friend); cbn; repeat split; auto.
  - cbn. repeat split; auto.
Qed.

Lemma sendMessage_not_taken_witness :
  Chat.newMessage (local (run (Chat.sendMessage Js.ascii_trim Sample.alice)
                              Sample4.alice_offline))
  = "  see you at nine "
  /\ db (run (Chat.sendMessage Js.ascii_trim Sample.alice) Sample4.alice_offline)
     = Sample.friends_db.
Proof.
  pose proof (sendMessage_not_taken Js.ascii_trim Sample4.alice_offline Sample.alice
                Sample.bob_profile eq_refl eq_refl eq_refl
                (or_intror (or_introl (ex_intro _ (mkError "503")
                                         (ex_intro _ [] eq_refl))))) as H.
  cbn zeta in H. destruct H as [H1 [H2 _]]. split; assumption.
Defined.

(** ** The Todo page *)

Lemma filter_other_tasks (l : list Task.t) (taskId : Id) (x : Task.t) :
  In x (List.filter (fun t => negb (Task.id t =? taskId)) l)
  <-> In x l /\ Task.id x <> taskId.
Proof.
  rewrite filter_In, negb_true_iff, String.eqb_neq. reflexivity.
Qed.

(** Deleting a task on the Todo page: served, the rows with the id leave
    the [tasks] table and the list of the page and all other rows stay;
    refused, nothing changes and the failure toast is shown.  Either way the
    [projects] table is not written, so the progress of the task's project
    is not recomputed. *)
Lemma deleteTask_effect (w : World Todo.State) (taskId : Id) :
  let w' := run (TodoPage.deleteTask taskId) w in
  projects (db w') = projects (db w)
  /\ ((exists f t rest, replies w = Served f t :: rest) ->
      (forall x, In x (tasks (db w')) <-> In x (tasks (db w)) /\ Task.id x <> taskId)
      /\ (forall x, In x (Todo.tasks (local w'))
                    <-> In x (Todo.tasks (local w)) /\ Task.id x <> taskId)
      /\ sink w' = (sink w ++ [toast_success "Task deleted!"])%list)
  /\ ((forall f t rest, replies w <> Served f t :: rest) ->
      db w' = db w /\ local w' = local w
      /\ In (toast_error "Failed to delete task") (sink w')).
Proof.
  destruct w as [d rs sk loc]. cbn [db replies local sink]. cbn zeta.
  unfold TodoPage.deleteTask, Todo.setTasks. step_handler. cbn [local].
  destruct rs as [|[f t|e] rest]; cbn.
  - split; [reflexivity|]. split.
    + intros [f [t [rest H]]]. discriminate.
    + intros _. repeat split. apply in_or_app. right. now left.
  - split; [reflexivity|]. split.
    + intros _. split; [intros x; apply filter_other_tasks|].
      split; [intros x; apply filter_other_tasks | reflexivity].
    + intros H. exfalso. now apply (H f t rest).
  - split; [reflexivity|]. split.
    + intros [f [t [rest' H]]]. discriminate.
    + intros _. repeat split. apply in_or_app. right. now left.
Qed.

Lemma deleteTask_effect_witness :
  tasks (db (run (TodoPage.deleteTask "t01") (Sample5.todo_page [Sample.served])))
  = [Sample.task 2 pending]
  /\ Todo.tasks (local (run (TodoPage.deleteTask "t01") (Sample5.todo_page [Sample.served])))
     = [Sample.task 2 pending]
  /\ projects (db (run (TodoPage.deleteTask "t01") (Sample5.todo_page [Sample.served])))
     = [Sample.launch].
Proof.
  split; [reflexivity|]. split; [reflexivity|].
  exact (proj1 (deleteTask_effect (Sample5.todo_page [Sample.served]) "t01")).
Defined.

(** Every task of the page stands in exactly one of the three columns,
    the one of its status, and the columns together hold as many tasks as
    the page. *)
Lemma todo_columns_partition (s : Todo.State) :
  (List.length (TodoPage.pendingTasks s) + List.length (TodoPage.inProgressTasks s)
   + List.length (TodoPage.completedTasks s) = List.length (Todo.tasks s))%nat
  /\ (forall t, In t (TodoPage.pendingTasks s)
                <-> In t (Todo.tasks s) /\ Task.status t = pending)
  /\ (forall t, In t (TodoPage.inProgressTasks s)
                <-> In t (Todo.tasks s) /\ Task.status t = in_progress)
  /\ (forall t, In t (TodoPage.completedTasks s)
                <-> In t (Todo.tasks s) /\ Task.status t = completed)
  /\ (forall t, ~ (In t (TodoPage.pendingTasks s) /\ In t (TodoPage.inProgressTasks s))
                /\ ~ (In t (TodoPage.pendingTasks s) /\ In t (TodoPage.completedTasks s))
                /\ ~ (In t (TodoPage.inProgressTasks s) /\ In t (TodoPage.completedTasks s))).
Proof.
  unfold TodoPage.pendingTasks, TodoPage.inProgressTasks, TodoPage.completedTasks.
  assert (Hcol : forall st t,
            In t (List.filter (fun task => task_status_eqb (Task.status task) st) (Todo.tasks s))
            <-> In t (Todo.tasks s) /\ Task.status t = st).
  { intros st t. rewrite filter_In.
    destruct (task_status_eqb_spec (Task.status t) st); intuition congruence. }
  split; [|split; [apply Hcol | split; [apply Hcol | split; [apply Hcol|]]]].
  - clear Hcol. induction (Todo.tasks s) as [|t l IH]; [reflexivity|].
    cbn [List.filter]. destruct (Task.status t); cbn [task_status_eqb]; cbn [List.length]; lia.
  - intros t. rewrite !Hcol. repeat split; intros [[_ H1] [_ H2]]; congruence.
Qed.

(** ** The list of the Todo page and the store *)

Lemma insert_by_map {R} (key : R -> Z) (asc : bool) (f : R -> R) (y : R) (l : list R) :
  (forall x, key (f x) = key x) ->
  insert_by key asc (f y) (map f l) = map f (insert_by key asc y l).
Proof.
  intros Hk. induction l as [|z l IH]; [reflexivity|].
  cbn. rewrite !Hk.
  destruct (if asc then (key y <=? key z)%Z else (key z <=? key y)%Z); cbn;
    [reflexivity | now rewrite IH].
Qed.

Lemma order_map {R} (key : R -> Z) (asc : bool) (f : R -> R) (l : list R) :
  (forall x, key (f x) = key x) ->
  order key asc (map f l) = map f (order key asc l).
Proof.
  intros Hk. unfold order. induction l as [|z l IH]; [reflexivity|].
  cbn. now rewrite IH, insert_by_map.
Qed.

Lemma filter_map_commute {R} (p : R -> bool) (f : R -> R) (l : list R) :
  (forall x, p (f x) = p x) ->
  List.filter p (map f l) = map f (List.filter p l).
Proof.
  intros Hp. induction l as [|z l IH]; [reflexivity|].
  cbn. rewrite Hp, IH. now destruct (p z).
Qed.

Lemma before_spec {R} (key : R -> Z) (asc : bool) (x y : R) :
  (if asc then (key x <=? key y)%Z else (key y <=? key x)%Z) = true
  <-> before key asc x y.
Proof. unfold before. destruct asc; apply Z.leb_le. Qed.

Lemma before_trans {R} (key : R -> Z) (asc : bool) (x y z : R) :
  before key asc x y -> before key asc y z -> before key asc x z.
Proof. unfold before. destruct asc; lia. Qed.

Lemma before_total {R} (key : R -> Z) (asc : bool) (x y : R) :
  (if asc then (key x <=? key y)%Z else (key y <=? key x)%Z) = false ->
  before key asc y x.
Proof. unfold before. destruct asc; intros H; apply Z.leb_gt in H; lia. Qed.

Lemma insert_by_sorted {R} (key : R -> Z) (asc : bool) (y : R) (l : list R) :
  StronglySorted (before key asc) l ->
  StronglySorted (before key asc) (insert_by key asc y l).
Proof.
  induction 1 as [|z l Hs IH Hz]; cbn.
  - repeat constructor.
  - destruct (if asc then (key y <=? key z)%Z else (key z <=? key y)%Z) eqn:E.
    + apply before_spec in E. constructor; [now constructor|].
      constructor; [assumption|].
      apply Forall_forall. intros h Hh. rewrite Forall_forall in Hz.
      apply (before_trans key asc y z h); [assumption | now apply Hz].
    + constructor; [assumption|]. apply Forall_forall. intros h Hh.
      apply insert_by_In in Hh. destruct Hh as [->|Hh].
      * now apply before_total.
      * rewrite Forall_forall in Hz. now apply Hz.
Qed.

Lemma order_sorted {R} (key : R -> Z) (asc : bool) (l : list R) :
  StronglySorted (before key asc) (order key asc l).
Proof.
  unfold order. induction l as [|z l IH]; cbn; [constructor | now apply insert_by_sorted].
Qed.

Lemma insert_by_first {R} (key : R -> Z) (asc : bool) (y : R) (l : list R) :
  (forall h, In h l -> before key asc y h) ->
  insert_by key asc y l = y :: l.
Proof.
  destruct l as [|z l]; [reflexivity|]. intros H. cbn.
  replace (if asc then (key y <=? key z)%Z else (key z <=? key y)%Z) with true;
    [reflexivity|].
  symmetry. apply before_spec. apply H. now left.
Qed.

Lemma filter_insert_by {R} (key : R -> Z) (asc : bool) (p : R -> bool) (y : R) (l : list R) :
  StronglySorted (before key asc) l ->
  List.filter p (insert_by key asc y l)
  = if p y then insert_by key asc y (List.filter p l) else List.filter p l.
Proof.
  induction 1 as [|z l Hs IH Hz]; cbn.
  - now destruct (p y).
  - destruct (if asc then (key y <=? key z)%Z else (key z <=? key y)%Z) eqn:E.
    + cbn. destruct (p y) eqn:Hy; [|reflexivity].
      rewrite insert_by_first; [reflexivity|].
      apply before_spec in E. intros h Hh.
      assert (Hin : In h (z :: l)).
      { destruct (p z); [|right; apply filter_In in Hh; tauto].
        destruct Hh as [<-|Hh]; [now left | right; apply filter_In in Hh; tauto]. }
      destruct Hin as [<-|Hin]; [assumption|].
      rewrite Forall_forall in Hz. apply (before_trans key asc y z h); auto.
    + cbn. rewrite IH. destruct (p z) eqn:Hz0, (p y) eqn:Hy; try reflexivity.
      cbn. now rewrite E.
Qed.

Lemma order_filter {R} (key : R -> Z) (asc : bool) (p : R -> bool) (l : list R) :
  order key asc (List.filter p l) = List.filter p (order key asc l).
Proof.
  induction l as [|z l IH]; [reflexivity|].
  change (order key asc (z :: l)) with (insert_by key asc z (order key asc l)).
  rewrite filter_insert_by by apply order_sorted.
  cbn [List.filter]. destruct (p z); [|assumption].
  change (order key asc (z :: List.filter p l))
    with (insert_by key asc z (order key asc (List.filter p l))).
  now rewrite IH.
Qed.

Lemma filter_filter_comm {R} (p q : R -> bool) (l : list R) :
  List.filter p (List.filter q l) = List.filter q (List.filter p l).
Proof.
  induction l as [|x l IH]; [reflexivity|].
  cbn. destruct (q x) eqn:Hq, (p x) eqn:Hp; cbn; rewrite ?Hq, ?Hp, IH; reflexivity.
Qed.

(** The list of the Todo page follows the store: when it holds what
    [fetchTasks] would set, it still does after a served [updateTaskStatus]
    and after a served [deleteTask], without a new fetch. *)
Lemma todo_list_follows_store (w : World Todo.State) (user : Id) (taskId : Id)
    (st : task_status) (f : Id) (t : Z) (rest : list Reply) :
  Todo.tasks (local w) = TodoPage.listed (db w) user ->
  replies w = Served f t :: rest ->
  Todo.tasks (local (run (Todo.updateTaskStatus taskId st) w))
  = TodoPage.listed (db (run (Todo.updateTaskStatus taskId st) w)) user
  /\ Todo.tasks (local (run (TodoPage.deleteTask taskId) w))
     = TodoPage.listed (db (run (TodoPage.deleteTask taskId) w)) user.
Proof.
  intros Hl Hr. destruct w as [d rs sk loc]. cbn [db replies local] in *. subst rs.
  split.
  - unfold Todo.updateTaskStatus, Todo.setTasks. step_handler.
    cbn [local Todo.tasks db rows with_rows tasks_table]. rewrite Hl.
    unfold TodoPage.listed. cbn [tasks].
    rewrite filter_map_commute, order_map; try reflexivity.
    + intros x. now destruct (Task.id x =? taskId).
    + intros x. now destruct (Task.id x =? taskId).
  - unfold TodoPage.deleteTask, Todo.setTasks. step_handler.
    cbn [local Todo.tasks db rows with_rows tasks_table]. rewrite Hl.
    unfold TodoPage.listed. cbn [tasks].
    rewrite <- order_filter. f_equal. apply filter_filter_comm.
Qed.

Lemma todo_list_follows_store_witness :
  Todo.tasks (local (run (Todo.updateTaskStatus "t02" completed)
                         (Sample5.todo_page [Sample.served])))
  = TodoPage.listed (db (run (Todo.updateTaskStatus "t02" completed)
                             (Sample5.todo_page [Sample.served]))) "a11ce000-0000".
Proof.
  exact (proj1 (todo_list_follows_store (Sample5.todo_page [Sample.served])
                  "a11ce000-0000" "t02" completed "n1" 1000 [] eq_refl eq_refl)).
Defined.

(** ** The Projects page *)

(** Creating a task, on the Projects page or on the Todo page, never
    writes the [projects] table: the progress a project stores stays what it
    was although the project has a task more. *)
Lemma task_creation_keeps_projects (trim : string -> string) (user : User.t) :
  (forall w : World Projects.State,
      projects (db (run (Projects.createTask trim user) w)) = projects (db w))
  /\ (forall w : World Todo.State,
      projects (db (run (Todo.addTask trim user) w)) = projects (db w)).
Proof.
  split; intros [d rs sk loc].
  - unfold Projects.createTask, Projects.setProjectTasks, Projects.setNewTask,
      Projects.setShowTaskForm. step_handler. cbn [local].
    destruct (Js.falsy (trim (Projects.title (Projects.newTask loc)))); [reflexivity|].
    destruct (Projects.selectedProject loc) as [sel|]; [|reflexivity].
    destruct rs as [|[f t|e] rest]; try reflexivity.
    cbn [rows with_rows tasks_table].
    match goal with |- context [task_constraints ?d0 ?t0] =>
      destruct (task_constraints d0 t0) end; [reflexivity|].
    destruct (negb (Projects.assigned_to (Projects.newTask loc) =? User.id user));
      [|reflexivity].
    destruct rest as [|[f2 t2|e2] rest]; try reflexivity.
    match goal with |- context [notification_constraints ?d0 ?t0] =>
      destruct (notification_constraints d0 t0) end; reflexivity.
  - unfold Todo.addTask. step_handler. cbn [local].
    destruct (Js.falsy (trim (Todo.title (Todo.newTask loc)))); [reflexivity|].
    destruct rs as [|[f t|e] rest]; try reflexivity.
    match goal with |- context [task_constraints ?d0 ?t0] =>
      destruct (task_constraints d0 t0) end; reflexivity.
Qed.

Lemma referenced_spec (gone : list Id) (t : Task.t) (pid : Id) :
  (forall i, In i gone -> i = pid) -> gone <> [] ->
  existsb (option_id_eqb (Task.project_id t)) gone = true <-> Task.project_id t = Some pid.
Proof.
  intros Hall Hne. rewrite existsb_exists. split.
  - intros [i [Hi E]]. rewrite (Hall i Hi) in E. unfold option_id_eqb in E.
    destruct (Task.project_id t) as [x|]; [|discriminate].
    apply String.eqb_eq in E. now subst.
  - intros E. destruct gone as [|i gone]; [contradiction|].
    exists i. split; [now left|]. rewrite (Hall i (or_introl eq_refl)), E. cbn.
    apply String.eqb_refl.
Qed.

(** Deleting a project deletes none of its tasks: the project row leaves
    the table, every task row stays with its id, status and owner, the tasks
    of the project lose their project and no task refers to the deleted
    project any more. *)
Lemma deleteProject_orphans_tasks (w : World ProjectsPage.State) (projectId : Id)
    (p : Project.t) (f : Id) (t : Z) (rest : list Reply) :
  In p (projects (db w)) ->
  Project.id p = projectId ->
  replies w = Served f t :: rest ->
  let w' := run (ProjectsPage.deleteProject projectId) w in
  (forall q, In q (projects (db w')) <-> In q (projects (db w)) /\ Project.id q <> projectId)
  /\ map Task.id (tasks (db w')) = map Task.id (tasks (db w))
  /\ map Task.status (tasks (db w')) = map Task.status (tasks (db w))
  /\ map Task.user_id (tasks (db w')) = map Task.user_id (tasks (db w))
  /\ (forall x, In x (tasks (db w')) -> Task.project_id x <> Some projectId)
  /\ (forall x, In x (tasks (db w)) -> Task.project_id x <> Some projectId ->
                In x (tasks (db w')))
  /\ (forall x, In x (tasks (db w)) -> Task.project_id x = Some projectId ->
                In (task_without_project x) (tasks (db w')))
  /\ (forall q, In q (ProjectsPage.projects (local w')) -> Project.id q <> projectId)
  /\ In (toast_success "Project deleted successfully!") (sink w').
Proof.
  intros Hin Hid Hr. destruct w as [d rs sk loc]. cbn [db replies local sink] in *.
  subst rs. cbn zeta.
  set (gone := map Project.id (List.filter (fun q => Project.id q =? projectId) (projects d))).
  set (upd := fun x : Task.t => if existsb (option_id_eqb (Task.project_id x)) gone
                                then task_without_project x else x).
  assert (Hgone : forall i, In i gone -> i = projectId).
  { intros i Hi. apply in_map_iff in Hi. destruct Hi as [q [<- Hq]].
    apply filter_In in Hq. now apply String.eqb_eq. }
  assert (Hne : gone <> []).
  { intros E. assert (Hp : In (Project.id p) gone).
    { apply in_map. apply filter_In. split; [assumption|]. now apply String.eqb_eq. }
    rewrite E in Hp. destruct Hp. }
  assert (Hdb : db (run (ProjectsPage.deleteProject projectId)
                      (mkWorld d (Served f t :: rest) sk loc))
                = with_rows tasks_table (map upd (tasks d))
                    (with_rows projects_table
                       (List.filter (fun q => negb (Project.id q =? projectId)) (projects d))
                       d)).
  { unfold ProjectsPage.deleteProject, delete_projects, ProjectsPage.setProjects,
      ProjectsPage.setSelectedProject, ProjectsPage.setShowProjectDetail.
    step_handler. cbn [local].
    destruct (Projects.selectedProject (ProjectsPage.detail loc)) as [sel|];
      [destruct (Project.id sel =? projectId)|]; reflexivity. }
  rewrite Hdb. cbn [with_rows tasks_table projects_table tasks projects].
  split; [|split; [|split; [|split; [|split; [|split; [|split; [|split]]]]]]].
  - intros q. rewrite filter_In, negb_true_iff, String.eqb_neq. reflexivity.
  - rewrite map_map. apply map_ext. intros x. unfold upd.
    now destruct (existsb _ gone).
  - rewrite map_map. apply map_ext. intros x. unfold upd.
    now destruct (existsb _ gone).
  - rewrite map_map. apply map_ext. intros x. unfold upd.
    now destruct (existsb _ gone).
  - intros x Hx E. apply in_map_iff in Hx. destruct Hx as [x0 [<- Hx0]].
    unfold upd in E. destruct (existsb _ gone) eqn:Hex; [discriminate|].
    apply (referenced_spec gone x0 projectId Hgone Hne) in E. congruence.
  - intros x Hx E. apply in_map_iff. exists x. split; [|assumption].
    unfold upd. destruct (existsb _ gone) eqn:Hex; [|reflexivity].
    apply (referenced_spec gone x projectId Hgone Hne) in Hex. contradiction.
  - intros x Hx E. apply in_map_iff. exists x. split; [|assumption].
    unfold upd. apply (referenced_spec gone x projectId Hgone Hne) in E. now rewrite E.
  - unfold ProjectsPage.deleteProject, delete_projects, ProjectsPage.setProjects,
      ProjectsPage.setSelectedProject, ProjectsPage.setShowProjectDetail.
    step_handler. cbn [local].
    destruct (Projects.selectedProject (ProjectsPage.detail loc)) as [sel|];
      [destruct (Project.id sel =? projectId)|]; cbn;
      intros q Hq; apply filter_In in Hq; destruct Hq as [_ Hq];
      now apply negb_true_iff, String.eqb_neq in Hq.
  - unfold ProjectsPage.deleteProject, delete_projects, ProjectsPage.setProjects,
      ProjectsPage.setSelectedProject, ProjectsPage.setShowProjectDetail.
    step_handler. cbn [local].
    destruct (Projects.selectedProject (ProjectsPage.detail loc)) as [sel|];
      [destruct (Project.id sel =? projectId)|]; cbn;
      apply in_or_app; right; now left.
Qed.

Lemma deleteProject_orphans_tasks_witness :
  tasks (db (run (ProjectsPage.deleteProject "p1") (Sample6.team_page [Sample.served])))
  = [task_without_project (Sample.task 1 in_progress)]
  /\ map Task.id (tasks (db (run (ProjectsPage.deleteProject "p1")
                                 (Sample6.team_page [Sample.served]))))
     = ["t01"].
Proof.
  split; [reflexivity|].
  exact (proj1 (proj2 (deleteProject_orphans_tasks (Sample6.team_page [Sample.served])
                         "p1" Sample.launch "n1" 1000 [] (or_introl eq_refl) eq_refl
                         eq_refl))).
Defined.

(** ** Team messages *)

(** What the loop over the receivers can do: it adds messages for a
    prefix of the receivers, in order, and nothing else; it ends normally
    exactly when the prefix is the whole list. *)
Lemma send_each_prefix {S} (sender : Id) (content : string) (receivers : list Id)
    (w : World S) :
  exists (msgs : list Message.t) (n : nat),
    db (snd (ProjectsPage.send_each sender content receivers w))
    = with_rows messages_table (messages (db w) ++ msgs) (db w)
    /\ local (snd (ProjectsPage.send_each sender content receivers w)) = local w
    /\ sink (snd (ProjectsPage.send_each sender content receivers w)) = sink w
    /\ Forall2 (team_message sender content) msgs (firstn n receivers)
    /\ match fst (ProjectsPage.send_each sender content receivers w) with
       | Ret _ => n = List.length receivers
       | Throw _ => (n < List.length receivers)%nat
       end.
Proof.
  revert w. induction receivers as [|r receivers IH]; intros [d rs sk loc].
  - exists [], 0%nat. cbn. rewrite app_nil_r.
    destruct d; repeat (split; [reflexivity|]). split; [constructor | reflexivity].
  - cbn [ProjectsPage.send_each]. step_handler.
    assert (Hstop : forall e rs',
              exists (msgs : list Message.t) (n : nat),
                db (snd (@Throw unit e, mkWorld d rs' sk loc))
                = with_rows messages_table (messages d ++ msgs) d
                /\ local (snd (@Throw unit e, mkWorld d rs' sk loc)) = loc
                /\ sink (snd (@Throw unit e, mkWorld d rs' sk loc)) = sk
                /\ Forall2 (team_message sender content) msgs (firstn n (r :: receivers))
                /\ match fst (@Throw unit e, mkWorld d rs' sk loc) with
                   | Ret _ => n = List.length (r :: receivers)
                   | Throw _ => (n < List.length (r :: receivers))%nat
                   end).
    { intros e rs'. exists [], 0%nat. cbn. rewrite app_nil_r.
      destruct d; repeat (split; [reflexivity|]). split; [constructor | lia]. }
    destruct rs as [|[f t|e] rest];
      [apply (Hstop (mkError "fetch failed") []) | | apply (Hstop e rest)].
    cbn [rows with_rows messages_table].
    match goal with |- context [message_constraints ?d0 ?m0] =>
      destruct (message_constraints d0 m0) as [e0|]
    end; [apply (Hstop e0 rest)|].
    match goal with |- context [ProjectsPage.send_each sender content receivers ?w1] =>
      destruct (IH w1) as [msgs [n [Hdb [Hloc [Hsink [Hall Hout]]]]]];
      destruct (ProjectsPage.send_each sender content receivers w1)
        as [o [d2 rs2 sk2 loc2]] eqn:Hrun
    end.
    cbn [fst snd db local sink messages] in *. subst d2 loc2 sk2.
    exists (Message.mk f sender r content false t :: msgs), (Datatypes.S n).
    cbn [firstn].
    split; [cbn; now rewrite <- app_assoc|].
    split; [reflexivity|]. split; [reflexivity|].
    split; [constructor; [repeat split | assumption]|].
    destruct o; cbn [List.length]; lia.
Qed.

(** When the store serves one insert per receiver, no receiver is the
    sender, and the sender and the receivers have profiles, the loop ends
    normally. *)
Lemma send_each_served {S} (sender : Id) (content : string) (receivers : list Id)
    (w : World S) :
  (forall r, In r receivers -> (sender =? r) = false) ->
  has_profile (db w) sender = true ->
  (forall r, In r receivers -> has_profile (db w) r = true) ->
  (List.length receivers <= List.length (replies w))%nat ->
  forallb is_served (firstn (List.length receivers) (replies w)) = true ->
  fst (ProjectsPage.send_each sender content receivers w) = Ret tt.
Proof.
  revert w. induction receivers as [|r receivers IH];
    intros [d rs sk loc] Hne Hps Hpr Hlen Hserved.
  - reflexivity.
  - cbn [ProjectsPage.send_each]. step_handler.
    cbn [replies db List.length] in Hlen, Hserved, Hps, Hpr.
    destruct rs as [|[f t|e] rest]; [cbn in Hlen; lia | | discriminate Hserved].
    cbn [rows with_rows messages_table]. unfold message_constraints.
    cbn [Message.sender_id Message.receiver_id].
    rewrite (Hne r (or_introl eq_refl)), Hps, (Hpr r (or_introl eq_refl)). cbn [andb].
    match goal with |- context [ProjectsPage.send_each sender content receivers ?w1] =>
      specialize (IH w1 (fun r0 H0 => Hne r0 (or_intror H0)) Hps
                    (fun r0 H0 => Hpr r0 (or_intror H0)));
      destruct (ProjectsPage.send_each sender content receivers w1) as [o w2] eqn:Hrun
    end.
    cbn [fst snd replies firstn forallb is_served andb List.length] in *.
    apply IH; [lia | assumption].
Qed.

Lemma Forall2_In_left {A B} (P : A -> B -> Prop) (l : list A) (l' : list B) (a : A) :
  Forall2 P l l' -> In a l -> exists b, In b l' /\ P a b.
Proof.
  induction 1 as [|x y l l' Hxy Hall IH]; intros Hin; [destruct Hin|].
  destruct Hin as [<-|Hin].
  - exists y. split; [now left | assumption].
  - destruct (IH Hin) as [b [Hb Hp]]. exists b. split; [now right | assumption].
Qed.

(** A team message, when a project is open and the text does not trim to
    the empty string, reaches a prefix of the other members, one message per
    entry of the member list (the creator first), never the sender, and
    leaves every other table as it was: no notification is written.  When
    the prefix is the whole list the input is cleared and the success toast
    is shown; otherwise the messages already written stay, the draft stays
    and the failure toast is shown.  The prefix is the whole list when the
    store serves one insert per receiver and the sender and the receivers
    have profiles. *)
Lemma sendProjectMessage_delivery (trim : string -> string)
    (w : World ProjectsPage.State) (user : User.t) (selected : Project.t) :
  Projects.selectedProject (ProjectsPage.detail (local w)) = Some selected ->
  Js.falsy (trim (ProjectsPage.newMessage (local w))) = false ->
  let receivers :=
    List.filter (fun id => negb (id =? User.id user)) (ProjectsPage.allMembers selected) in
  let content :=
    ProjectsPage.team_content trim selected (ProjectsPage.newMessage (local w)) in
  let w' := run (ProjectsPage.sendProjectMessage trim user) w in
  exists (msgs : list Message.t) (n : nat),
    db w' = with_rows messages_table (messages (db w) ++ msgs) (db w)
    /\ Forall2 (team_message (User.id user) content) msgs (firstn n receivers)
    /\ (forall m, In m msgs -> Message.receiver_id m <> User.id user)
    /\ (n = List.length receivers ->
        ProjectsPage.newMessage (local w') = ""
        /\ In (toast_success "Message sent to team!") (sink w'))
    /\ (n <> List.length receivers ->
        ProjectsPage.newMessage (local w') = ProjectsPage.newMessage (local w)
        /\ In (toast_error "Failed to send message") (sink w'))
    /\ ((List.length receivers <= List.length (replies w))%nat ->
        forallb is_served (firstn (List.length receivers) (replies w)) = true ->
        has_profile (db w) (User.id user) = true ->
        (forall r, In r receivers -> has_profile (db w) r = true) ->
        n = List.length receivers).
Proof.
  intros Hs Hm. destruct w as [d rs sk loc]. cbn [db replies local sink] in *. cbn zeta.
  set (receivers := List.filter (fun id => negb (id =? User.id user))
                      (ProjectsPage.allMembers selected)).
  set (content := ProjectsPage.team_content trim selected (ProjectsPage.newMessage loc)).
  destruct (send_each_prefix (User.id user) content receivers (mkWorld d rs sk loc))
    as [msgs [n [Hdb [Hloc [Hsink [Hall Hout]]]]]].
  exists msgs, n.
  assert (Hrecv : forall m, In m msgs -> Message.receiver_id m <> User.id user).
  { intros m Hin.
    destruct (Forall2_In_left _ _ _ _ Hall Hin) as [r [Hr [_ [E _]]]].
    rewrite E. apply firstn_In in Hr.
    apply filter_In in Hr. destruct Hr as [_ Hr].
    now apply negb_true_iff, String.eqb_neq in Hr. }
  assert (Hfull : (List.length receivers <= List.length rs)%nat ->
                  forallb is_served (firstn (List.length receivers) rs) = true ->
                  has_profile d (User.id user) = true ->
                  (forall r, In r receivers -> has_profile d r = true) ->
                  n = List.length receivers).
  { intros Hlen Hserved Hps Hpr.
    rewrite (send_each_served (User.id user) content receivers (mkWorld d rs sk loc)) in Hout;
      [exact Hout | | exact Hps | exact Hpr | exact Hlen | exact Hserved].
    intros r Hr. apply filter_In in Hr. destruct Hr as [_ Hr].
    rewrite String.eqb_sym. now apply negb_true_iff in Hr. }
  unfold ProjectsPage.sendProjectMessage, ProjectsPage.fetchProjectMessages,
    ProjectsPage.setNewMessage, ProjectsPage.setProjectMessages.
  step_handler. cbn [local]. rewrite Hm, Hs. step_handler.
  fold receivers. fold content.
  destruct (ProjectsPage.send_each (User.id user) content receivers (mkWorld d rs sk loc))
    as [[u|e] [d1 rs1 sk1 loc1]] eqn:Hrun;
    cbn [fst snd db local sink] in *; subst d1 loc1 sk1.
  - cbn [local ProjectsPage.detail]. rewrite Hs.
    destruct rs1 as [|[f t|e] rest]; cbn;
      (split; [reflexivity|]); (split; [assumption|]); (split; [assumption|]);
      (split; [intros _; split; [reflexivity|]
              | split; [intros H; contradiction | exact Hfull]]).
    + apply in_or_app. left. apply in_or_app. right. now left.
    + apply in_or_app. right. now left.
    + apply in_or_app. left. apply in_or_app. right. now left.
  - cbn. split; [reflexivity|]. split; [assumption|]. split; [assumption|].
    split.
    { intros H. exfalso. apply (Nat.lt_irrefl n).
      eapply Nat.lt_le_trans; [exact Hout|]. apply Nat.eq_le_incl. symmetry. exact H. }
    split; [|exact Hfull].
    intros _. split; [reflexivity|].
    apply in_or_app. right. now left.
Qed.

Lemma sendProjectMessage_delivery_witness :
  map Message.receiver_id
    (messages (db (run (ProjectsPage.sendProjectMessage Js.ascii_trim Sample.alice)
                       (Sample6.team_page [Sample.served; Sample.served]))))
  = [User.id Sample.bob]
  /\ exists (msgs : list Message.t),
       db (run (ProjectsPage.sendProjectMessage Js.ascii_trim Sample.alice)
               (Sample6.team_page [Sample.served; Sample.served]))
       = with_rows messages_table
           (messages (db (Sample6.team_page [Sample.served; Sample.served])) ++ msgs)
           (db (Sample6.team_page [Sample.served; Sample.served]))
       /\ List.length msgs = 1%nat.
Proof.
  split; [reflexivity|].
  destruct (sendProjectMessage_delivery Js.ascii_trim
              (Sample6.team_page [Sample.served; Sample.served]) Sample.alice Sample.launch
              eq_refl eq_refl)
    as [msgs [n [Hdb [Hall [_ [_ [_ Hfull]]]]]]].
  exists msgs. split; [exact Hdb|].
  rewrite (Forall2_length Hall), (Hfull (le_S _ _ (le_n _)) eq_refl eq_refl). reflexivity.
  intros r [<-|[]]. reflexivity.
Defined.

(** ** The tabs of the Activity page *)

Lemma upcoming_not_overdue (date now : Z) :
  Activity.isUpcoming date now = true -> Activity.isOverdue date now = false.
Proof.
  unfold Activity.isUpcoming, Activity.isOverdue. intros H.
  apply andb_true_iff in H. destruct H as [H _]. apply Z.ltb_lt in H.
  apply Z.ltb_ge. lia.
Qed.

Lemma in_map_of_task (task : Task.t) (l : list Task.t) :
  In (ActivityPage.of_task task) (map ActivityPage.of_task l) -> In task l.
Proof.
  intros H. apply in_map_iff in H. destruct H as [x [E Hx]]. now inversion E; subst.
Qed.

(** The red card of an overdue entry is only ever drawn under the current
    tab, for a task in progress: a completed task is never drawn as overdue,
    and what the upcoming tab lists (tasks and calendar events alike) is due
    in the future. *)
Lemma overdue_card_only_in_progress (s : ActivityPage.State) (now : Z)
    (e : ActivityPage.Entry) :
  In e (ActivityPage.getTabContent s now) ->
  ActivityPage.drawn_overdue e now = true ->
  ActivityPage.activeTab s = ActivityPage.current_tab
  /\ exists task,
       e = ActivityPage.of_task task /\ In task (ActivityPage.tasks s)
       /\ Task.status task = in_progress /\ (Task.deadline task < now)%Z.
Proof.
  unfold ActivityPage.getTabContent, ActivityPage.drawn_overdue. intros Hin Hd.
  apply andb_true_iff in Hd. destruct Hd as [Hover Hnc].
  destruct (ActivityPage.activeTab s).
  - apply in_map_iff in Hin. destruct Hin as [task [<- Ht]].
    apply filter_In in Ht. destruct Ht as [_ Ht]. cbn in Hnc. now rewrite Ht in Hnc.
  - split; [reflexivity|]. apply in_map_iff in Hin. destruct Hin as [task [<- Ht]].
    apply filter_In in Ht. destruct Ht as [Ht Hst]. exists task.
    split; [reflexivity|]. split; [assumption|]. cbn in Hover.
    split; [now destruct (Task.status task) | now apply Z.ltb_lt].
  - exfalso. apply in_app_or in Hin. destruct Hin as [Hin|Hin];
      apply in_map_iff in Hin; destruct Hin as [x [<- Hx]];
      apply filter_In in Hx; destruct Hx as [_ Hx]; cbn in Hover.
    + apply andb_true_iff in Hx. destruct Hx as [_ Hx].
      apply upcoming_not_overdue in Hx. congruence.
    + apply upcoming_not_overdue in Hx. congruence.
Qed.

Lemma overdue_card_only_in_progress_witness :
  ActivityPage.getTabContent (Sample7.activity_page ActivityPage.current_tab) 5
  = [ActivityPage.of_task (Sample.task 1 in_progress)]
  /\ ActivityPage.activeTab (Sample7.activity_page ActivityPage.current_tab)
     = ActivityPage.current_tab.
Proof.
  split; [reflexivity|].
  exact (proj1 (overdue_card_only_in_progress
                  (Sample7.activity_page ActivityPage.current_tab) 5
                  (ActivityPage.of_task (Sample.task 1 in_progress))
                  (or_introl eq_refl) eq_refl)).
Defined.

(** A pending task that is due now or in the past, or in more than seven
    days, is listed under none of the three tabs. *)
Lemma pending_task_outside_the_week_is_hidden (s : ActivityPage.State) (now : Z)
    (task : Task.t) :
  Task.status task = pending ->
  (Task.deadline task <= now \/ now + 7 * Activity.day_ms < Task.deadline task)%Z ->
  ~ In (ActivityPage.of_task task) (ActivityPage.getTabContent s now).
Proof.
  intros Hst Hd Hin.
  assert (Hup : Activity.isUpcoming (Task.deadline task) now = false).
  { unfold Activity.isUpcoming. apply andb_false_iff.
    destruct Hd as [Hd|Hd]; [left; apply Z.ltb_ge | right; apply Z.leb_gt]; lia. }
  unfold ActivityPage.getTabContent in Hin. destruct (ActivityPage.activeTab s).
  - apply in_map_of_task, filter_In in Hin. destruct Hin as [_ Hin].
    now rewrite Hst in Hin.
  - apply in_map_of_task, filter_In in Hin. destruct Hin as [_ Hin].
    now rewrite Hst in Hin.
  - apply in_app_or in Hin. destruct Hin as [Hin|Hin].
    + apply in_map_of_task, filter_In in Hin. destruct Hin as [_ Hin].
      rewrite Hup, andb_false_r in Hin. discriminate.
    + apply in_map_iff in Hin. destruct Hin as [x [E _]]. discriminate.
Qed.

Lemma pending_task_outside_the_week_is_hidden_witness :
  ~ In (ActivityPage.of_task (Sample.task 2 pending))
       (ActivityPage.getTabContent (Sample7.activity_page ActivityPage.upcoming_tab) 5).
Proof.
  apply (pending_task_outside_the_week_is_hidden
           (Sample7.activity_page ActivityPage.upcoming_tab) 5 (Sample.task 2 pending)
           eq_refl).
  left. cbn. lia.
Defined.

(** ** The Notifications page *)

Lemma notification_with_read_same (n : Notification.t) :
  notification_with_read (Notification.read n) n = n.
Proof. now destruct n. Qed.

Lemma filter_negb_length {A} (p : A -> bool) (l : list A) :
  (forall x, In x l -> p x = true) ->
  List.length (List.filter (fun x => negb (p x)) l) = 0%nat.
Proof.
  induction l as [|x l IH]; intros H; [reflexivity|].
  cbn. rewrite (H x (or_introl eq_refl)). cbn. apply IH. intros y Hy. apply H. now right.
Qed.

(** Row-level security with no policy FOR DELETE: a served delete leaves
    the table as it is. *)
Lemma notifications_delete_nothing (filter : Notification.t -> bool) (d : DB) :
  with_rows notifications_table
    (List.filter (fun x => negb (Policy.notifications_delete x && filter x))
       (rows notifications_table d)) d
  = d.
Proof.
  rewrite filter_all by reflexivity. now destruct d.
Qed.

(** If the list of the page is what a fetch would give, it still is after
    marking one notification as read or marking all as read, whatever the
    store answers: the page edits its list the way the request edits the
    rows of the viewer.  Deleting one does not keep them in step:
    [notifications] has no policy FOR DELETE, so the store keeps every row
    whatever it answers; when it serves the request the page drops the entry
    and reports the success, and the next served fetch lists what was listed
    before.  When the store refuses, the list stays. *)
Lemma notifications_page_follows_store (w : World NotificationsPage.State) (user : User.t)
    (notificationId : Id) :
  NotificationsPage.notifications (local w) = notifications_listed (db w) (User.id user) ->
  let wd := run (NotificationsPage.deleteNotification notificationId) w in
  NotificationsPage.notifications (local (run (NotificationsPage.markAsRead notificationId) w))
  = notifications_listed (db (run (NotificationsPage.markAsRead notificationId) w))
      (User.id user)
  /\ NotificationsPage.notifications (local (run (NotificationsPage.markAllAsRead user) w))
     = notifications_listed (db (run (NotificationsPage.markAllAsRead user) w)) (User.id user)
  /\ db wd = db w
  /\ (forall f t rest, replies w = Served f t :: rest ->
        NotificationsPage.notifications (local wd)
        = List.filter (fun notif => negb (Notification.id notif =? notificationId))
            (notifications_listed (db w) (User.id user))
        /\ sink wd = (sink w ++ [toast_success "Notification deleted"])%list
        /\ (forall f2 t2 rest2, rest = Served f2 t2 :: rest2 ->
              NotificationsPage.notifications
                (local (run (NotificationsPage.fetchNotifications user) wd))
              = notifications_listed (db w) (User.id user)))
  /\ (forall e rest, replies w = Refused e :: rest ->
        NotificationsPage.notifications (local wd)
        = NotificationsPage.notifications (local w)).
Proof.
  intros Hl. destruct w as [d rs sk loc]. cbn [db local replies sink] in *. cbn zeta.
  split; [|split; [|split; [|split]]].
  - unfold NotificationsPage.markAsRead, NotificationsPage.setNotifications.
    step_handler. destruct rs as [|[f t|e] rest];
      cbn [local NotificationsPage.notifications db rows with_rows notifications_table];
      try exact Hl.
    rewrite Hl. unfold notifications_listed. cbn [notifications].
    rewrite filter_map_commute, order_map; try reflexivity.
    + intros x. now destruct (Notification.id x =? notificationId).
    + intros x. now destruct (Notification.id x =? notificationId).
  - unfold NotificationsPage.markAllAsRead, NotificationsPage.setNotifications.
    step_handler. destruct rs as [|[f t|e] rest];
      cbn [local NotificationsPage.notifications db rows with_rows notifications_table];
      try exact Hl.
    rewrite Hl. unfold notifications_listed. cbn [notifications].
    rewrite filter_map_commute, order_map.
    + apply map_ext_in. intros x Hx. apply order_In, filter_In in Hx.
      destruct Hx as [_ Hx]. rewrite Hx. cbn [andb].
      destruct (Notification.read x) eqn:Hr; cbn [Bool.eqb]; [|reflexivity].
      rewrite <- Hr. apply notification_with_read_same.
    + intros x. now destruct ((Notification.user_id x =? User.id user)
                              && Bool.eqb (Notification.read x) false).
    + intros x. now destruct ((Notification.user_id x =? User.id user)
                              && Bool.eqb (Notification.read x) false).
  - unfold NotificationsPage.deleteNotification, NotificationsPage.setNotifications.
    step_handler. destruct rs as [|[f t|e] rest]; cbn [db]; try reflexivity.
    apply notifications_delete_nothing.
  - intros f t rest ->.
    unfold NotificationsPage.deleteNotification, NotificationsPage.setNotifications,
      NotificationsPage.fetchNotifications, NotificationsPage.setLoading.
    step_handler. rewrite notifications_delete_nothing.
    cbn [local NotificationsPage.notifications sink].
    split; [now rewrite Hl|]. split; [reflexivity|].
    intros f2 t2 rest2 ->. reflexivity.
  - intros e rest ->.
    unfold NotificationsPage.deleteNotification, NotificationsPage.setNotifications.
    step_handler. reflexivity.
Qed.

Lemma notifications_page_follows_store_witness :
  NotificationsPage.notifications
    (local (run (NotificationsPage.markAllAsRead Sample.bob)
                (Sample8.notes_page [Sample.served])))
  = [Sample8.chat_note; notification_with_read true Sample8.deadline_note]
  /\ NotificationsPage.notifications
       (local (run (NotificationsPage.markAllAsRead Sample.bob)
                   (Sample8.notes_page [Sample.served])))
     = notifications_listed
         (db (run (NotificationsPage.markAllAsRead Sample.bob)
                  (Sample8.notes_page [Sample.served]))) "b0b00000-0000".
Proof.
  split; [reflexivity|].
  exact (proj1 (proj2 (notifications_page_follows_store
                         (Sample8.notes_page [Sample.served]) Sample.bob "n01" eq_refl))).
Defined.

(** Marking all as read, when the store serves it: the page counts no
    unread notification, every row of the viewer is read, the rows of the
    other users are as they were, no row is added or removed, and the success
    toast is shown.  When the store refuses, rows and list stay and the
    failure toast is shown. *)
Lemma markAllAsRead_effect (w : World NotificationsPage.State) (user : User.t) :
  let w' := run (NotificationsPage.markAllAsRead user) w in
  (forall f t rest, replies w = Served f t :: rest ->
     NotificationsPage.unreadCount (local w') = 0%nat
     /\ (forall n, In n (notifications (db w')) ->
           Notification.user_id n = User.id user -> Notification.read n = true)
     /\ List.filter (fun n => negb (Notification.user_id n =? User.id user))
          (notifications (db w'))
        = List.filter (fun n => negb (Notification.user_id n =? User.id user))
            (notifications (db w))
     /\ map Notification.id (notifications (db w')) = map Notification.id (notifications (db w))
     /\ In (toast_success "All notifications marked as read") (sink w'))
  /\ (forall e rest, replies w = Refused e :: rest ->
        db w' = db w
        /\ NotificationsPage.notifications (local w') = NotificationsPage.notifications (local w)
        /\ In (toast_error "Failed to mark all as read") (sink w')).
Proof.
  destruct w as [d rs sk loc]. cbn zeta. cbn [replies].
  unfold NotificationsPage.markAllAsRead, NotificationsPage.setNotifications.
  split.
  - intros f t rest ->. step_handler.
    cbn [local NotificationsPage.notifications db rows with_rows notifications_table sink
         notifications].
    split; [|split; [|split; [|split]]].
    + unfold NotificationsPage.unreadCount. cbn [NotificationsPage.notifications].
      apply filter_negb_length. intros x Hx. apply in_map_iff in Hx.
      now destruct Hx as [y [<- _]].
    + intros n Hn Hu. apply in_map_iff in Hn. destruct Hn as [y [<- Hy]].
      destruct (Notification.user_id y =? User.id user) eqn:E; cbn [andb] in *.
      * destruct (Notification.read y) eqn:Hr; cbn [Bool.eqb]; [assumption | reflexivity].
      * apply String.eqb_neq in E. contradiction.
    + induction (notifications d) as [|x l IH]; [reflexivity|].
      cbn [map List.filter]. destruct (Notification.user_id x =? User.id user) eqn:E.
      * cbn [andb]. destruct (Bool.eqb (Notification.read x) false);
          cbn [notification_with_read Notification.user_id]; rewrite E; exact IH.
      * cbn [andb negb]. rewrite E. cbn [negb]. now rewrite IH.
    + rewrite map_map. apply map_ext. intros x.
      now destruct ((Notification.user_id x =? User.id user)
                    && Bool.eqb (Notification.read x) false).
    + apply in_or_app. right. now left.
  - intros e rest ->. step_handler. cbn [db local sink].
    split; [reflexivity|]. split; [reflexivity|]. apply in_or_app. right. now left.
Qed.

Lemma markAllAsRead_effect_witness :
  NotificationsPage.unreadCount
    (local (run (NotificationsPage.markAllAsRead Sample.bob)
                (Sample8.notes_page [Sample.served]))) = 0%nat
  /\ In Sample8.alice_note
        (notifications (db (run (NotificationsPage.markAllAsRead Sample.bob)
                                (Sample8.notes_page [Sample.served])))).
Proof.
  split; [|cbn; tauto].
  exact (proj1 (proj1 (markAllAsRead_effect (Sample8.notes_page [Sample.served]) Sample.bob)
                  "n1" 1000 [] eq_refl)).
Defined.

Lemma In_length_pos {A} (x : A) (l : list A) : In x l -> (0 < List.length l)%nat.
Proof. destruct l; [intros [] | cbn; lia]. Qed.

(** A task assigned to another user shows on that user's Notifications
    page: when the store serves the two inserts of [createTask] and the
    foreign keys of the task hold (the creator and the assignee have
    profiles, the project is in the store), the assignee's next served fetch
    lists the notification of the assignment, unread and of type [project],
    under either filter, and the page counts it; a fetch of the creator's
    page does not list it. *)
Lemma assignment_reaches_notifications_page (trim : string -> string)
    (w : World Projects.State) (creator assignee : User.t) (selected : Project.t)
    (f1 f2 f3 : Id) (t1 t2 t3 : Z) (rest rest3 : list Reply)
    (page : World NotificationsPage.State) :
  Projects.selectedProject (local w) = Some selected ->
  Js.falsy (trim (Projects.title (Projects.newTask (local w)))) = false ->
  Projects.assigned_to (Projects.newTask (local w)) = User.id assignee ->
  User.id assignee <> User.id creator ->
  has_profile (db w) (User.id creator) = true ->
  has_profile (db w) (User.id assignee) = true ->
  has_project (db w) (Project.id selected) = true ->
  replies w = Served f1 t1 :: Served f2 t2 :: rest ->
  db page = db (run (Projects.createTask trim creator) w) ->
  replies page = Served f3 t3 :: rest3 ->
  let n := Projects.assignment_notification (Projects.newTask (local w)) f2 t2 in
  let page' := run (NotificationsPage.fetchNotifications assignee) page in
  In n (NotificationsPage.filteredNotifications (local page'))
  /\ Notification.type n = project
  /\ Notification.read n = false
  /\ (0 < NotificationsPage.unreadCount (local page'))%nat
  /\ ~ In n (NotificationsPage.notifications
               (local (run (NotificationsPage.fetchNotifications creator) page))).
Proof.
  intros Hs Ht Ha Hne Hpc Hpa Hpp Hr Hdb Hr3.
  destruct w as [d rs sk loc], page as [dp rsp skp locp].
  cbn [db replies local] in *. subst rs rsp. cbn zeta.
  set (n := Projects.assignment_notification (Projects.newTask loc) f2 t2).
  assert (Hn : In n (notifications dp)).
  { subst dp. unfold Projects.createTask. step_handler. cbn [local]. rewrite Ht, Hs.
    step_handler. cbn [rows with_rows tasks_table].
    unfold task_constraints, notification_constraints.
    cbn [Task.assigned_to Task.user_id Task.project_id]. rewrite Ha, Hpc, Hpa, Hpp.
    cbn [andb]. unfold has_profile in Hpa.
    destruct (String.eqb_spec (User.id assignee) (User.id creator)); [contradiction|].
    cbn. rewrite Ha, Hpa. cbn. apply in_or_app. right. now left. }
  assert (Hu : Notification.user_id n = User.id assignee) by exact Ha.
  assert (Hlist : In n (List.filter (fun notif => negb (Notification.read notif))
                          (notifications_listed dp (User.id assignee)))).
  { apply filter_In. split; [|reflexivity]. apply order_In, filter_In.
    split; [assumption|]. rewrite Hu. apply String.eqb_refl. }
  unfold NotificationsPage.fetchNotifications, NotificationsPage.setNotifications,
    NotificationsPage.setLoading.
  step_handler. cbn [local NotificationsPage.notifications rows notifications_table].
  fold (notifications_listed dp (User.id assignee)).
  fold (notifications_listed dp (User.id creator)).
  split; [|split; [reflexivity|split; [reflexivity|split]]].
  - unfold NotificationsPage.filteredNotifications.
    cbn [NotificationsPage.filter NotificationsPage.notifications].
    destruct (NotificationsPage.filter locp); [|exact Hlist].
    apply filter_In in Hlist. apply Hlist.
  - unfold NotificationsPage.unreadCount. cbn [NotificationsPage.notifications].
    exact (In_length_pos n _ Hlist).
  - intros Hin. apply order_In, filter_In in Hin. destruct Hin as [_ Hin].
    rewrite Hu in Hin. apply String.eqb_eq in Hin. contradiction.
Qed.

Lemma assignment_reaches_notifications_page_witness :
  NotificationsPage.filteredNotifications
    (local (run (NotificationsPage.fetchNotifications Sample.bob) Sample9.bob_page))
  = [Projects.assignment_notification Sample.task_form "n1" 1000]
  /\ In (Projects.assignment_notification Sample.task_form "n1" 1000)
        (NotificationsPage.filteredNotifications
           (local (run (NotificationsPage.fetchNotifications Sample.bob) Sample9.bob_page))).
Proof.
  split; [reflexivity|].
  refine (proj1 (assignment_reaches_notifications_page Js.ascii_trim
                   (Sample.task_form_page [Sample.served; Sample.served])
                   Sample.alice Sample.bob Sample.launch "n1" "n1" "n1" 1000 1000 1000
                   [] [] Sample9.bob_page eq_refl eq_refl eq_refl _ eq_refl eq_refl eq_refl
                   eq_refl eq_refl eq_refl)).
  cbn. discriminate.
Defined.

(** ** The skills of the Profile page *)

Lemma profile_includes_spec (l : list string) (x : string) :
  ProfilePage.includes l x = true <-> In x l.
Proof.
  unfold ProfilePage.includes. rewrite existsb_exists. split.
  - intros [y [Hy E]]. apply String.eqb_eq in E. now subst.
  - intros H. exists x. split; [assumption | apply String.eqb_refl].
Qed.

Lemma filter_other_skills (l : list string) (x y : string) :
  In y (List.filter (fun skill => negb (skill =? x)) l) <-> In y l /\ y <> x.
Proof.
  rewrite filter_In, negb_true_iff, String.eqb_neq. reflexivity.
Qed.

Lemma filter_absent (l : list string) (x : string) :
  ~ In x l -> List.filter (fun skill => negb (skill =? x)) l = l.
Proof.
  induction l as [|y l IH]; intros H; [reflexivity|].
  cbn. destruct (String.eqb_spec y x) as [->|_].
  - exfalso. apply H. now left.
  - cbn. f_equal. apply IH. intros Hx. apply H. now right.
Qed.

(** The skill list of the edit form stays free of duplicates and of the
    empty skill under [addSkill] and [removeSkill]; after [removeSkill] the
    removed skill is not in the list, and neither handler touches the store. *)
Lemma skills_stay_distinct (trim : string -> string)
    (w : World ProfilePage.State) (skillToRemove : string) :
  NoDup (ProfilePage.skills (ProfilePage.editForm (local w))) ->
  ~ In "" (ProfilePage.skills (ProfilePage.editForm (local w))) ->
  let added := run (ProfilePage.addSkill trim) w in
  let removed := run (ProfilePage.removeSkill skillToRemove) w in
  NoDup (ProfilePage.skills (ProfilePage.editForm (local added)))
  /\ ~ In "" (ProfilePage.skills (ProfilePage.editForm (local added)))
  /\ NoDup (ProfilePage.skills (ProfilePage.editForm (local removed)))
  /\ ~ In "" (ProfilePage.skills (ProfilePage.editForm (local removed)))
  /\ ~ In skillToRemove (ProfilePage.skills (ProfilePage.editForm (local removed)))
  /\ db added = db w /\ db removed = db w.
Proof.
  intros Hnd He. destruct w as [d rs sk loc]. cbn [local] in *. cbn zeta.
  unfold ProfilePage.addSkill, ProfilePage.removeSkill, ProfilePage.setEditForm,
    ProfilePage.setNewSkill.
  assert (Hrem : NoDup (List.filter (fun skill => negb (skill =? skillToRemove))
                          (ProfilePage.skills (ProfilePage.editForm loc)))
                 /\ ~ In "" (List.filter (fun skill => negb (skill =? skillToRemove))
                               (ProfilePage.skills (ProfilePage.editForm loc)))
                 /\ ~ In skillToRemove
                        (List.filter (fun skill => negb (skill =? skillToRemove))
                           (ProfilePage.skills (ProfilePage.editForm loc)))).
  { split; [now apply NoDup_filter|]. split; intros H; apply filter_other_skills in H.
    - destruct H as [H _]. contradiction.
    - destruct H as [_ H]. now apply H. }
  destruct Hrem as [Hr1 [Hr2 Hr3]].
  step_handler. cbn [local].
  destruct (Js.falsy (trim (ProfilePage.newSkill loc))) eqn:Hf; cbn [negb andb];
    [cbn; repeat (split; [assumption || reflexivity|]); reflexivity|].
  destruct (ProfilePage.includes (ProfilePage.skills (ProfilePage.editForm loc))
              (trim (ProfilePage.newSkill loc))) eqn:Hi; cbn [negb];
    [cbn; repeat (split; [assumption || reflexivity|]); reflexivity|].
  assert (Hni : ~ In (trim (ProfilePage.newSkill loc))
                     (ProfilePage.skills (ProfilePage.editForm loc))).
  { intros H. apply profile_includes_spec in H. congruence. }
  cbn. split; [|split].
  - apply NoDup_app; [assumption | repeat constructor; intros [] | ].
    intros x Hx [<-|[]]. contradiction.
  - intros H. apply in_app_or in H. destruct H as [H|[H|[]]]; [contradiction|].
    rewrite H in Hf. discriminate.
  - repeat (split; [assumption || reflexivity|]); reflexivity.
Qed.

Lemma skills_stay_distinct_witness :
  ProfilePage.skills
    (ProfilePage.editForm
       (local (run (ProfilePage.addSkill Js.ascii_trim) Sample10.skills_form)))
  = ["rust"; "coq"]
  /\ NoDup (ProfilePage.skills
              (ProfilePage.editForm
                 (local (run (ProfilePage.addSkill Js.ascii_trim) Sample10.skills_form)))).
Proof.
  split; [reflexivity|].
  refine (proj1 (skills_stay_distinct Js.ascii_trim Sample10.skills_form "rust" _ _)).
  - repeat constructor. intros [].
  - intros [H|[]]. discriminate H.
Defined.

(** Adding a skill that is not in the list and removing it again gives the
    list back; the added skill is the trimmed input, placed last, the input
    is cleared, and so (the empty string trims to itself) a second
    [addSkill] changes nothing. *)
Lemma addSkill_then_removeSkill (trim : string -> string)
    (w : World ProfilePage.State) :
  let skill := trim (ProfilePage.newSkill (local w)) in
  trim "" = "" ->
  Js.falsy skill = false ->
  ~ In skill (ProfilePage.skills (ProfilePage.editForm (local w))) ->
  let w1 := run (ProfilePage.addSkill trim) w in
  ProfilePage.skills (ProfilePage.editForm (local w1))
  = (ProfilePage.skills (ProfilePage.editForm (local w)) ++ [skill])%list
  /\ ProfilePage.newSkill (local w1) = ""
  /\ run (ProfilePage.addSkill trim) w1 = w1
  /\ ProfilePage.skills (ProfilePage.editForm (local (run (ProfilePage.removeSkill skill) w1)))
     = ProfilePage.skills (ProfilePage.editForm (local w)).
Proof.
  destruct w as [d rs sk loc]. cbn [local]. cbn zeta. intros He Hf Hni.
  assert (Hi : ProfilePage.includes (ProfilePage.skills (ProfilePage.editForm loc))
                 (trim (ProfilePage.newSkill loc)) = false).
  { destruct (ProfilePage.includes _ _) eqn:E; [|reflexivity].
    apply profile_includes_spec in E. contradiction. }
  unfold ProfilePage.addSkill, ProfilePage.removeSkill, ProfilePage.setEditForm,
    ProfilePage.setNewSkill.
  step_handler. cbn [local]. rewrite Hf, Hi. cbn [negb andb].
  step_handler. cbn [local ProfilePage.newSkill ProfilePage.editForm ProfilePage.skills
                     ProfilePage.with_skills].
  rewrite He. cbn [Js.falsy String.eqb negb andb].
  split; [reflexivity|]. split; [reflexivity|]. split; [reflexivity|].
  rewrite filter_app, (filter_absent _ _ Hni). cbn [List.filter].
  rewrite String.eqb_refl. cbn [negb]. apply app_nil_r.
Qed.

Lemma addSkill_then_removeSkill_witness :
  ProfilePage.skills
    (ProfilePage.editForm
       (local (run (ProfilePage.removeSkill "coq")
                   (run (ProfilePage.addSkill Js.ascii_trim) Sample10.skills_form))))
  = ["rust"].
Proof.
  refine (proj2 (proj2 (proj2 (addSkill_then_removeSkill Js.ascii_trim Sample10.skills_form
                                 eq_refl eq_refl _)))).
  intros [H|[]]. discriminate H.
Defined.

(** ** Private messages in the team chat *)

(** The team chat of a project is selected by sender and receiver only: a
    private message that one member sends to another on the Chat page is
    listed by the next served [fetchProjectMessages] of either of the two,
    with its own text and without the project's prefix.  The policy of
    [messages] keeps it from everybody else: the fetch of another viewer
    does not list it. *)
Lemma private_message_in_team_chat (trim : string -> string)
    (w : World Chat.State) (user viewer : User.t) (friend : Profile.t)
    (page : World ProjectsPage.State) (selected : Project.t)
    (f1 f2 : Id) (t1 t2 : Z) (rest rest2 : list Reply) :
  Chat.selectedFriend (local w) = Some friend ->
  Js.falsy (trim (Chat.newMessage (local w))) = false ->
  Chat.sending (local w) = false ->
  User.id user <> Profile.id friend ->
  has_profile (db w) (User.id user) = true ->
  has_profile (db w) (Profile.id friend) = true ->
  replies w = Served f1 t1 :: rest ->
  Projects.selectedProject (ProjectsPage.detail (local page)) = Some selected ->
  ProjectsPage.is_member selected (User.id user) = true ->
  ProjectsPage.is_member selected (Profile.id friend) = true ->
  db page = db (run (Chat.sendMessage trim user) w) ->
  replies page = Served f2 t2 :: rest2 ->
  let sent := Message.mk f1 (User.id user) (Profile.id friend)
                (trim (Chat.newMessage (local w))) false t1 in
  let listed :=
    ProjectsPage.projectMessages (local (run (ProjectsPage.fetchProjectMessages viewer) page)) in
  (User.id viewer = User.id user \/ User.id viewer = Profile.id friend -> In sent listed)
  /\ (User.id viewer <> User.id user -> User.id viewer <> Profile.id friend ->
      ~ In sent listed).
Proof.
  intros Hf Hm Hs Hne Hpu Hpf Hr Hsel Hu Hfr Hdb Hr2.
  destruct w as [d rs sk loc], page as [dp rsp skp locp].
  cbn [db replies local] in *. subst rs rsp. cbn zeta.
  set (m := Message.mk f1 (User.id user) (Profile.id friend)
              (trim (Chat.newMessage loc)) false t1).
  assert (Hin : In m (messages dp)).
  { subst dp. unfold Chat.sendMessage, Chat.setSending, Chat.setMessages, Chat.setNewMessage.
    step_handler. cbn [local]. rewrite Hm, Hf, Hs. step_handler.
    cbn [rows with_rows messages_table]. unfold message_constraints, notification_constraints.
    cbn [Message.sender_id Message.receiver_id]. rewrite Hpu, Hpf.
    destruct (String.eqb_spec (User.id user) (Profile.id friend)); [contradiction|].
    cbn [andb].
    destruct rest as [|[f t|e] rest']; cbn;
      match goal with
      | |- context [existsb ?p0 (profiles d)] => destruct (existsb p0 (profiles d)); cbn
      | _ => idtac
      end; apply in_or_app; right; now left. }
  unfold ProjectsPage.fetchProjectMessages, ProjectsPage.setProjectMessages.
  step_handler. cbn [local]. rewrite Hsel. step_handler.
  cbn [local ProjectsPage.projectMessages rows messages_table].
  split.
  - intros Hv. apply order_In, filter_In. split; [assumption|].
    unfold Policy.messages_select. cbn [m Message.sender_id Message.receiver_id].
    rewrite Hu, Hfr.
    destruct Hv as [<-|<-]; rewrite String.eqb_refl; cbn [orb andb];
      [reflexivity | now rewrite orb_true_r].
  - intros Hv1 Hv2 H. apply order_In, filter_In in H. destruct H as [_ H].
    unfold Policy.messages_select in H. cbn [m Message.sender_id Message.receiver_id] in H.
    apply andb_true_iff in H. destruct H as [H _]. apply orb_true_iff in H.
    destruct H as [H|H]; apply String.eqb_eq in H; congruence.
Qed.

Lemma private_message_in_team_chat_witness :
  map Message.content
    (ProjectsPage.projectMessages
       (local (run (ProjectsPage.fetchProjectMessages Sample.bob) Sample11.team_chat)))
  = ["see you at nine"]
  /\ In (Message.mk "n1" "a11ce000-0000" "b0b00000-0000" "see you at nine" false 1000)
        (ProjectsPage.projectMessages
           (local (run (ProjectsPage.fetchProjectMessages Sample.bob) Sample11.team_chat))).
Proof.
  split; [reflexivity|].
  refine (proj1 (private_message_in_team_chat Js.ascii_trim
            (Sample.draft_page [Sample.served; Sample.served]) Sample.alice Sample.bob
            Sample.bob_profile Sample11.team_chat Sample.launch "n1" "n1" 1000 1000
            [Sample.served] [] eq_refl eq_refl eq_refl _ eq_refl eq_refl eq_refl eq_refl
            eq_refl eq_refl eq_refl eq_refl) (or_intror eq_refl)).
  cbn. discriminate.
Defined.

(** ** The profile of the auth context *)

Lemma createProfile_cache (w : World AuthContext.State) (u : User.t) :
  let w' := snd (AuthContext.createProfile u w) in
  own_profile (db w') u (AuthContext.userProfile (local w'))
  /\ same_session (local w) (local w').
Proof.
  destruct w as [d rs sk loc]. cbn zeta.
  unfold AuthContext.createProfile, AuthContext.setUserProfile, same_session.
  step_handler.
  destruct (Js.truthy (User.email u)); [|cbn; auto].
  destruct rs as [|[f t|e] rest]; try (cbn; now auto).
  cbn [rows with_rows profiles_table].
  match goal with |- context [profile_admissible ?l ?p] =>
    destruct (profile_admissible l p); [cbn; now auto|]
  end.
  cbn. split; [|auto]. split; [reflexivity|]. apply in_or_app. right. now left.
Qed.

Ltac after_createProfile Hcreate :=
  match goal with |- context [AuthContext.createProfile ?u0 ?w1] =>
    specialize (Hcreate w1 eq_refl);
    destruct (AuthContext.createProfile u0 w1) as [[?|?] [? ? ? ?]]
  end;
  [exact Hcreate
  | unfold same_session in *; cbn in *; destruct Hcreate as [_ Hcreate];
    split; [exact I | exact Hcreate]].

Lemma fetchUserProfile_cache (w : World AuthContext.State) (u : User.t) :
  let w' := snd (AuthContext.fetchUserProfile u w) in
  own_profile (db w') u (AuthContext.userProfile (local w'))
  /\ same_session (local w) (local w').
Proof.
  destruct w as [d rs sk loc]. cbn zeta.
  assert (Hcreate : forall w1 : World AuthContext.State, local w1 = loc ->
            own_profile (db (snd (AuthContext.createProfile u w1))) u
              (AuthContext.userProfile (local (snd (AuthContext.createProfile u w1))))
            /\ same_session loc (local (snd (AuthContext.createProfile u w1)))).
  { intros w1 E. rewrite <- E. apply (createProfile_cache w1 u). }
  unfold AuthContext.fetchUserProfile, AuthContext.setUserProfile. step_handler.
  destruct rs as [|[f t|e] rest].
  - destruct (code _ =? "PGRST116"); [|cbn; unfold same_session; now auto].
    after_createProfile Hcreate.
  - cbn [rows profiles_table].
    destruct (List.filter _ (profiles d)) as [|x [|y l]] eqn:Hsel; cbn [single].
    + cbn [code]. cbn [String.eqb Ascii.eqb Bool.eqb].
      after_createProfile Hcreate.
    + assert (Hx : In x (List.filter (fun p => Profile.id p =? User.id u) (profiles d))).
      { rewrite Hsel. now left. }
      apply filter_In in Hx. destruct Hx as [Hx Hid]. apply String.eqb_eq in Hid.
      cbn. unfold same_session. auto.
    + cbn [code]. cbn [String.eqb Ascii.eqb Bool.eqb].
      after_createProfile Hcreate.
  - cbn [single]. destruct (code e =? "PGRST116"); [|cbn; unfold same_session; now auto].
    after_createProfile Hcreate.
Qed.

(** After a sign-in event ([SIGNED_IN] or [INITIAL_SESSION] with a
    session), whatever the store answers: the context holds the session and
    its user, it is no longer loading, and the profile it holds, if any, is a
    row of the store with the id of that user.  After [SIGNED_OUT] it holds
    no profile, the session and user of the event, and the store is as it
    was. *)
Lemma auth_context_after_event (w : World AuthContext.State)
    (s : AuthContext.Session) (session : option AuthContext.Session) :
  (forall ev, ev = AuthContext.SIGNED_IN \/ ev = AuthContext.INITIAL_SESSION ->
     let w' := run (AuthContext.onAuthStateChange ev (Some s)) w in
     AuthContext.session (local w') = Some s
     /\ AuthContext.user (local w') = Some (AuthContext.user_of s)
     /\ AuthContext.loading (local w') = false
     /\ own_profile (db w') (AuthContext.user_of s) (AuthContext.userProfile (local w')))
  /\ (let w' := run (AuthContext.onAuthStateChange AuthContext.SIGNED_OUT session) w in
      AuthContext.userProfile (local w') = None
      /\ AuthContext.session (local w') = session
      /\ AuthContext.user (local w') = option_map AuthContext.user_of session
      /\ AuthContext.loading (local w') = false
      /\ db w' = db w).
Proof.
  destruct w as [d rs sk loc]. split.
  - assert (Hfetch : forall (w1 : World AuthContext.State),
              own_profile (db (snd (AuthContext.fetchUserProfile (AuthContext.user_of s) w1)))
                (AuthContext.user_of s)
                (AuthContext.userProfile
                   (local (snd (AuthContext.fetchUserProfile (AuthContext.user_of s) w1))))
              /\ same_session (local w1)
                   (local (snd (AuthContext.fetchUserProfile (AuthContext.user_of s) w1)))).
    { intros w1. apply (fetchUserProfile_cache w1). }
    intros ev Hev. cbn zeta.
    unfold AuthContext.onAuthStateChange, AuthContext.setSession, AuthContext.setUser,
      AuthContext.setLoading.
    destruct Hev as [-> | ->]; step_handler.
    all: match goal with |- context [AuthContext.fetchUserProfile ?u0 ?w1] =>
           specialize (Hfetch w1);
           destruct (AuthContext.fetchUserProfile u0 w1) as [[?|?] [d2 rs2 sk2 loc2]]
         end;
         cbn [snd db local AuthContext.session AuthContext.user AuthContext.loading
              AuthContext.userProfile] in *;
         destruct Hfetch as [Hown [Hu [Hs _]]];
         cbn [option_map] in Hu; auto.
  - cbn zeta.
    unfold AuthContext.onAuthStateChange, AuthContext.setSession, AuthContext.setUser,
      AuthContext.setLoading, AuthContext.setUserProfile.
    step_handler. destruct session; cbn; auto.
Qed.

Lemma auth_context_after_event_witness :
  AuthContext.userProfile
    (local (run (AuthContext.onAuthStateChange AuthContext.SIGNED_IN
                   (Some (AuthContext.mkSession Sample.bob)))
                (Sample.first_sign_in [Sample.served; Sample.served])))
  = Some (Profile.mk "b0b00000-0000" "bob" "bob@example.org" None None)
  /\ own_profile
       (db (run (AuthContext.onAuthStateChange AuthContext.SIGNED_IN
                   (Some (AuthContext.mkSession Sample.bob)))
                (Sample.first_sign_in [Sample.served; Sample.served])))
       Sample.bob
       (AuthContext.userProfile
          (local (run (AuthContext.onAuthStateChange AuthContext.SIGNED_IN
                         (Some (AuthContext.mkSession Sample.bob)))
                      (Sample.first_sign_in [Sample.served; Sample.served])))).
Proof.
  split; [reflexivity|].
  exact (proj2 (proj2 (proj2
           (proj1 (auth_context_after_event
                     (Sample.first_sign_in [Sample.served; Sample.served])
                     (AuthContext.mkSession Sample.bob) None)
              AuthContext.SIGNED_IN (or_introl eq_refl))))).
Defined.

(** ** Creating and deleting a project *)

Lemma map_unchanged {A} (f : A -> A) (l : list A) :
  (forall x, In x l -> f x = x) -> map f l = l.
Proof.
  intros H. rewrite <- (map_id l) at 2. now apply map_ext_in.
Qed.

(** Creating a project and deleting it again gives the store and the
    project list of the page back, when the name does not trim to the empty
    string, the creator has a profile and the id the store generates is new:
    the created row carries the creator, the chosen members and progress 0,
    is put first on the page, and the delete removes that row only and
    orphans no task. *)
Lemma createProject_then_deleteProject (trim : string -> string)
    (w : World ProjectsPage.State) (user : User.t)
    (f f2 : Id) (t t2 : Z) (rest : list Reply) :
  Js.falsy (trim (ProjectsPage.name (ProjectsPage.newProject (local w)))) = false ->
  has_profile (db w) (User.id user) = true ->
  replies w = Served f t :: Served f2 t2 :: rest ->
  (forall p, In p (projects (db w)) -> Project.id p <> f) ->
  (forall p, In p (ProjectsPage.projects (local w)) -> Project.id p <> f) ->
  (forall x, In x (tasks (db w)) -> Task.project_id x <> Some f) ->
  let w1 := run (ProjectsPage.createProject trim user) w in
  let w2 := run (ProjectsPage.deleteProject f) w1 in
  (exists created,
      projects (db w1) = (projects (db w) ++ [created])%list
      /\ ProjectsPage.projects (local w1) = created :: ProjectsPage.projects (local w)
      /\ Project.id created = f
      /\ Project.creator_id created = User.id user
      /\ Project.team_members created
         = ProjectsPage.selectedMembers (ProjectsPage.newProject (local w))
      /\ Project.progress created = 0)
  /\ db w2 = db w
  /\ ProjectsPage.projects (local w2) = ProjectsPage.projects (local w).
Proof.
  intros Hn Hprof Hr Hdb Hpage Htasks. destruct w as [d rs sk loc].
  cbn [db replies local] in *. subst rs. cbn zeta.
  unfold ProjectsPage.createProject, ProjectsPage.deleteProject, delete_projects,
    ProjectsPage.setProjects, ProjectsPage.setNewProject, ProjectsPage.setShowAddForm,
    ProjectsPage.setSelectedProject, ProjectsPage.setShowProjectDetail.
  step_handler. cbn [local]. rewrite Hn. step_handler.
  unfold project_constraints. cbn [Project.creator_id]. rewrite Hprof.
  cbn [rows with_rows projects_table local ProjectsPage.projects ProjectsPage.detail].
  assert (Hkeep : forall l : list Project.t,
            (forall p, In p l -> Project.id p <> f) ->
            List.filter (fun p => negb (Project.id p =? f)) l = l).
  { intros l H. apply filter_all. intros p Hp. apply negb_true_iff, String.eqb_neq.
    now apply H. }
  assert (Hgone : forall l : list Project.t,
            (forall p, In p l -> Project.id p <> f) ->
            List.filter (fun p => Project.id p =? f) l = []).
  { intros l H. apply filter_none. intros p Hp. apply String.eqb_neq. now apply H. }
  split.
  - eexists. repeat (split; [reflexivity|]). reflexivity.
  - destruct (Projects.selectedProject (ProjectsPage.detail loc)) as [sel|];
      [destruct (Project.id sel =? f)|];
      cbn [fst snd db local ProjectsPage.projects projects tasks List.filter
           Project.id];
      rewrite ?String.eqb_refl; cbn [negb];
      (split; [|now apply Hkeep]);
      rewrite !filter_app, (Hkeep _ Hdb), (Hgone _ Hdb);
      cbn [List.filter Project.id]; rewrite String.eqb_refl; cbn [negb app map];
      rewrite app_nil_r;
      (rewrite map_unchanged;
       [now destruct d
       | intros x Hx; cbn [existsb]; rewrite orb_false_r;
         destruct (Task.project_id x) as [i|] eqn:E; cbn [option_id_eqb Project.id];
         [|reflexivity];
         destruct (String.eqb_spec i f) as [->|_]; [|reflexivity];
         exfalso; apply (Htasks x Hx); exact E]).
Qed.

Lemma createProject_then_deleteProject_witness :
  db (run (ProjectsPage.deleteProject "n1")
          (run (ProjectsPage.createProject Js.ascii_trim Sample.alice)
               (Sample12.project_form [Sample.served; Sample.served])))
  = Sample.project_db [Sample.task 1 in_progress].
Proof.
  refine (proj1 (proj2 (createProject_then_deleteProject Js.ascii_trim
                          (Sample12.project_form [Sample.served; Sample.served])
                          Sample.alice "n1" "n1" 1000 1000 [] eq_refl eq_refl eq_refl
                          _ _ _))).
  - intros p [<-|[]]. discriminate.
  - intros p [<-|[]]. discriminate.
  - intros x [<-|[]]. discriminate.
Defined.

(** ** Who sees a project *)

(** A project created by a user who has a profile, under a name that does
    not trim to the empty string, is listed by the next served
    [fetchProjects] of a viewer exactly when the viewer is its creator or
    one of the members chosen in the form. *)
Lemma created_project_visible_to_members (trim : string -> string)
    (w : World ProjectsPage.State) (creator viewer : User.t) (f f2 : Id) (t t2 : Z)
    (rest rest2 : list Reply) (page : World ProjectList.State) :
  Js.falsy (trim (ProjectsPage.name (ProjectsPage.newProject (local w)))) = false ->
  has_profile (db w) (User.id creator) = true ->
  replies w = Served f t :: rest ->
  db page = db (run (ProjectsPage.createProject trim creator) w) ->
  replies page = Served f2 t2 :: rest2 ->
  let np := ProjectsPage.newProject (local w) in
  let created :=
    Project.mk f (ProjectsPage.name np) (ProjectsPage.description np)
      (ProjectsPage.priority np) (ProjectsPage.deadline np) 0 (User.id creator)
      (ProjectsPage.selectedMembers np) t in
  In created (projects (db page))
  /\ (In created (ProjectList.projects (local (run (ProjectList.fetchProjects viewer) page)))
      <-> User.id viewer = User.id creator
          \/ In (User.id viewer) (ProjectsPage.selectedMembers np)).
Proof.
  intros Hn Hprof Hr Hdb Hr2. destruct w as [d rs sk loc], page as [dp rsp skp locp].
  cbn [db replies local] in *. subst rs rsp. cbn zeta.
  set (created := Project.mk f _ _ _ _ 0 (User.id creator) _ t).
  assert (Hin : In created (projects dp)).
  { subst dp. unfold ProjectsPage.createProject. step_handler. cbn [local]. rewrite Hn.
    step_handler. unfold project_constraints. cbn [Project.creator_id]. rewrite Hprof.
    cbn. apply in_or_app. right. now left. }
  split; [exact Hin|].
  unfold ProjectList.fetchProjects, ProjectList.setProjects, ProjectList.setLoading.
  step_handler. cbn [local ProjectList.projects rows projects_table].
  rewrite order_In, filter_In. unfold ProjectList.concerns.
  cbn [created Project.creator_id Project.team_members].
  rewrite orb_true_iff, String.eqb_eq, existsb_exists. split.
  - intros [_ [E | [m [Hm E]]]]; [left; now symmetry|].
    right. apply String.eqb_eq in E. now subst.
  - intros H. split; [exact Hin|]. destruct H as [E|H]; [left; now symmetry|].
    right. exists (User.id viewer). split; [assumption | apply String.eqb_refl].
Qed.

Lemma created_project_visible_to_members_witness :
  map Project.name
    (ProjectList.projects (local (run (ProjectList.fetchProjects Sample.bob)
                                      Sample13.list_page)))
  = ["Docs"; "Launch"]
  /\ map Project.name
       (ProjectList.projects (local (run (ProjectList.fetchProjects Sample.carol)
                                         Sample13.list_page)))
     = []
  /\ In (Project.mk "n1" "Docs" "" low 0 0 "a11ce000-0000" ["b0b00000-0000"] 1000)
        (projects (db Sample13.list_page)).
Proof.
  split; [reflexivity|]. split; [reflexivity|].
  exact (proj1 (created_project_visible_to_members Js.ascii_trim
                  (Sample12.project_form [Sample.served]) Sample.alice Sample.bob
                  "n1" "n1" 1000 1000 [] [] Sample13.list_page
                  eq_refl eq_refl eq_refl eq_refl eq_refl)).
Defined.

(** ** The progress a fresh page persists *)

Lemma insert_by_length {R} (key : R -> Z) (asc : bool) (x : R) (l : list R) :
  List.length (insert_by key asc x l) = Datatypes.S (List.length l).
Proof.
  induction l as [|z l IH]; [reflexivity|].
  cbn. destruct (if asc then (key x <=? key z)%Z else (key z <=? key x)%Z); cbn; [reflexivity|].
  now rewrite IH.
Qed.

Lemma order_length {R} (key : R -> Z) (asc : bool) (l : list R) :
  List.length (order key asc l) = List.length l.
Proof.
  unfold order. induction l as [|z l IH]; [reflexivity|].
  cbn. now rewrite insert_by_length, IH.
Qed.

Lemma count_after_update (l : list Task.t) (taskId : Id) (st : task_status) :
  st = completed
  \/ (forall x, In x l -> Task.id x = taskId -> Task.status x <> completed) ->
  List.length (List.filter
                 (fun t => task_status_eqb (Task.status t) completed
                           || ((Task.id t =? taskId) && task_status_eqb st completed)) l)
  = count_completed
      (map (fun x => if Task.id x =? taskId then Task.with_status st x else x) l).
Proof.
  intros H. unfold count_completed. rewrite filter_map_length. f_equal.
  apply filter_ext_in. intros x Hin.
  destruct (String.eqb_spec (Task.id x) taskId) as [E|E]; cbn.
  - destruct (task_status_eqb_spec st completed) as [->|Hst].
    + now rewrite orb_true_r.
    + rewrite orb_false_r. destruct H as [H|H]; [contradiction|].
      specialize (H x Hin E).
      destruct (task_status_eqb_spec (Task.status x) completed); [contradiction|reflexivity].
  - now rewrite orb_false_r.
Qed.

Lemma newProgress_of_listed (l : list Task.t) (taskId : Id) (st : task_status) :
  (List.length l < 40)%nat ->
  st = completed
  \/ (forall x, In x l -> Task.id x = taskId -> Task.status x <> completed) ->
  Projects.newProgress (order Task.created_at false l) taskId st
  = computeProjectProgress
      (map (fun x => if Task.id x =? taskId then Task.with_status st x else x) l).
Proof.
  intros Hlen H. unfold Projects.newProgress, Projects.completedTasks, Projects.totalTasks.
  rewrite <- order_filter, !order_length.
  rewrite progress_of_counts_exact; [|apply filter_length_le|assumption].
  rewrite (count_after_update l taskId st H).
  destruct l as [|x l]; [reflexivity|].
  cbn [map computeProjectProgress List.length Nat.ltb Nat.leb]. now rewrite length_map.
Qed.

(** When the Projects page has just fetched the tasks of the open project
    and lists fewer than 40 of them, a served status change that completes a
    task, or changes one that was not completed, persists the exact progress
    over the tasks the store shows to the user (those the user created or is
    assigned): the rows of the project that the user created, and the
    project held by the page, get [round(100 * completed / total)] over the
    tasks the store then shows for the project; the rows of other creators
    are as they were; and the task list of the page is still what a fetch
    would give.  When the store shows the user every task of the project,
    the value is the exact progress of the project. *)
Lemma fetch_then_update_persists_exact_progress (w : World Projects.State) (user : User.t)
    (taskId : Id) (st : task_status) (selected : Project.t) (f1 f2 f3 : Id) (t1 t2 t3 : Z)
    (rest : list Reply) :
  Projects.selectedProject (local w) = Some selected ->
  replies w = Served f1 t1 :: Served f2 t2 :: Served f3 t3 :: rest ->
  (List.length (visible_tasks_of_project (db w) (User.id user) (Project.id selected)) < 40)%nat ->
  st = completed
  \/ (forall x, In x (tasks (db w)) -> Task.id x = taskId -> Task.status x <> completed) ->
  let w1 := run (ProjectList.fetchProjectTasks user) w in
  let w2 := run (Projects.updateTaskStatus user taskId st) w1 in
  let shown :=
    computeProjectProgress
      (visible_tasks_of_project (db w2) (User.id user) (Project.id selected)) in
  (forall p, In p (projects (db w2)) -> Project.id p = Project.id selected ->
             Project.creator_id p = User.id user -> Project.progress p = shown)
  /\ (forall p, In p (projects (db w2)) -> Project.creator_id p <> User.id user ->
                In p (projects (db w)))
  /\ option_map Project.progress (Projects.selectedProject (local w2)) = Some shown
  /\ Projects.projectTasks (local w2)
     = project_tasks_listed (db w2) (User.id user) (Project.id selected)
  /\ ((forall x, In x (tasks_of_project (db w) (Project.id selected)) ->
                 Policy.tasks_select (User.id user) x = true) ->
      shown = computeProjectProgress (tasks_of_project (db w2) (Project.id selected))).
Proof.
  intros Hs Hr Hlen Hst. destruct w as [d rs sk loc]. cbn [db replies local] in *.
  subst rs. cbn zeta.
  unfold ProjectList.fetchProjectTasks, Projects.setProjectTasks. step_handler.
  cbn [local]. rewrite Hs. step_handler. cbn [rows tasks_table].
  fold (visible_tasks_of_project d (User.id user) (Project.id selected)).
  unfold Projects.updateTaskStatus, Projects.setProjectTasks, Projects.setSelectedProject.
  step_handler. cbn [local Projects.selectedProject Projects.projectTasks]. rewrite Hs.
  step_handler.
  cbn [local Projects.selectedProject Projects.projectTasks db rows with_rows tasks_table
       projects_table projects tasks].
  rewrite ?Hs.
  assert (Hproj : forall d' : DB,
            tasks d' = map (fun x => if Task.id x =? taskId then Task.with_status st x else x)
                         (tasks d) ->
            visible_tasks_of_project d' (User.id user) (Project.id selected)
            = map (fun x => if Task.id x =? taskId then Task.with_status st x else x)
                (visible_tasks_of_project d (User.id user) (Project.id selected))).
  { intros d' E. unfold visible_tasks_of_project. rewrite E. apply filter_map_commute.
    intros x. now destruct (Task.id x =? taskId). }
  assert (Hall : forall d' : DB,
            tasks d' = map (fun x => if Task.id x =? taskId then Task.with_status st x else x)
                         (tasks d) ->
            (forall x, In x (tasks_of_project d (Project.id selected)) ->
                       Policy.tasks_select (User.id user) x = true) ->
            visible_tasks_of_project d' (User.id user) (Project.id selected)
            = tasks_of_project d' (Project.id selected)).
  { intros d' E Hv. unfold visible_tasks_of_project, tasks_of_project. rewrite E.
    apply filter_ext_in. intros y Hy. apply in_map_iff in Hy. destruct Hy as [x [<- Hx]].
    destruct (option_id_eqb
                (Task.project_id (if Task.id x =? taskId then Task.with_status st x else x))
                (Project.id selected)) eqn:Ep; [|apply andb_false_r].
    rewrite andb_true_r.
    assert (Ex : option_id_eqb (Task.project_id x) (Project.id selected) = true)
      by (now destruct (Task.id x =? taskId)).
    assert (Hx' : In x (tasks_of_project d (Project.id selected)))
      by (apply filter_In; now split).
    specialize (Hv x Hx'). now destruct (Task.id x =? taskId). }
  assert (Hst' : st = completed
                 \/ (forall x, In x (visible_tasks_of_project d (User.id user)
                                       (Project.id selected)) ->
                       Task.id x = taskId -> Task.status x <> completed)).
  { destruct Hst as [Hst|Hst]; [now left | right]. intros x Hx. apply Hst.
    unfold visible_tasks_of_project in Hx. apply filter_In in Hx. apply Hx. }
  pose proof (newProgress_of_listed _ taskId st Hlen Hst') as Hnew.
  set (L := visible_tasks_of_project d (User.id user) (Project.id selected)) in *.
  split; [|split; [|split; [|split]]].
  - intros p Hp Hid Hc. erewrite Hproj by reflexivity. rewrite <- Hnew. apply in_map_iff in Hp.
    destruct Hp as [x [<- Hx]]. unfold Policy.projects_update in *.
    destruct (String.eqb_spec (Project.creator_id x) (User.id user)) as [Ec|Ec];
      destruct (String.eqb_spec (Project.id x) (Project.id selected)) as [Ei|Ei];
      cbn [andb] in *; try reflexivity; contradiction.
  - intros p Hp Hc. apply in_map_iff in Hp. destruct Hp as [x [<- Hx]].
    unfold Policy.projects_update in *.
    destruct (String.eqb_spec (Project.creator_id x) (User.id user)) as [Ec|Ec];
      cbn [andb] in *; [|exact Hx].
    destruct (Project.id x =? Project.id selected); [|exact Hx].
    exfalso. apply Hc. exact Ec.
  - cbn [option_map Project.with_progress Project.progress].
    erewrite Hproj by reflexivity. now rewrite <- Hnew.
  - unfold project_tasks_listed. erewrite Hproj by reflexivity. symmetry. apply order_map.
    intros x. now destruct (Task.id x =? taskId).
  - intros Hv. f_equal. now apply Hall.
Qed.

Lemma fetch_then_update_persists_exact_progress_witness :
  map Project.progress
    (projects (db (run (Projects.updateTaskStatus Sample.alice "t02" completed)
                       (run (ProjectList.fetchProjectTasks Sample.alice)
                            (Sample13.detail_page
                               [Sample.served; Sample.served; Sample.served])))))
  = [67]
  /\ option_map Project.progress
       (Projects.selectedProject
          (local (run (Projects.updateTaskStatus Sample.alice "t02" completed)
                      (run (ProjectList.fetchProjectTasks Sample.alice)
                           (Sample13.detail_page
                              [Sample.served; Sample.served; Sample.served])))))
     = Some (computeProjectProgress
               (visible_tasks_of_project
                  (db (run (Projects.updateTaskStatus Sample.alice "t02" completed)
                           (run (ProjectList.fetchProjectTasks Sample.alice)
                                (Sample13.detail_page
                                   [Sample.served; Sample.served; Sample.served]))))
                  "a11ce000-0000" "p1")).
Proof.
  split; [vm_compute; reflexivity|].
  refine (proj1 (proj2 (proj2 (fetch_then_update_persists_exact_progress
                          (Sample13.detail_page [Sample.served; Sample.served; Sample.served])
                          Sample.alice
                          "t02" completed Sample.launch "n1" "n1" "n1" 1000 1000 1000 []
                          eq_refl eq_refl _ (or_introl eq_refl))))).
  cbn. lia.
Defined.

(** ** The dates of the Calendar page *)

Lemma iso_day_cell (offset day : Z) :
  CalendarPage.iso_day (CalendarPage.cell offset day) = day + (- offset) / Activity.day_ms.
Proof.
  unfold CalendarPage.iso_day, CalendarPage.cell.
  replace (day * Activity.day_ms - offset) with (- offset + day * Activity.day_ms) by lia.
  rewrite Z.div_add by (unfold Activity.day_ms; lia). lia.
Qed.

(** The date [addEvent] stores for a selected cell is the UTC day of the
    cell's local midnight: the day of the cell in a zone at or behind UTC,
    and the day before it in a zone ahead of UTC.  The page reads the date
    back the same way, so an event stored for a cell is listed under that
    cell and under no other. *)
Lemma calendar_cell_date (offset day : Z) :
  - Activity.day_ms < offset <= Activity.day_ms ->
  CalendarPage.stored_date (CalendarPage.cell offset day)
  = (if (0 <? offset)%Z then day - 1 else day)
  /\ forall (events : list CalendarPage.Event) (e : CalendarPage.Event) (other : Z),
       In e events ->
       CalendarPage.date e = CalendarPage.stored_date (CalendarPage.cell offset day) ->
       (In e (CalendarPage.getEventsForDate events (CalendarPage.cell offset other))
        <-> other = day).
Proof.
  intros Hz. unfold CalendarPage.stored_date. split.
  - rewrite iso_day_cell. unfold Activity.day_ms in *.
    destruct (Z.ltb_spec 0 offset).
    + assert (E : - offset / (1000 * 60 * 60 * 24) = -1).
      { symmetry. apply (Z.div_unique _ _ _ (1000 * 60 * 60 * 24 - offset)); lia. }
      lia.
    + rewrite Z.div_small by lia. lia.
  - intros events e other Hin Hd. unfold CalendarPage.getEventsForDate.
    rewrite filter_In, Z.eqb_eq, Hd, !iso_day_cell. split.
    + intros [_ H]. lia.
    + intros ->. split; [assumption | reflexivity].
Qed.

Lemma calendar_cell_date_witness :
  CalendarPage.stored_date (CalendarPage.cell 19800000 20291) = 20290.
Proof.
  refine (proj1 (calendar_cell_date 19800000 20291 _)).
  unfold Activity.day_ms. lia.
Defined.
